(** * M3S3P: element-wise vector addition, OpenMP and OpenCL variants

    A shallow embedding of the two programs of the repository

      - the OpenMP program (function [vector_add_openmp], [main], [init],
        [print]), and
      - the OpenCL program [vector_add_opencl.cpp] ([main], [init], [print],
        [free_memory], [copy_kernel_args], [setup_kernel_memory],
        [setup_openCL_device_context_queue_kernel], [build_program],
        [create_device]),

    followed by the properties of the specification proved about them.

    Host memory is a finite map from cell addresses to [int] values (one
    cell per [int], so that [p + i] is the address of [p[i]]); C [int]
    arithmetic is written on [Z] with its 32-bit wrap-around; the calls
    into the C library, the OpenMP runtime and the OpenCL runtime are the
    only things taken as given, through the [Platform] class (C library)
    and the [cl_env] record (status returned by each OpenCL call, and
    what the C library answers about the kernel source file and the
    character buffers of [build_program]). *)

From Stdlib Require Import ZArith String List Lia.
From stdpp Require Import base option list list_numbers functions gmap strings pretty.

Local Open Scope string_scope.
Local Open Scope list_scope.
Local Open Scope Z_scope.

(** ** C [int] arithmetic *)

Definition INT_MIN : Z := - 2 ^ 31.
Definition INT_MAX : Z := 2 ^ 31 - 1.

(** Reduction of a mathematical integer to the 32-bit two's complement
    range. *)
Definition wrap_int (z : Z) : Z := (z + 2 ^ 31) mod 2 ^ 32 - 2 ^ 31.

(** [x + y] on [int] operands. *)
Definition int_add (x y : Z) : Z := wrap_int (x + y).

Definition in_int (z : Z) : Prop := INT_MIN ≤ z ≤ INT_MAX.

(** ** Host memory *)

(** A cell address; [NULL] is address 0 and is never allocated. *)
Definition NULL : Z := 0.

(** [p[i]] as an rvalue: reading outside the allocated cells is undefined
    behaviour, rendered as [None]. *)
Definition load (h : gmap Z Z) (p i : Z) : option Z := h !! (p + i).

(** [p[i] = v]. *)
Definition store (h : gmap Z Z) (p i v : Z) : option (gmap Z Z) :=
  match h !! (p + i) with
  | Some _ => Some (<[p + i := v]> h)
  | None => None
  end.

(** The [n] cells [p[0]], ..., [p[n-1]], when all of them are allocated. *)
Definition read_array (h : gmap Z Z) (p n : Z) : option (list Z) :=
  mapM (load h p) (seqZ 0 n).

(** The arrays of [n] cells at [p] and at [q] share no cell. *)
Definition apart (p q n : Z) : Prop := p + n ≤ q ∨ q + n ≤ p.

(** Runs the iterations [idxs] of a loop body one after the other. *)
Fixpoint for_each (idxs : list Z) (body : Z → gmap Z Z → option (gmap Z Z))
    (h : gmap Z Z) : option (gmap Z Z) :=
  match idxs with
  | [] => Some h
  | i :: rest => h' ← body i h; for_each rest body h'
  end.

(** ** Observable behaviour *)

Inductive device_type := CL_DEVICE_TYPE_GPU | CL_DEVICE_TYPE_CPU.

(** The calls into the OpenCL runtime, with the arguments that matter. *)
Inductive api_call :=
  | clGetPlatformIDs
  | clGetDeviceIDs (ty : device_type)
  | clCreateContext (dev : Z)
  | clCreateProgramWithSource (ctx : Z) (src : string)
  | clBuildProgram (prog : Z)
  | clGetProgramBuildInfo (prog dev size : Z)
  | clCreateCommandQueueWithProperties (ctx dev : Z)
  | clCreateKernel (prog : Z) (name : string)
  | clCreateBuffer (ctx bytes : Z)
  | clEnqueueWriteBuffer (q buf bytes : Z)
  | clSetKernelArg (k idx : Z)
  | clEnqueueNDRangeKernel (q k global : Z)
  | clWaitForEvents (ev : Z)
  | clEnqueueReadBuffer (q buf bytes : Z)
  | clReleaseMemObject (obj : Z)
  | clReleaseKernel (obj : Z)
  | clReleaseCommandQueue (obj : Z)
  | clReleaseProgram (obj : Z)
  | clReleaseContext (obj : Z).

(** What a run shows to the outside, in order. *)
Inductive obs :=
  | Stdout (text : string)            (* one printf *)
  | StdoutMs (label : string)         (* printf of [label], a duration, " ms\n" *)
  | Stderr (msg : string)             (* perror(msg) *)
  | Call (c : api_call) (status : Z). (* one OpenCL call and its status *)

(** ** The C library and the process state on the host *)

(** What the programs use of the C library and of the OpenMP runtime.
    Neither program calls [srand], so [rand()] yields the sequence the
    library defines for the default seed: [rand_seq k] is its [k]-th
    value. *)
Class Platform := {
  rand_seq : nat → Z;
  atoi : string → Z;
  omp_get_max_threads : Z
}.

Record host := {
  heap : gmap Z Z;        (* allocated int cells and their values *)
  blocks : gmap Z Z;      (* live malloc blocks: first cell ↦ number of cells *)
  brk : Z;                (* first address never handed out *)
  rand_calls : nat;       (* number of calls of rand() so far *)
  trace : list obs        (* what has been observed so far, oldest first *)
}.

(** The state of a process when [main] is entered. *)
Definition host0 : host :=
  {| heap := ∅; blocks := ∅; brk := 1; rand_calls := 0; trace := [] |}.

Definition upd_heap (f : gmap Z Z → gmap Z Z) (h : host) : host :=
  {| heap := f (heap h); blocks := blocks h; brk := brk h;
     rand_calls := rand_calls h; trace := trace h |}.

Definition log (e : obs) (h : host) : host :=
  {| heap := heap h; blocks := blocks h; brk := brk h;
     rand_calls := rand_calls h; trace := trace h ++ [e] |}.

(** ** Computations that may call [exit] *)

Inductive outcome (S A : Type) :=
  | Ret (a : A) (s : S)        (* ran to completion *)
  | Exit (code : Z) (s : S)    (* called exit(code) *)
  | Crash (s : S).             (* undefined behaviour on the host or device *)
Arguments Ret {S A} a s.
Arguments Exit {S A} code s.
Arguments Crash {S A} s.

Definition M (S A : Type) : Type := S → outcome S A.

Definition ret {S A} (a : A) : M S A := λ s, Ret a s.

Definition bind {S A B} (m : M S A) (k : A → M S B) : M S B :=
  λ s, match m s with
       | Ret a s' => k a s'
       | Exit c s' => Exit c s'
       | Crash s' => Crash s'
       end.

Declare Scope prog_scope.
Delimit Scope prog_scope with prog.
Notation "x <- m ;; k" := (bind m (λ x, k))
  (at level 100, m at next level, right associativity) : prog_scope.
Notation "m ;; k" := (bind m (λ _, k))
  (at level 100, right associativity) : prog_scope.
Local Open Scope prog_scope.

Definition exit {S A} (code : Z) : M S A := λ s, Exit code s.

Definition final_state {S A} (o : outcome S A) : S :=
  match o with Ret _ s | Exit _ s | Crash s => s end.

(** A loop over the indices [idxs]. *)
Fixpoint for_ {S} (idxs : list Z) (body : Z → M S unit) : M S unit :=
  match idxs with
  | [] => ret tt
  | i :: rest => body i ;; for_ rest body
  end.

(** [while]-free counting loop [for (i = lo; i < hi; i++)]. *)
Definition for_range {S} (lo hi : Z) (body : Z → M S unit) : M S unit :=
  for_ (seqZ lo (hi - lo)) body.

(** A host computation run inside a program that has further state. *)
Definition on_host {G A} (m : M host A) : M (host * G) A :=
  λ '(h, g), match m h with
             | Ret a h' => Ret a (h', g)
             | Exit c h' => Exit c (h', g)
             | Crash h' => Crash (h', g)
             end.

Section Libc.
Context `{Platform}.

Definition printf (text : string) : M host unit :=
  λ h, Ret tt (log (Stdout text) h).

Definition printf_ms (label : string) : M host unit :=
  λ h, Ret tt (log (StdoutMs label) h).

Definition perror (msg : string) : M host unit :=
  λ h, Ret tt (log (Stderr msg) h).

(** [(int * )malloc(sizeof(int) * size)].  A negative [size] converts to
    a byte count no allocator serves, and [malloc] returns [NULL];
    otherwise the block is fresh, its cells hold an indeterminate value
    (written 0), and one cell is left unused behind it. *)
Definition malloc_int (size : Z) : M host Z :=
  λ h, if size <? 0 then Ret NULL h
       else
         let p := brk h in
         Ret p {| heap := foldr (λ i m, <[p + i := 0]> m) (heap h) (seqZ 0 size);
                  blocks := <[p := size]> (blocks h);
                  brk := p + size + 1;
                  rand_calls := rand_calls h;
                  trace := trace h |}.

(** [free(p)]: nothing for [NULL], undefined for anything that is not a
    live block. *)
Definition free (p : Z) : M host unit :=
  λ h, if p =? NULL then Ret tt h
       else match blocks h !! p with
            | Some n =>
                Ret tt {| heap := foldr (λ i m, delete (p + i) m) (heap h) (seqZ 0 n);
                          blocks := delete p (blocks h);
                          brk := brk h;
                          rand_calls := rand_calls h;
                          trace := trace h |}
            | None => Crash h
            end.

Definition rand : M host Z :=
  λ h, Ret (rand_seq (rand_calls h))
           {| heap := heap h; blocks := blocks h; brk := brk h;
              rand_calls := S (rand_calls h); trace := trace h |}.

(** [p[i]] read and [p[i] = v] on the process heap. *)
Definition get_elem (p i : Z) : M host Z :=
  λ h, match load (heap h) p i with
       | Some x => Ret x h
       | None => Crash h
       end.

Definition set_elem (p i v : Z) : M host unit :=
  λ h, match store (heap h) p i v with
       | Some m => Ret tt (upd_heap (λ _, m) h)
       | None => Crash h
       end.

(** A function on the heap alone, run on the process. *)
Definition heap_step (f : gmap Z Z → option (gmap Z Z)) : M host unit :=
  λ h, match f (heap h) with
       | Some m => Ret tt (upd_heap (λ _, m) h)
       | None => Crash h
       end.

(** The line feed. *)
Definition LF : string := String (Ascii.ascii_of_nat 10) EmptyString.

(** [printf("%d ", x)]. *)
Definition fmt_d (x : Z) : string := pretty x +:+ " ".
End Libc.

(** ** The OpenMP program *)

Module OpenMP.

(** The loop body [v_out[i] = v1[i] + v2[i]]. *)
Definition body (v1 v2 v_out : Z) (i : Z) (h : gmap Z Z) : option (gmap Z Z) :=
  a ← load h v1 i;
  b ← load h v2 i;
  store h v_out i (int_add a b).

(** [#pragma omp parallel for] hands the iterations [0 ≤ i < size] to the
    threads of the team; every iteration is executed exactly once, in an
    order the runtime chooses.  A schedule is an order in which the
    iterations take effect. *)
Definition schedule (size : Z) (sched : list Z) : Prop :=
  sched ≡ₚ seqZ 0 size.

Definition vector_add_openmp_sched (sched : list Z) (v1 v2 v_out : Z)
    (h : gmap Z Z) : option (gmap Z Z) :=
  for_each sched (body v1 v2 v_out) h.

(** [vector_add_openmp(v1, v2, v_out, size)], iterations in index order. *)
Definition vector_add_openmp (v1 v2 v_out size : Z) (h : gmap Z Z)
    : option (gmap Z Z) :=
  vector_add_openmp_sched (seqZ 0 size) v1 v2 v_out h.

Definition PRINT : Z := 1.

(** The global [int SZ]. *)
Record globals := { SZ : Z }.
Definition globals0 : globals := {| SZ := 100000000 |}.

Definition set_SZ (n : Z) : M (host * globals) unit :=
  λ '(h, _), Ret tt (h, {| SZ := n |}).

(** Runs [f SZ] on the host. *)
Definition with_SZ {A} (f : Z → M host A) : M (host * globals) A :=
  λ s, on_host (f (SZ (snd s))) s.

Section Program.
Context `{Platform}.

(** [init(A, size)]; the pointer stored in [A] is the result. *)
Definition init (size : Z) : M host Z :=
  A <- malloc_int size ;;
  for_range 0 size (λ i, r <- rand ;; set_elem A i (r `rem` 100)) ;;
  ret A.

Definition print (A size : Z) : M host unit :=
  if PRINT =? 0 then ret tt
  else
    (if (PRINT =? 1) && (15 <? size) then
       for_range 0 5 (λ i, x <- get_elem A i ;; printf (fmt_d x)) ;;
       printf " ..... " ;;
       for_range (size - 5) size (λ i, x <- get_elem A i ;; printf (fmt_d x))
     else
       for_range 0 size (λ i, x <- get_elem A i ;; printf (fmt_d x))) ;;
    printf (LF +:+ "----------------------------" +:+ LF).

(** [main], lines 22 to 36: the size argument and the three vectors.
    The result is the triple of the locals [v1], [v2], [v_out]. *)
Definition main_setup (argv : list string) : M (host * globals) (Z * Z * Z) :=
  let argc := Z.of_nat (length argv) in
  (if 1 <? argc then set_SZ (atoi (default EmptyString (argv !! 1%nat))) else ret tt) ;;
  let num_threads := omp_get_max_threads in
  on_host (printf ("Running OpenMP implementation with " +:+ pretty num_threads
                     +:+ " threads" +:+ LF)) ;;
  v1 <- with_SZ init ;;
  v2 <- with_SZ init ;;
  v_out <- with_SZ init ;;
  ret (v1, v2, v_out).

(** [main], lines 38 to 62. *)
Definition main_run (vs : Z * Z * Z) : M (host * globals) Z :=
  let '(v1, v2, v_out) := vs in
  on_host (printf ("Vector v1:" +:+ LF)) ;;
  with_SZ (print v1) ;;
  on_host (printf ("Vector v2:" +:+ LF)) ;;
  with_SZ (print v2) ;;
  with_SZ (λ size, heap_step (vector_add_openmp v1 v2 v_out size)) ;;
  on_host (printf ("Vector v_out (OpenMP):" +:+ LF)) ;;
  with_SZ (print v_out) ;;
  on_host (printf_ms "CPU (OpenMP) Execution Time: ") ;;
  on_host (free v1) ;;
  on_host (free v2) ;;
  on_host (free v_out) ;;
  ret 0.

Definition main (argv : list string) : M (host * globals) Z :=
  vs <- main_setup argv ;; main_run vs.
End Program.

End OpenMP.

(** ** The OpenCL program, [vector_add_opencl.cpp] *)

Module OpenCL.

Definition PRINT : Z := 1.

(** Status codes of the OpenCL API that the model names. *)
Definition CL_SUCCESS : Z := 0.
Definition CL_DEVICE_NOT_FOUND : Z := -1.
Definition CL_INVALID_VALUE : Z := -30.
Definition CL_INVALID_MEM_OBJECT : Z := -38.
Definition CL_INVALID_KERNEL_ARGS : Z := -52.
Definition CL_INVALID_EVENT : Z := -58.
Definition CL_INVALID_BUFFER_SIZE : Z := -61.
Definition CL_INVALID_GLOBAL_WORK_SIZE : Z := -63.

(** [sizeof(int)] and the conversion of an [int] to [size_t]. *)
Definition sizeof_int : Z := 4.
Definition size_t (z : Z) : Z := z mod 2 ^ 64.

(** The global variables of the translation unit. *)
Inductive gvar :=
  | SZ | v1 | v2 | v_out
  | bufV1 | bufV2 | bufV_out
  | device_id | context | program | kernel | queue | event
  | err.

#[global] Instance gvar_eq_dec : EqDecision gvar.
Proof. solve_decision. Defined.

(** The state of the OpenCL runtime that the program can tell apart:
    the memory objects with their cells, the kernel arguments bound so
    far, and the next object handle. *)
Record cl_runtime := {
  mem : gmap Z (list Z);
  kargs : gmap Z Z;
  fresh : Z
}.

Record state := {
  vars : gvar → Z;
  device : cl_runtime
}.

(** [int SZ = 100000000], [cl_event event = NULL], and zero
    initialisation for the other globals. *)
Definition vars0 : gvar → Z :=
  λ x, match x with SZ => 100000000 | _ => 0 end.

Definition state0 : state :=
  {| vars := vars0; device := {| mem := ∅; kargs := ∅; fresh := 1 |} |}.

(** What the platform answers to the program's calls: the status of
    each call, the device handles, the kernel source file as the C
    library reads it, the character buffers [malloc] serves, the build
    log, the contents of fresh device memory and the largest buffer the
    device serves. *)
Record cl_env := {
  st_platform : Z;
  st_gpu : Z;
  dev_gpu : Z;
  st_cpu : Z;
  dev_cpu : Z;
  st_context : Z;
  file : string → option string;   (* fopen(name, "r"): the text of the stream, none for NULL *)
  ftell_end : string → Z;          (* ftell after fseek(..., 0, SEEK_END); -1 when it fails *)
  malloc_ok : Z → bool;            (* whether malloc serves a character buffer of so many bytes *)
  char_junk : nat → Ascii.ascii;   (* the contents of a fresh character buffer *)
  st_program : Z;
  st_build : Z;
  build_log : string;
  st_log_size : Z;                 (* clGetProgramBuildInfo asked for the size of the log *)
  log_size_junk : Z;               (* the value of the local log_size before it is assigned *)
  st_log : Z;                      (* clGetProgramBuildInfo asked for the log itself *)
  st_queue : Z;
  st_kernel : Z;
  st_buffer : gvar → Z;      (* by the variable that receives the handle *)
  st_write : gvar → Z;       (* by the destination buffer variable *)
  st_setarg : Z → Z;         (* by argument index *)
  st_enqueue : Z;
  st_wait : Z;
  st_read : Z;
  junk : nat → Z;
  max_mem_alloc : Z
}.

Definition prog (A : Type) : Type := M (host * state) A.

Definition get (x : gvar) : prog Z :=
  λ '(h, s), Ret (vars s x) (h, s).

Definition set (x : gvar) (v : Z) : prog unit :=
  λ '(h, s), Ret tt (h, {| vars := <[x := v]> (vars s); device := device s |}).

Definition get_rt : prog cl_runtime :=
  λ '(h, s), Ret (device s) (h, s).

Definition set_rt (r : cl_runtime) : prog unit :=
  λ '(h, s), Ret tt (h, {| vars := vars s; device := r |}).

Definition crash {A} : prog A := λ s, Crash s.

(** *** Character buffers

    [build_program] holds two character buffers, each from its [malloc]
    to its [free] or to the [exit].  They are kept apart from the [int]
    cells of the process heap and are written as values: [None] is the
    null pointer, [Some cells] a block with its characters. *)
Definition NUL : Ascii.ascii := Ascii.zero.

(** [buf[i] = c]: undefined through the null pointer and outside the
    block.  The result is the block after the assignment. *)
Definition set_char (buf : option (list Ascii.ascii)) (i : Z) (c : Ascii.ascii)
    : prog (list Ascii.ascii) :=
  match buf with
  | Some cells =>
      if decide (0 ≤ i < Z.of_nat (length cells))
      then ret (<[Z.to_nat i := c]> cells)
      else crash
  | None => crash
  end.

(** [fread(buf, sizeof(char), n, stream)] on a stream that is at its
    start and holds [text]: at most [n] characters are stored from
    [buf[0]] on; storing past the block is undefined. *)
Definition fread (cells : list Ascii.ascii) (n : Z) (text : string)
    : prog (list Ascii.ascii) :=
  let got := take (Z.to_nat n) (list_ascii_of_string text) in
  if decide (length got ≤ length cells)%nat
  then ret (got ++ drop (length got) cells)
  else crash.

(** The characters of a buffer before its first [NUL], which is what
    [printf("%s", buf)] prints; there is none when the block holds no
    [NUL], and the read runs past it. *)
Fixpoint c_str (cells : list Ascii.ascii) : option string :=
  match cells with
  | [] => None
  | c :: rest =>
      if decide (c = NUL) then Some EmptyString else String c <$> c_str rest
  end.

(** [printf("%s\n", buf)]. *)
Definition printf_s (cells : list Ascii.ascii) : prog unit :=
  match c_str cells with
  | Some text => on_host (printf (text +:+ LF))
  | None => crash
  end.

(** Records one call into the runtime and the status it returned. *)
Definition api (c : api_call) (status : Z) : prog unit :=
  λ '(h, s), Ret tt (log (Call c status) h, s).

Definition new_handle : prog Z :=
  r <- get_rt ;;
  set_rt {| mem := mem r; kargs := kargs r; fresh := fresh r + 1 |} ;;
  ret (fresh r).

(** Modelled from the spec: the kernel source file [./vector_ops_ocl.cl]
    is not among the sources.  The spec gives its entry point the
    arguments [(int size, buffer a, buffer b, buffer out)] and has each
    work item [i] compute [out[i] = a[i] + b[i]]; an access outside a
    buffer is undefined. *)
Definition vector_add_ocl (size : Z) (a b out : list Z) (gid : Z)
    : option (list Z) :=
  x ← a !! Z.to_nat gid;
  y ← b !! Z.to_nat gid;
  if decide (Z.to_nat gid < length out)%nat
  then Some (<[Z.to_nat gid := int_add x y]> out)
  else None.

(** The work items [gids] of one kernel launch, one after the other. *)
Fixpoint run_work_items (gids : list Z) (size : Z) (a b out : list Z)
    : option (list Z) :=
  match gids with
  | [] => Some out
  | g :: rest => out' ← vector_add_ocl size a b out g;
                 run_work_items rest size a b out'
  end.

(** The bound arguments of the kernel, when all four are bound and the
    three buffers are live memory objects: [size], the cells of [a] and
    [b], the handle and the cells of [out]. *)
Definition bound_args (r : cl_runtime) : option (Z * list Z * list Z * Z * list Z) :=
  size ← kargs r !! 0;
  ha ← kargs r !! 1;
  hb ← kargs r !! 2;
  ho ← kargs r !! 3;
  a ← mem r !! ha;
  b ← mem r !! hb;
  out ← mem r !! ho;
  Some (size, a, b, ho, out).

(** *** The OpenCL runtime

    Each call is recorded with its status and takes effect only when
    the status is not negative.  The status comes from the environment,
    except where the arguments alone make the call fail. *)
Section Runtime.
Variable env : cl_env.

Definition cl_GetPlatformIDs : prog Z :=
  let st := st_platform env in
  api clGetPlatformIDs st ;; ret st.

(** Returns the status and the value of [dev] after the call. *)
Definition cl_GetDeviceIDs (ty : device_type) (dev : Z) : prog (Z * Z) :=
  let st := match ty with
            | CL_DEVICE_TYPE_GPU => st_gpu env
            | CL_DEVICE_TYPE_CPU => st_cpu env
            end in
  let found := match ty with
               | CL_DEVICE_TYPE_GPU => dev_gpu env
               | CL_DEVICE_TYPE_CPU => dev_cpu env
               end in
  api (clGetDeviceIDs ty) st ;;
  ret (st, if st <? 0 then dev else found).

(** The calls that create an object return its handle, [NULL] on
    failure, together with the status. *)
Definition create_object (c : api_call) (st : Z) : prog (Z * Z) :=
  api c st ;;
  if st <? 0 then ret (NULL, st)
  else obj <- new_handle ;; ret (obj, st).

Definition cl_CreateContext (dev : Z) : prog (Z * Z) :=
  create_object (clCreateContext dev) (st_context env).

Definition cl_CreateProgramWithSource (ctx : Z) (src : string) : prog (Z * Z) :=
  create_object (clCreateProgramWithSource ctx src) (st_program env).

Definition cl_BuildProgram (prg : Z) : prog Z :=
  let st := st_build env in
  api (clBuildProgram prg) st ;; ret st.

(** [clGetProgramBuildInfo(prg, dev, CL_PROGRAM_BUILD_LOG, 0, NULL,
    &log_size)]: the result is the value of [log_size] after the call.
    The size of the log counts its terminating [NUL]; a call that fails
    leaves [log_size] as it was. *)
Definition cl_GetProgramBuildInfo_size (prg dev log_size : Z) : prog Z :=
  let st := st_log_size env in
  api (clGetProgramBuildInfo prg dev 0) st ;;
  ret (if st <? 0 then log_size else Z.of_nat (String.length (build_log env)) + 1).

(** [clGetProgramBuildInfo(prg, dev, CL_PROGRAM_BUILD_LOG, size, buf,
    NULL)]: the result is the buffer after the call.  The log is stored
    with its terminating [NUL]; a [size] that cannot hold it is refused,
    and a call that fails leaves the buffer as it was. *)
Definition cl_GetProgramBuildInfo (prg dev size : Z) (buf : list Ascii.ascii)
    : prog (list Ascii.ascii) :=
  let text := list_ascii_of_string (build_log env) ++ [NUL] in
  let st := if size <? Z.of_nat (length text) then CL_INVALID_VALUE else st_log env in
  api (clGetProgramBuildInfo prg dev size) st ;;
  ret (if st <? 0 then buf else text ++ drop (length text) buf).

(** [(char * )malloc(bytes)]: the null pointer, or a fresh block whose
    characters are indeterminate. *)
Definition malloc_char (bytes : Z) : prog (option (list Ascii.ascii)) :=
  ret (if malloc_ok env bytes
       then Some (char_junk env <$> seq 0 (Z.to_nat bytes))
       else None).

Definition cl_CreateCommandQueueWithProperties (ctx dev : Z) : prog (Z * Z) :=
  create_object (clCreateCommandQueueWithProperties ctx dev) (st_queue env).

Definition cl_CreateKernel (prg : Z) (name : string) : prog (Z * Z) :=
  create_object (clCreateKernel prg name) (st_kernel env).

(** [clCreateBuffer(ctx, CL_MEM_READ_WRITE, bytes, NULL, NULL)]: a
    buffer of [bytes / sizeof(int)] cells with unspecified contents. *)
Definition cl_CreateBuffer (st : Z) (ctx bytes : Z) : prog Z :=
  let st' := if (bytes =? 0) || (max_mem_alloc env <? bytes)
             then CL_INVALID_BUFFER_SIZE else st in
  api (clCreateBuffer ctx bytes) st' ;;
  if st' <? 0 then ret NULL
  else
    obj <- new_handle ;;
    r <- get_rt ;;
    set_rt {| mem := <[obj := junk env <$> seq 0 (Z.to_nat (bytes `div` sizeof_int))]> (mem r);
              kargs := kargs r; fresh := fresh r |} ;;
    ret obj.

(** Blocking [clEnqueueWriteBuffer(q, buf, CL_TRUE, 0, bytes, ptr, ...)]. *)
Definition cl_EnqueueWriteBuffer (st : Z) (q buf bytes ptr : Z) : prog Z :=
  r <- get_rt ;;
  let st' := match mem r !! buf with
             | None => CL_INVALID_MEM_OBJECT
             | Some cells =>
                 if sizeof_int * Z.of_nat (length cells) <? bytes
                 then CL_INVALID_VALUE else st
             end in
  api (clEnqueueWriteBuffer q buf bytes) st' ;;
  if st' <? 0 then ret st'
  else
    λ '(h, s),
      match read_array (heap h) ptr (bytes `div` sizeof_int), mem r !! buf with
      | Some data, Some cells =>
          Ret st' (h, {| vars := vars s;
                         device := {| mem := <[buf := data ++ drop (length data) cells]> (mem r);
                                      kargs := kargs r; fresh := fresh r |} |})
      | _, _ => Crash (h, s)
      end.

Definition cl_SetKernelArg (k idx value : Z) : prog Z :=
  let st := st_setarg env idx in
  api (clSetKernelArg k idx) st ;;
  if st <? 0 then ret st
  else
    r <- get_rt ;;
    set_rt {| mem := mem r; kargs := <[idx := value]> (kargs r); fresh := fresh r |} ;;
    ret st.

(** [clEnqueueNDRangeKernel(q, k, 1, NULL, global, NULL, 0, NULL, &ev)]:
    returns the status and the value of [ev] after the call.  The
    queue is in order and the program reads the result only after
    waiting, so the work items take effect here. *)
Definition cl_EnqueueNDRangeKernel (q k global ev : Z) : prog (Z * Z) :=
  r <- get_rt ;;
  let st' := match bound_args r with
             | None => CL_INVALID_KERNEL_ARGS
             | Some _ => if global =? 0 then CL_INVALID_GLOBAL_WORK_SIZE
                         else st_enqueue env
             end in
  api (clEnqueueNDRangeKernel q k global) st' ;;
  if st' <? 0 then ret (st', ev)
  else
    match bound_args r with
    | Some (size, a, b, ho, out) =>
        match run_work_items (seqZ 0 global) size a b out with
        | Some out' =>
            set_rt {| mem := <[ho := out']> (mem r); kargs := kargs r; fresh := fresh r |} ;;
            ev' <- new_handle ;;
            ret (st', ev')
        | None => crash
        end
    | None => crash
    end.

Definition cl_WaitForEvents (ev : Z) : prog Z :=
  let st := if ev =? NULL then CL_INVALID_EVENT else st_wait env in
  api (clWaitForEvents ev) st ;; ret st.

(** Blocking [clEnqueueReadBuffer(q, buf, CL_TRUE, 0, bytes, ptr, ...)]. *)
Definition cl_EnqueueReadBuffer (q buf bytes ptr : Z) : prog Z :=
  r <- get_rt ;;
  let st' := match mem r !! buf with
             | None => CL_INVALID_MEM_OBJECT
             | Some cells =>
                 if sizeof_int * Z.of_nat (length cells) <? bytes
                 then CL_INVALID_VALUE else st_read env
             end in
  api (clEnqueueReadBuffer q buf bytes) st' ;;
  if st' <? 0 then ret st'
  else
    match mem r !! buf with
    | Some cells =>
        for_ (seqZ 0 (bytes `div` sizeof_int))
             (λ i, on_host (set_elem ptr i (default 0 (cells !! Z.to_nat i)))) ;;
        ret st'
    | None => crash
    end.

(** The release calls.  Releasing a memory object frees its cells. *)
Definition cl_ReleaseMemObject (obj : Z) : prog Z :=
  r <- get_rt ;;
  let st := match mem r !! obj with
            | None => CL_INVALID_MEM_OBJECT
            | Some _ => CL_SUCCESS
            end in
  api (clReleaseMemObject obj) st ;;
  set_rt {| mem := delete obj (mem r); kargs := kargs r; fresh := fresh r |} ;;
  ret st.

Definition cl_Release (c : api_call) : prog Z :=
  api c CL_SUCCESS ;; ret CL_SUCCESS.
End Runtime.

(** *** The functions of the program *)
Section Program.
Context `{Platform}.
Variable env : cl_env.

(** [init(A, size)]; the pointer stored in [A] is the result. *)
Definition init (size : Z) : M host Z :=
  A <- malloc_int size ;;
  for_range 0 size (λ i, r <- rand ;; set_elem A i (r `rem` 100)) ;;
  ret A.

Definition print (A size : Z) : M host unit :=
  if PRINT =? 0 then ret tt
  else
    (if (PRINT =? 1) && (15 <? size) then
       for_range 0 5 (λ i, x <- get_elem A i ;; printf (fmt_d x)) ;;
       printf " ..... " ;;
       for_range (size - 5) size (λ i, x <- get_elem A i ;; printf (fmt_d x))
     else
       for_range 0 size (λ i, x <- get_elem A i ;; printf (fmt_d x))) ;;
    printf (LF +:+ "----------------------------" +:+ LF).

(** [if (err < 0) { perror(msg); exit(1); }]. *)
Definition check_err (msg : string) : prog unit :=
  e <- get err ;;
  if e <? 0 then on_host (perror msg) ;; exit 1 else ret tt.

Definition create_device : prog Z :=
  let dev := 0 in
  (st <- cl_GetPlatformIDs env ;; set err st) ;;
  check_err "Couldn't identify a platform" ;;
  r <- cl_GetDeviceIDs env CL_DEVICE_TYPE_GPU dev ;;
  let dev := snd r in
  set err (fst r) ;;
  e <- get err ;;
  dev <- (if e =? CL_DEVICE_NOT_FOUND then
            on_host (printf ("GPU not found, falling back to CPU" +:+ LF)) ;;
            r <- cl_GetDeviceIDs env CL_DEVICE_TYPE_CPU dev ;;
            set err (fst r) ;;
            ret (snd r)
          else ret dev) ;;
  check_err "Couldn't access any devices" ;;
  ret dev.

(** [build_program(ctx, dev, filename)]; the result is the local
    [program].  The stream is used for nothing but [ftell] at its end
    and [fread] from its start, so [fseek], [rewind] and [fclose] leave
    no step of their own; [free] of a character buffer ends the life of
    a value of the model.  The runtime reads [program_size] characters
    of [program_buffer], the length it is passed.  The local [log_size]
    has its address taken and no initialiser, so it holds an
    indeterminate value until the first query assigns it.  None of the
    results of [ftell], [malloc], [fread] and [clGetProgramBuildInfo] is
    tested. *)
Definition build_program (ctx dev : Z) (filename : string) : prog Z :=
  match file env filename with
  | None => on_host (perror "Couldn't find the program file") ;; exit 1
  | Some text =>
      let program_size := size_t (ftell_end env filename) in
      program_buffer <- malloc_char env (size_t (program_size + 1)) ;;
      program_buffer <- set_char program_buffer program_size NUL ;;
      program_buffer <- fread program_buffer program_size text ;;
      r <- cl_CreateProgramWithSource env ctx
             (string_of_list_ascii (take (Z.to_nat program_size) program_buffer)) ;;
      let program := fst r in
      set err (snd r) ;;
      check_err "Couldn't create the program" ;;
      (st <- cl_BuildProgram env program ;; set err st) ;;
      e <- get err ;;
      (if e <? 0 then
         log_size <- cl_GetProgramBuildInfo_size env program dev
                       (size_t (log_size_junk env)) ;;
         program_log <- malloc_char env (size_t (log_size + 1)) ;;
         program_log <- set_char program_log log_size NUL ;;
         program_log <- cl_GetProgramBuildInfo env program dev
                          (size_t (log_size + 1)) program_log ;;
         printf_s program_log ;;
         exit 1
       else ret tt) ;;
      ret program
  end.

Definition setup_openCL_device_context_queue_kernel (filename kernelname : string)
    : prog unit :=
  (d <- create_device ;; set device_id d) ;;
  (d <- get device_id ;;
   r <- cl_CreateContext env d ;;
   set err (snd r) ;; set context (fst r)) ;;
  check_err "Couldn't create a context" ;;
  (c <- get context ;; d <- get device_id ;;
   p <- build_program c d filename ;; set program p) ;;
  (c <- get context ;; d <- get device_id ;;
   r <- cl_CreateCommandQueueWithProperties env c d ;;
   set err (snd r) ;; set queue (fst r)) ;;
  check_err "Couldn't create a command queue" ;;
  (p <- get program ;;
   r <- cl_CreateKernel env p kernelname ;;
   set err (snd r) ;; set kernel (fst r)) ;;
  check_err "Couldn't create a kernel".

(** [buf = clCreateBuffer(context, CL_MEM_READ_WRITE, SZ * sizeof(int),
    NULL, NULL)]: no status is asked for. *)
Definition create_buffer (buf : gvar) : prog unit :=
  c <- get context ;; n <- get SZ ;;
  b <- cl_CreateBuffer env (st_buffer env buf) c (size_t (n * sizeof_int)) ;;
  set buf b.

(** [clEnqueueWriteBuffer(queue, buf, CL_TRUE, 0, SZ * sizeof(int),
    &v[0], 0, NULL, NULL)]: the status is dropped. *)
Definition write_buffer (buf v : gvar) : prog unit :=
  q <- get queue ;; b <- get buf ;; n <- get SZ ;; p <- get v ;;
  cl_EnqueueWriteBuffer (st_write env buf) q b (size_t (n * sizeof_int)) p ;;
  ret tt.

Definition setup_kernel_memory : prog unit :=
  create_buffer bufV1 ;;
  create_buffer bufV2 ;;
  create_buffer bufV_out ;;
  write_buffer bufV1 v1 ;;
  write_buffer bufV2 v2.

(** [clSetKernelArg(kernel, idx, ..., &x)]: the status is dropped. *)
Definition set_kernel_arg (idx : Z) (x : gvar) : prog unit :=
  k <- get kernel ;; v <- get x ;;
  cl_SetKernelArg env k idx v ;;
  ret tt.

Definition copy_kernel_args : prog unit :=
  set_kernel_arg 0 SZ ;;
  set_kernel_arg 1 bufV1 ;;
  set_kernel_arg 2 bufV2 ;;
  set_kernel_arg 3 bufV_out ;;
  check_err "Couldn't set kernel arguments".

Definition free_memory : prog unit :=
  (b <- get bufV1 ;; cl_ReleaseMemObject b) ;;
  (b <- get bufV2 ;; cl_ReleaseMemObject b) ;;
  (b <- get bufV_out ;; cl_ReleaseMemObject b) ;;
  (k <- get kernel ;; cl_Release (clReleaseKernel k)) ;;
  (q <- get queue ;; cl_Release (clReleaseCommandQueue q)) ;;
  (p <- get program ;; cl_Release (clReleaseProgram p)) ;;
  (c <- get context ;; cl_Release (clReleaseContext c)) ;;
  (p <- get v1 ;; on_host (free p)) ;;
  (p <- get v2 ;; on_host (free p)) ;;
  (p <- get v_out ;; on_host (free p)).

(** [main], lines 33 to 41: the size argument and the three vectors. *)
Definition main_setup (argv : list string) : prog unit :=
  let argc := Z.of_nat (length argv) in
  (if 1 <? argc then set SZ (atoi (default EmptyString (argv !! 1%nat))) else ret tt) ;;
  (n <- get SZ ;; p <- on_host (init n) ;; set v1 p) ;;
  (n <- get SZ ;; p <- on_host (init n) ;; set v2 p) ;;
  (n <- get SZ ;; p <- on_host (init n) ;; set v_out p).

(** [main], lines 56 to 70: the device buffers, the kernel arguments,
    the launch over [global] work items, the wait and the read-back. *)
Definition main_device (global : Z) : prog unit :=
  setup_kernel_memory ;;
  copy_kernel_args ;;
  (q <- get queue ;; k <- get kernel ;; ev <- get event ;;
   r <- cl_EnqueueNDRangeKernel env q k global ev ;;
   set event (snd r)) ;;
  (ev <- get event ;; cl_WaitForEvents env ev) ;;
  (q <- get queue ;; b <- get bufV_out ;; n <- get SZ ;; p <- get v_out ;;
   cl_EnqueueReadBuffer env q b (size_t (n * sizeof_int)) p) ;;
  ret tt.

(** [main], lines 44 to 50: the global work size, one work item per
    element, and the two input vectors on the console.  The result is
    [global[0]]. *)
Definition main_inputs : prog Z :=
  global <- (n <- get SZ ;; ret (size_t n)) ;;
  on_host (printf ("Vector v1:" +:+ LF)) ;;
  (p <- get v1 ;; n <- get SZ ;; on_host (print p n)) ;;
  on_host (printf ("Vector v2:" +:+ LF)) ;;
  (p <- get v2 ;; n <- get SZ ;; on_host (print p n)) ;;
  ret global.

(** [main], lines 73 to 78: the result and the timing line. *)
Definition main_results : prog unit :=
  on_host (printf ("Vector v_out (OpenCL):" +:+ LF)) ;;
  (p <- get v_out ;; n <- get SZ ;; on_host (print p n)) ;;
  on_host (printf_ms "OpenCL Kernel Execution Time: ").

Definition main (argv : list string) : prog Z :=
  main_setup argv ;;
  global <- main_inputs ;;
  setup_openCL_device_context_queue_kernel "./vector_ops_ocl.cl" "vector_add_ocl" ;;
  main_device global ;;
  main_results ;;
  free_memory ;;
  ret 0.
End Program.

End OpenCL.

(** ** A concrete platform, to run the programs on examples *)

Module Sample.

(** A linear congruential generator in the style of the C standard's
    sample [rand], started from seed 1. *)
Fixpoint lcg_state (k : nat) : Z :=
  match k with
  | O => 1
  | S k' => (lcg_state k' * 1103515245 + 12345) mod 2 ^ 31
  end.

Definition lcg (k : nat) : Z := (lcg_state (S k) `div` 65536) mod 32768.

Definition digit_of (c : Ascii.ascii) : option Z :=
  let n := Z.of_nat (Ascii.nat_of_ascii c) in
  if (48 <=? n) && (n <=? 57) then Some (n - 48) else None.

Fixpoint digits (s : string) (acc : Z) : Z :=
  match s with
  | String c rest =>
      match digit_of c with
      | Some d => digits rest (10 * acc + d)
      | None => acc
      end
  | EmptyString => acc
  end.

(** Decimal [atoi]: an optional sign, then the leading digits; 0 when
    there is none. *)
Definition atoi_dec (s : string) : Z :=
  match s with
  | String c rest =>
      if Nat.eqb (Ascii.nat_of_ascii c) 45 then - digits rest 0
      else if Nat.eqb (Ascii.nat_of_ascii c) 43 then digits rest 0
      else digits s 0
  | EmptyString => 0
  end.

#[local] Instance platform : Platform :=
  {| rand_seq := lcg; atoi := atoi_dec; omp_get_max_threads := 4 |}.

(** An OpenCL platform with a GPU on which every call succeeds. *)
Definition all_ok : OpenCL.cl_env :=
  {| OpenCL.st_platform := 0;
     OpenCL.st_gpu := 0; OpenCL.dev_gpu := 1001;
     OpenCL.st_cpu := 0; OpenCL.dev_cpu := 1002;
     OpenCL.st_context := 0;
     OpenCL.file := λ _, Some "__kernel void vector_add_ocl(...)";
     OpenCL.ftell_end := λ _, 33;
     OpenCL.malloc_ok := λ _, true;
     OpenCL.char_junk := λ _, Ascii.ascii_of_nat 63;
     OpenCL.st_program := 0;
     OpenCL.st_build := 0;
     OpenCL.build_log := EmptyString;
     OpenCL.st_log_size := 0;
     OpenCL.log_size_junk := 0;
     OpenCL.st_log := 0;
     OpenCL.st_queue := 0;
     OpenCL.st_kernel := 0;
     OpenCL.st_buffer := λ _, 0;
     OpenCL.st_write := λ _, 0;
     OpenCL.st_setarg := λ _, 0;
     OpenCL.st_enqueue := 0;
     OpenCL.st_wait := 0;
     OpenCL.st_read := 0;
     OpenCL.junk := λ _, 0;
     OpenCL.max_mem_alloc := 2 ^ 32 |}.

(** The same platform when no device buffer can be allocated
    ([CL_MEM_OBJECT_ALLOCATION_FAILURE]), and when no kernel argument
    can be bound ([CL_OUT_OF_RESOURCES]). *)
Definition with_statuses (buffer setarg : Z) : OpenCL.cl_env :=
  {| OpenCL.st_platform := 0;
     OpenCL.st_gpu := 0; OpenCL.dev_gpu := 1001;
     OpenCL.st_cpu := 0; OpenCL.dev_cpu := 1002;
     OpenCL.st_context := 0;
     OpenCL.file := λ _, Some "__kernel void vector_add_ocl(...)";
     OpenCL.ftell_end := λ _, 33;
     OpenCL.malloc_ok := λ _, true;
     OpenCL.char_junk := λ _, Ascii.ascii_of_nat 63;
     OpenCL.st_program := 0;
     OpenCL.st_build := 0;
     OpenCL.build_log := EmptyString;
     OpenCL.st_log_size := 0;
     OpenCL.log_size_junk := 0;
     OpenCL.st_log := 0;
     OpenCL.st_queue := 0;
     OpenCL.st_kernel := 0;
     OpenCL.st_buffer := λ _, buffer;
     OpenCL.st_write := λ _, 0;
     OpenCL.st_setarg := λ _, setarg;
     OpenCL.st_enqueue := 0;
     OpenCL.st_wait := 0;
     OpenCL.st_read := 0;
     OpenCL.junk := λ _, 0;
     OpenCL.max_mem_alloc := 2 ^ 32 |}.

Definition alloc_fails : OpenCL.cl_env := with_statuses (-4) 0.
Definition setarg_fails : OpenCL.cl_env := with_statuses 0 (-5).

(** A platform without GPU whose compiler rejects the kernel. *)
Definition build_fails : OpenCL.cl_env :=
  {| OpenCL.st_platform := 0;
     OpenCL.st_gpu := -1; OpenCL.dev_gpu := 1001;
     OpenCL.st_cpu := 0; OpenCL.dev_cpu := 1002;
     OpenCL.st_context := 0;
     OpenCL.file := λ _, Some "__kernel void vector_add_ocl(";
     OpenCL.ftell_end := λ _, 29;
     OpenCL.malloc_ok := λ _, true;
     OpenCL.char_junk := λ _, Ascii.ascii_of_nat 63;
     OpenCL.st_program := 0;
     OpenCL.st_build := -11;
     OpenCL.build_log := "error: expected ')'";
     OpenCL.st_log_size := 0;
     OpenCL.log_size_junk := 0;
     OpenCL.st_log := 0;
     OpenCL.st_queue := 0;
     OpenCL.st_kernel := 0;
     OpenCL.st_buffer := λ _, 0;
     OpenCL.st_write := λ _, 0;
     OpenCL.st_setarg := λ _, 0;
     OpenCL.st_enqueue := 0;
     OpenCL.st_wait := 0;
     OpenCL.st_read := 0;
     OpenCL.junk := λ _, 0;
     OpenCL.max_mem_alloc := 2 ^ 32 |}.

(** A platform with a GPU whose compiler rejects the kernel with the
    log [log], on a host whose [malloc] serves character buffers of at
    most [limit] bytes. *)
Definition rejects (log : string) (limit : Z) : OpenCL.cl_env :=
  {| OpenCL.st_platform := 0;
     OpenCL.st_gpu := 0; OpenCL.dev_gpu := 1001;
     OpenCL.st_cpu := 0; OpenCL.dev_cpu := 1002;
     OpenCL.st_context := 0;
     OpenCL.file := λ _, Some "__kernel void vector_add_ocl(";
     OpenCL.ftell_end := λ _, 29;
     OpenCL.malloc_ok := λ bytes, bytes <=? limit;
     OpenCL.char_junk := λ _, Ascii.ascii_of_nat 63;
     OpenCL.st_program := 0;
     OpenCL.st_build := -11;
     OpenCL.build_log := log;
     OpenCL.st_log_size := 0;
     OpenCL.log_size_junk := 0;
     OpenCL.st_log := 0;
     OpenCL.st_queue := 0;
     OpenCL.st_kernel := 0;
     OpenCL.st_buffer := λ _, 0;
     OpenCL.st_write := λ _, 0;
     OpenCL.st_setarg := λ _, 0;
     OpenCL.st_enqueue := 0;
     OpenCL.st_wait := 0;
     OpenCL.st_read := 0;
     OpenCL.junk := λ _, 0;
     OpenCL.max_mem_alloc := 2 ^ 32 |}.

(** The vectors [3 1 4 1 5] at address 10, [9 2 6 5 3] at address 20
    and five cells for the output at address 30. *)
Definition a5 : list Z := [3; 1; 4; 1; 5].
Definition b5 : list Z := [9; 2; 6; 5; 3].

Definition cells (p : Z) (xs : list Z) : list (Z * Z) :=
  imap (λ i x, (p + Z.of_nat i, x)) xs.

Definition heap5 : gmap Z Z :=
  list_to_map (cells 10 a5 ++ cells 20 b5 ++ cells 30 [0; 0; 0; 0; 0]).

Definition host5 : host :=
  {| heap := heap5; blocks := {[10 := 5; 20 := 5; 30 := 5]}; brk := 36;
     rand_calls := 15; trace := [] |}.

(** The globals of the OpenCL program once the session is set up for
    these vectors. *)
Definition vars5 : OpenCL.gvar → Z :=
  λ x, match x with
       | OpenCL.SZ => 5
       | OpenCL.v1 => 10 | OpenCL.v2 => 20 | OpenCL.v_out => 30
       | OpenCL.device_id => 1001
       | OpenCL.context => 1 | OpenCL.program => 2
       | OpenCL.queue => 3 | OpenCL.kernel => 4
       | _ => 0
       end.

Definition state5 : OpenCL.state :=
  {| OpenCL.vars := vars5;
     OpenCL.device := {| OpenCL.mem := ∅; OpenCL.kargs := ∅; OpenCL.fresh := 5 |} |}.

End Sample.

(** ** Vocabulary of the statements *)

(** The process after the observations [es]. *)
Definition logs (es : list obs) (h : host) : host :=
  {| heap := heap h; blocks := blocks h; brk := brk h;
     rand_calls := rand_calls h; trace := trace h ++ es |}.

(** The allocator has handed out only addresses between [NULL] and
    [brk]. *)
Definition wf (h : host) : Prop :=
  0 < brk h ∧
  (∀ a, is_Some (heap h !! a) → 0 < a < brk h) ∧
  (∀ p n, blocks h !! p = Some n → 0 < p < brk h ∧ 0 ≤ n).

(** The vector length chosen on the command line. *)
Definition cli_size `{Platform} (argv : list string) : Z :=
  match argv with
  | _ :: arg :: _ => atoi arg
  | _ => 100000000
  end.

(** The values [init] stores when [rand()] has been called [c] times
    before: the next [size] values of the generator, each reduced modulo
    100. *)
Definition init_values `{Platform} (c : nat) (size : Z) : list Z :=
  (λ k, rand_seq (c + k) `rem` 100) <$> seq 0 (Z.to_nat size).

(** The text that [print] writes for the elements [xs]. *)
Definition shown (xs : list Z) : list obs := (λ x, Stdout (fmt_d x)) <$> xs.

Definition footer : obs := Stdout (LF +:+ "----------------------------" +:+ LF).
Definition ellipsis : obs := Stdout " ..... ".

(** What [print] writes for an array with the elements [xs]. *)
Definition printed (xs : list Z) : list obs :=
  if decide (length xs ≤ 15)%nat then shown xs ++ [footer]
  else shown (take 5 xs) ++ [ellipsis] ++ shown (drop (length xs - 5) xs) ++ [footer].

(** The process [h] holds the three vectors that three calls of
    [init(_, N)] made from the process [h0]: they are filled with the next
    [3 * N] values of the generator, share no cell, and are live blocks
    (or all [NULL] when [N] is negative). *)
Definition three_vectors `{Platform} (N : Z) (h0 h : host) (p1 p2 p3 : Z) : Prop :=
  wf h ∧ trace h = trace h0 ∧
  rand_calls h = (rand_calls h0 + 3 * Z.to_nat N)%nat ∧
  read_array (heap h) p1 N = Some (init_values (rand_calls h0) N) ∧
  read_array (heap h) p2 N = Some (init_values (rand_calls h0 + Z.to_nat N) N) ∧
  read_array (heap h) p3 N = Some (init_values (rand_calls h0 + 2 * Z.to_nat N) N) ∧
  apart p1 p2 N ∧ apart p1 p3 N ∧ apart p2 p3 N ∧
  ((N < 0 ∧ p1 = NULL ∧ p2 = NULL ∧ p3 = NULL) ∨
   (0 ≤ N ∧ 0 < p1 < p2 ∧ p2 < p3 ∧
    blocks h !! p1 = Some N ∧ blocks h !! p2 = Some N ∧ blocks h !! p3 = Some N)).

(** The first line of the OpenMP program, and what it prints after it for
    the input vectors [a] and [b]. *)
Definition threads_line `{Platform} : obs :=
  Stdout ("Running OpenMP implementation with " +:+ pretty omp_get_max_threads
            +:+ " threads" +:+ LF).

Definition omp_report (a b : list Z) : list obs :=
  [Stdout ("Vector v1:" +:+ LF)] ++ printed a ++
  [Stdout ("Vector v2:" +:+ LF)] ++ printed b ++
  [Stdout ("Vector v_out (OpenMP):" +:+ LF)] ++ printed (zip_with int_add a b) ++
  [StdoutMs "CPU (OpenMP) Execution Time: "].

(** *** Device selection, as the platform decides it *)

Definition fallback_line : obs :=
  Stdout ("GPU not found, falling back to CPU" +:+ LF).

(** The platform is identified and has a GPU, or has no GPU but a CPU. *)
Definition device_found (env : OpenCL.cl_env) : Prop :=
  0 ≤ OpenCL.st_platform env ∧
  (0 ≤ OpenCL.st_gpu env ∨
   (OpenCL.st_gpu env = OpenCL.CL_DEVICE_NOT_FOUND ∧ 0 ≤ OpenCL.st_cpu env)).

Definition selected_device (env : OpenCL.cl_env) : Z :=
  if decide (OpenCL.st_gpu env = OpenCL.CL_DEVICE_NOT_FOUND)
  then OpenCL.dev_cpu env else OpenCL.dev_gpu env.

(** The calls of [create_device] when a device is found. *)
Definition device_calls (env : OpenCL.cl_env) : list obs :=
  [Call clGetPlatformIDs (OpenCL.st_platform env);
   Call (clGetDeviceIDs CL_DEVICE_TYPE_GPU) (OpenCL.st_gpu env)] ++
  (if decide (OpenCL.st_gpu env = OpenCL.CL_DEVICE_NOT_FOUND)
   then [fallback_line; Call (clGetDeviceIDs CL_DEVICE_TYPE_CPU) (OpenCL.st_cpu env)]
   else []).

(** The calls of [build_program] that create and build the program
    object [prg]. *)
Definition build_calls (env : OpenCL.cl_env) (ctx : Z) (src : string) (prg : Z) : list obs :=
  [Call (clCreateProgramWithSource ctx src) (OpenCL.st_program env);
   Call (clBuildProgram prg) (OpenCL.st_build env)].

(** The length of a text, as the C library counts it. *)
Definition strlen (text : string) : Z := Z.of_nat (String.length text).


(** [malloc] serves the buffer that is to hold [n] characters and a
    terminating [NUL]: the request of [n + 1] bytes, as a [size_t], gives
    a block, and the block has the cell [n]. *)
Definition buffer_served (env : OpenCL.cl_env) (n : Z) : Prop :=
  OpenCL.malloc_ok env (OpenCL.size_t (n + 1)) = true ∧ n < OpenCL.size_t (n + 1).

(** The kernel source file is read as the text [src]: it opens, [ftell]
    reports the length of [src] at its end, [malloc] serves the buffer
    for it, and the stream delivers [src]. *)
Definition reads (env : OpenCL.cl_env) (filename src : string) : Prop :=
  OpenCL.file env filename = Some src ∧
  OpenCL.ftell_end env filename = strlen src ∧
  buffer_served env (strlen src).


(** The value of the local [log_size] of [build_program] after the
    query for the size of the log: the size of the log with its [NUL],
    or what the variable held before when the query failed. *)
Definition log_size (env : OpenCL.cl_env) : Z :=
  if OpenCL.st_log_size env <? 0 then OpenCL.size_t (OpenCL.log_size_junk env)
  else strlen (OpenCL.build_log env) + 1.


(** The kernel source file is read as the text [src], and every call of
    the set-up up to the creation of the program object succeeds. *)
Definition reaches_build (env : OpenCL.cl_env) (filename src : string) : Prop :=
  device_found env ∧ 0 ≤ OpenCL.st_context env ∧
  reads env filename src ∧ 0 ≤ OpenCL.st_program env.

(** Every call of the set-up succeeds. *)
Definition session_ok (env : OpenCL.cl_env) (filename src : string) : Prop :=
  reaches_build env filename src ∧ 0 ≤ OpenCL.st_build env ∧
  0 ≤ OpenCL.st_queue env ∧ 0 ≤ OpenCL.st_kernel env.

(** The calls of a successful set-up that starts with the next object
    handle [n]: context [n], program [n + 1], queue [n + 2], kernel
    [n + 3]. *)
Definition session_calls (env : OpenCL.cl_env) (src kernelname : string) (n : Z) : list obs :=
  device_calls env ++
  [Call (clCreateContext (selected_device env)) (OpenCL.st_context env)] ++
  build_calls env n src (n + 1) ++
  [Call (clCreateCommandQueueWithProperties n (selected_device env)) (OpenCL.st_queue env);
   Call (clCreateKernel (n + 1) kernelname) (OpenCL.st_kernel env)].


(** The observation is an allocation of a device buffer. *)
Definition allocates_buffer (e : obs) : Prop :=
  ∃ ctx bytes st, e = Call (clCreateBuffer ctx bytes) st.

(** What the OpenCL program prints before it sets up the session, for
    the input vectors [a] and [b]. *)
Definition ocl_inputs (a b : list Z) : list obs :=
  [Stdout ("Vector v1:" +:+ LF)] ++ printed a ++
  [Stdout ("Vector v2:" +:+ LF)] ++ printed b.

(** The name of the kernel source file and of the kernel in [main]. *)
Definition kernel_file : string := "./vector_ops_ocl.cl".
Definition kernel_name : string := "vector_add_ocl".

(** *** Creation and release of the session's objects *)

Inductive object_kind := Buffer | Kernel | Queue | Program | Context.

(** The kind of object that an observation creates (a creation call that
    succeeded) or releases. *)
Definition creates (e : obs) : option object_kind :=
  match e with
  | Call c st =>
      if st <? 0 then None
      else match c with
           | clCreateContext _ => Some Context
           | clCreateProgramWithSource _ _ => Some Program
           | clCreateCommandQueueWithProperties _ _ => Some Queue
           | clCreateKernel _ _ => Some Kernel
           | clCreateBuffer _ _ => Some Buffer
           | _ => None
           end
  | _ => None
  end.

Definition releases (e : obs) : option object_kind :=
  match e with
  | Call (clReleaseMemObject _) _ => Some Buffer
  | Call (clReleaseKernel _) _ => Some Kernel
  | Call (clReleaseCommandQueue _) _ => Some Queue
  | Call (clReleaseProgram _) _ => Some Program
  | Call (clReleaseContext _) _ => Some Context
  | _ => None
  end.

(** The status of [clReleaseMemObject(obj)] when the live memory objects
    are [m]. *)
Definition release_status (m : gmap Z (list Z)) (obj : Z) : Z :=
  match m !! obj with
  | None => OpenCL.CL_INVALID_MEM_OBJECT
  | Some _ => OpenCL.CL_SUCCESS
  end.

(** The calls of [free_memory] for the globals [f] and the live memory
    objects [m]. *)
Definition release_calls (f : OpenCL.gvar → Z) (m : gmap Z (list Z)) : list obs :=
  [Call (clReleaseMemObject (f OpenCL.bufV1)) (release_status m (f OpenCL.bufV1));
   Call (clReleaseMemObject (f OpenCL.bufV2))
        (release_status (delete (f OpenCL.bufV1) m) (f OpenCL.bufV2));
   Call (clReleaseMemObject (f OpenCL.bufV_out))
        (release_status (delete (f OpenCL.bufV2) (delete (f OpenCL.bufV1) m))
                        (f OpenCL.bufV_out));
   Call (clReleaseKernel (f OpenCL.kernel)) OpenCL.CL_SUCCESS;
   Call (clReleaseCommandQueue (f OpenCL.queue)) OpenCL.CL_SUCCESS;
   Call (clReleaseProgram (f OpenCL.program)) OpenCL.CL_SUCCESS;
   Call (clReleaseContext (f OpenCL.context)) OpenCL.CL_SUCCESS].

(** The last three statements of [free_memory]: the host vectors. *)
Definition host_frees : OpenCL.prog unit :=
  (p <- OpenCL.get OpenCL.v1 ;; on_host (free p)) ;;
  (p <- OpenCL.get OpenCL.v2 ;; on_host (free p)) ;;
  (p <- OpenCL.get OpenCL.v_out ;; on_host (free p)).

(** *** The device path *)

(** The kernel arguments after [clSetKernelArg(kernel, idx, ..., &v)]
    returned [st]. *)
Definition bind_arg (st idx v : Z) (a : gmap Z Z) : gmap Z Z :=
  if st <? 0 then a else <[idx := v]> a.

(** The kernel arguments after [copy_kernel_args]. *)
Definition args_after (env : OpenCL.cl_env) (f : OpenCL.gvar → Z) (a : gmap Z Z) : gmap Z Z :=
  bind_arg (OpenCL.st_setarg env 3) 3 (f OpenCL.bufV_out)
    (bind_arg (OpenCL.st_setarg env 2) 2 (f OpenCL.bufV2)
       (bind_arg (OpenCL.st_setarg env 1) 1 (f OpenCL.bufV1)
          (bind_arg (OpenCL.st_setarg env 0) 0 (f OpenCL.SZ) a))).

Definition setarg_calls (env : OpenCL.cl_env) (k : Z) : list obs :=
  [Call (clSetKernelArg k 0) (OpenCL.st_setarg env 0);
   Call (clSetKernelArg k 1) (OpenCL.st_setarg env 1);
   Call (clSetKernelArg k 2) (OpenCL.st_setarg env 2);
   Call (clSetKernelArg k 3) (OpenCL.st_setarg env 3)].

(** Every call of the device path succeeds for vectors of [N] elements. *)
Definition device_ok (env : OpenCL.cl_env) (N : Z) : Prop :=
  0 < N ∧ N ≤ INT_MAX ∧ 4 * N ≤ OpenCL.max_mem_alloc env ∧
  (0 ≤ OpenCL.st_buffer env OpenCL.bufV1 ∧ 0 ≤ OpenCL.st_buffer env OpenCL.bufV2 ∧
   0 ≤ OpenCL.st_buffer env OpenCL.bufV_out) ∧
  (0 ≤ OpenCL.st_write env OpenCL.bufV1 ∧ 0 ≤ OpenCL.st_write env OpenCL.bufV2) ∧
  (0 ≤ OpenCL.st_setarg env 0 ∧ 0 ≤ OpenCL.st_setarg env 1 ∧
   0 ≤ OpenCL.st_setarg env 2 ∧ 0 ≤ OpenCL.st_setarg env 3) ∧
  0 ≤ OpenCL.st_enqueue env ∧ 0 ≤ OpenCL.st_wait env ∧ 0 ≤ OpenCL.st_read env.

(** The calls of the device path when they all succeed: context [c],
    queue [q], kernel [k], next object handle [n]. *)
Definition device_path_calls (env : OpenCL.cl_env) (N c q k n : Z) : list obs :=
  [Call (clCreateBuffer c (4 * N)) (OpenCL.st_buffer env OpenCL.bufV1);
   Call (clCreateBuffer c (4 * N)) (OpenCL.st_buffer env OpenCL.bufV2);
   Call (clCreateBuffer c (4 * N)) (OpenCL.st_buffer env OpenCL.bufV_out);
   Call (clEnqueueWriteBuffer q n (4 * N)) (OpenCL.st_write env OpenCL.bufV1);
   Call (clEnqueueWriteBuffer q (n + 1) (4 * N)) (OpenCL.st_write env OpenCL.bufV2)] ++
  setarg_calls env k ++
  [Call (clEnqueueNDRangeKernel q k N) (OpenCL.st_enqueue env);
   Call (clWaitForEvents (n + 3)) (OpenCL.st_wait env);
   Call (clEnqueueReadBuffer q (n + 2) (4 * N)) (OpenCL.st_read env)].

(** The cells of a fresh device buffer for [N] elements. *)
Definition fresh_cells (env : OpenCL.cl_env) (N : Z) : list Z :=
  OpenCL.junk env <$> seq 0 (Z.to_nat N).

(** What the OpenCL program prints after the device path, for the output
    vector [out]. *)
Definition ocl_results (out : list Z) : list obs :=
  [Stdout ("Vector v_out (OpenCL):" +:+ LF)] ++ printed out ++
  [StdoutMs "OpenCL Kernel Execution Time: "].

(** The calls of [free_memory] at the end of a run whose set-up and
    device path succeeded from the initial state: buffers 5, 6, 7, kernel
    4, queue 3, program 2, context 1. *)
Definition final_release_calls : list obs :=
  [Call (clReleaseMemObject 5) OpenCL.CL_SUCCESS;
   Call (clReleaseMemObject 6) OpenCL.CL_SUCCESS;
   Call (clReleaseMemObject 7) OpenCL.CL_SUCCESS;
   Call (clReleaseKernel 4) OpenCL.CL_SUCCESS;
   Call (clReleaseCommandQueue 3) OpenCL.CL_SUCCESS;
   Call (clReleaseProgram 2) OpenCL.CL_SUCCESS;
   Call (clReleaseContext 1) OpenCL.CL_SUCCESS].

(** The whole trace of a run of the OpenCL program in which every call
    succeeds, for the vector length [N] and the source text [src]. *)
Definition ocl_trace `{Platform} (env : OpenCL.cl_env) (src : string) (N : Z) : list obs :=
  let a := init_values 0 N in
  let b := init_values (Z.to_nat N) N in
  ocl_inputs a b ++
  session_calls env src kernel_name 1 ++
  device_path_calls env N 1 3 4 5 ++
  ocl_results (zip_with int_add a b) ++
  final_release_calls.

(** The exit status of a run: the value returned by [main] or passed to
    [exit]; none when the run is undefined. *)
Definition exit_code {S} (o : outcome S Z) : option Z :=
  match o with
  | Ret c _ => Some c
  | Exit c _ => Some c
  | Crash _ => None
  end.

(** The OpenCL calls of a trace, with their statuses. *)
Definition api_calls (t : list obs) : list (api_call * Z) :=
  omap (λ e, match e with Call c st => Some (c, st) | _ => None end) t.

(** *** What a computation keeps true, and whether it can call [exit] *)

(** [m] keeps [I]: from a state in which [I] holds it ends, however it
    ends, in a state in which [I] holds. *)
Definition preserves {S A} (I : S → Prop) (m : M S A) : Prop :=
  ∀ s, I s → I (final_state (m s)).

(** [m] does not call [exit] from a state in which [I] holds. *)
Definition no_exit {S A} (I : S → Prop) (m : M S A) : Prop :=
  ∀ s, I s → ∀ c s', m s ≠ Exit c s'.

(** The global [x] of the OpenCL program satisfies [P]. *)
Definition on_var (x : OpenCL.gvar) (P : Z → Prop) : host * OpenCL.state → Prop :=
  λ s, P (OpenCL.vars s.2 x).

(** No condition on the process. *)
Definition any_host : host → Prop := λ _, True.

(** [m] keeps [I] and does not call [exit]: from a state in which [I]
    holds it returns or has undefined behaviour. *)
Definition keeps_running {S A} (I : S → Prop) (m : M S A) : Prop :=
  preserves I m ∧ no_exit I m.

(** ** Vocabulary of the further properties *)

(** The array at [p] is the array at [q] itself or shares no cell with
    it. *)
Definition same_or_apart (p q n : Z) : Prop := p = q ∨ apart p q n.

(** All three cells that iteration [i] of the compute loop touches are
    allocated. *)
Definition cells_allocated (h : gmap Z Z) (v1 v2 v_out i : Z) : Prop :=
  is_Some (h !! (v1 + i)) ∧ is_Some (h !! (v2 + i)) ∧ is_Some (h !! (v_out + i)).

(** The indices of the elements that [print] reads from an array of
    [size] elements. *)
Definition print_indices (size : Z) : list Z :=
  if 15 <? size then seqZ 0 5 ++ seqZ (size - 5) 5 else seqZ 0 size.

(** The cell [a] lies in the array of [n] cells at [p]. *)
Definition in_array (p n a : Z) : Prop := p ≤ a < p + n.

(** *** Outcomes of a computation, by cases *)

(** From a state in which [P] holds, [m] returns [a] in a state with
    [Q a], or calls [exit(c)] in a state with [E c], or has undefined
    behaviour in a state with [C]. *)
Definition triple {S A} (P : S → Prop) (m : M S A)
    (Q : A → S → Prop) (E : Z → S → Prop) (C : S → Prop) : Prop :=
  ∀ s, P s → match m s with
             | Ret a s' => Q a s'
             | Exit c s' => E c s'
             | Crash s' => C s'
             end.

(** The observations that the set-up of the session can make: output,
    and the calls that find the device and create the context, the
    program, the queue and the kernel. *)
Definition setup_obs (e : obs) : Prop :=
  match e with
  | Stdout _ | Stderr _ => True
  | Call c _ =>
      match c with
      | clGetPlatformIDs | clGetDeviceIDs _ | clCreateContext _
      | clCreateProgramWithSource _ _ | clBuildProgram _ | clGetProgramBuildInfo _ _ _
      | clCreateCommandQueueWithProperties _ _ | clCreateKernel _ _ => True
      | _ => False
      end
  | _ => False
  end.

(** What the set-up leaves as it was in the process [h0] and the program
    state [s0]: the host memory, the generator, the memory objects and
    kernel arguments of the device, and the globals other than the
    session handles and [err]; it only adds observations of the set-up
    to the trace. *)
Definition setup_inv (h0 : host) (s0 : OpenCL.state) (s : host * OpenCL.state) : Prop :=
  heap s.1 = heap h0 ∧ blocks s.1 = blocks h0 ∧ brk s.1 = brk h0 ∧
  rand_calls s.1 = rand_calls h0 ∧
  (∃ t, trace s.1 = trace h0 ++ t ∧ Forall setup_obs t) ∧
  OpenCL.mem (OpenCL.device s.2) = OpenCL.mem (OpenCL.device s0) ∧
  OpenCL.kargs (OpenCL.device s.2) = OpenCL.kargs (OpenCL.device s0) ∧
  ∀ x, x ∈ [OpenCL.SZ; OpenCL.v1; OpenCL.v2; OpenCL.v_out;
            OpenCL.bufV1; OpenCL.bufV2; OpenCL.bufV_out; OpenCL.event] →
       OpenCL.vars s.2 x = OpenCL.vars s0 x.

(** [build_program] meets a character buffer that is not there: the
    file [filename] opens, and [malloc] does not serve the buffer for
    the [ftell] characters of its text or, once the program object is
    created and its build has failed, the buffer for the log. *)
Definition build_faults (env : OpenCL.cl_env) (filename : string) : Prop :=
  is_Some (OpenCL.file env filename) ∧
  (¬ buffer_served env (OpenCL.size_t (OpenCL.ftell_end env filename)) ∨
   (0 ≤ OpenCL.st_program env ∧ OpenCL.st_build env < 0 ∧
    ¬ buffer_served env (log_size env))).

(** The status of [clCreateBuffer] for [bytes] bytes when the platform
    would answer [st]: a size of zero, or one beyond what the device
    serves, is refused. *)
Definition buffer_status (env : OpenCL.cl_env) (st bytes : Z) : Z :=
  if (bytes =? 0) || (OpenCL.max_mem_alloc env <? bytes)
  then OpenCL.CL_INVALID_BUFFER_SIZE else st.

(** The observations of the device path: calls into the runtime, and the
    diagnostic of [copy_kernel_args]. *)
Definition device_obs (e : obs) : Prop :=
  match e with
  | Call _ _ | Stderr _ => True
  | _ => False
  end.

(** What the OpenCL program keeps of the process [h0] and the globals of
    [s0] once the session is set up: it writes no host cell outside [W],
    allocates and frees none, does not call [rand], adds only
    observations in [allowed] to the trace, and assigns none of the
    globals [SZ], [v1], [v2], [v_out], the session handles and [err]. *)
Definition host_kept (W : Z → Prop) (allowed : obs → Prop) (h0 : host) (s0 : OpenCL.state)
    (s : host * OpenCL.state) : Prop :=
  (∀ p, ¬ W p → heap s.1 !! p = heap h0 !! p) ∧
  (∀ p, is_Some (heap s.1 !! p) ↔ is_Some (heap h0 !! p)) ∧
  blocks s.1 = blocks h0 ∧ brk s.1 = brk h0 ∧ rand_calls s.1 = rand_calls h0 ∧
  (∃ t, trace s.1 = trace h0 ++ t ∧ Forall allowed t) ∧
  ∀ x, x ∈ [OpenCL.SZ; OpenCL.v1; OpenCL.v2; OpenCL.v_out; OpenCL.device_id;
            OpenCL.context; OpenCL.program; OpenCL.queue; OpenCL.kernel; OpenCL.err] →
       OpenCL.vars s.2 x = OpenCL.vars s0 x.

(** The observation is a call into the OpenCL runtime, or the line that
    announces the CPU fallback. *)
Definition session_event (e : obs) : Prop :=
  e = fallback_line ∨ ∃ c st, e = Call c st.

(** A platform with a GPU on which the calls succeed, except that the
    creation of the kernel answers [kernel], and whose kernel source
    file is [src], if there is one. *)
Definition sample_session (kernel : Z) (src : option string) : OpenCL.cl_env :=
  {| OpenCL.st_platform := 0;
     OpenCL.st_gpu := 0; OpenCL.dev_gpu := 1001;
     OpenCL.st_cpu := 0; OpenCL.dev_cpu := 1002;
     OpenCL.st_context := 0;
     OpenCL.file := λ _, src;
     OpenCL.ftell_end := λ _, Z.of_nat (String.length (default EmptyString src));
     OpenCL.malloc_ok := λ _, true;
     OpenCL.char_junk := λ _, Ascii.ascii_of_nat 63;
     OpenCL.st_program := 0;
     OpenCL.st_build := 0;
     OpenCL.build_log := EmptyString;
     OpenCL.st_log_size := 0;
     OpenCL.log_size_junk := 0;
     OpenCL.st_log := 0;
     OpenCL.st_queue := 0;
     OpenCL.st_kernel := kernel;
     OpenCL.st_buffer := λ _, 0;
     OpenCL.st_write := λ _, 0;
     OpenCL.st_setarg := λ _, 0;
     OpenCL.st_enqueue := 0;
     OpenCL.st_wait := 0;
     OpenCL.st_read := 0;
     OpenCL.junk := λ _, 0;
     OpenCL.max_mem_alloc := 2 ^ 32 |}.

(** * Properties *)

(** ** Arrays in host memory *)

Lemma wrap_int_id z : in_int z → wrap_int z = z.
Proof.
  unfold in_int, INT_MIN, INT_MAX, wrap_int. intros Hz.
  rewrite Z.mod_small by lia. lia.
Qed.

Lemma wrap_int_range z : in_int (wrap_int z).
Proof.
  unfold in_int, INT_MIN, INT_MAX, wrap_int.
  pose proof (Z.mod_pos_bound (z + 2 ^ 31) (2 ^ 32)). lia.
Qed.

Lemma read_array_Some (h : gmap Z Z) p n xs :
  read_array h p n = Some xs ↔
  length xs = Z.to_nat n ∧ ∀ (i : nat) x, xs !! i = Some x → h !! (p + Z.of_nat i) = Some x.
Proof.
  unfold read_array. rewrite mapM_Some, Forall2_same_length_lookup, length_seqZ.
  split; intros [Hlen Hel]; split; try done.
  - intros i x Hx. apply (Hel i (Z.of_nat i) x); [|done].
    apply lookup_seqZ. split; [lia|].
    apply lookup_lt_Some in Hx. lia.
  - intros i j x Hj Hx. apply lookup_seqZ in Hj as [-> _].
    unfold load. rewrite Z.add_0_l. by apply Hel.
Qed.

Lemma read_array_length (h : gmap Z Z) p n xs :
  read_array h p n = Some xs → length xs = Z.to_nat n.
Proof. intros Hr. by apply read_array_Some in Hr as [? _]. Qed.

Lemma read_array_load (h : gmap Z Z) p n xs i :
  read_array h p n = Some xs → 0 ≤ i < n →
  ∃ x, xs !! Z.to_nat i = Some x ∧ load h p i = Some x.
Proof.
  intros [Hlen Hel]%read_array_Some Hi.
  destruct (lookup_lt_is_Some_2 xs (Z.to_nat i)) as [x Hx]; [lia|].
  exists x. split; [done|]. unfold load.
  specialize (Hel _ _ Hx). by rewrite Z2Nat.id in Hel by lia.
Qed.

(** Two heaps that agree on the cells of an array hold the same array. *)
Lemma read_array_agree (h h' : gmap Z Z) p n :
  (∀ i, 0 ≤ i < n → h' !! (p + i) = h !! (p + i)) →
  read_array h' p n = read_array h p n.
Proof.
  intros Hag. unfold read_array. apply Forall_mapM_ext, Forall_seqZ.
  intros i Hi. unfold load. apply Hag. lia.
Qed.

Lemma read_array_nonpos (h : gmap Z Z) p n : n ≤ 0 → read_array h p n = Some [].
Proof. intros Hn. unfold read_array. by rewrite seqZ_nil. Qed.

(** ** The loop of [vector_add_openmp] *)

Section OpenMP_loop.
Import OpenMP.
Variables v1 v2 v_out : Z.

Lemma body_Some i (h : gmap Z Z) x y :
  h !! (v1 + i) = Some x → h !! (v2 + i) = Some y → is_Some (h !! (v_out + i)) →
  body v1 v2 v_out i h = Some (<[v_out + i := int_add x y]> h).
Proof.
  intros Hx Hy [o Ho]. unfold body, load, store. rewrite Hx, Hy. simpl. by rewrite Ho.
Qed.

Lemma body_inv i (h h1 : gmap Z Z) :
  body v1 v2 v_out i h = Some h1 →
  ∃ x y, h !! (v1 + i) = Some x ∧ h !! (v2 + i) = Some y ∧
         is_Some (h !! (v_out + i)) ∧ h1 = <[v_out + i := int_add x y]> h.
Proof.
  unfold body, load, store. intros Hb.
  destruct (h !! (v1 + i)) as [x|]; [simpl in Hb|done].
  destruct (h !! (v2 + i)) as [y|]; [simpl in Hb|done].
  destruct (h !! (v_out + i)) as [o|] eqn:Ho; [|done].
  exists x, y. inversion Hb. by repeat split.
Qed.

(** A run of iterations writes nothing but the cells [v_out[i]] of the
    schedule, and allocates and frees nothing. *)
Lemma for_each_body_frame sched : ∀ h h' : gmap Z Z,
  for_each sched (body v1 v2 v_out) h = Some h' →
  (∀ p, is_Some (h' !! p) ↔ is_Some (h !! p)) ∧
  (∀ p, (∀ i, i ∈ sched → p ≠ v_out + i) → h' !! p = h !! p).
Proof.
  induction sched as [|j rest IH]; intros h h' Hrun; simpl in Hrun.
  - by inversion Hrun.
  - destruct (body v1 v2 v_out j h) as [h1|] eqn:Hb; [simpl in Hrun|done].
    apply body_inv in Hb as (x & y & _ & _ & Ho & ->).
    destruct (IH _ _ Hrun) as [Hdom Hfr]. split.
    + intros p. rewrite Hdom. destruct (decide (p = v_out + j)) as [->|Hne].
      * rewrite lookup_insert_eq. split; [done|by eexists].
      * by rewrite lookup_insert_ne.
    + intros p Hp. rewrite Hfr by (intros i Hi; apply Hp; by right).
      rewrite lookup_insert_ne; [done|].
      intros Heq. apply (Hp j); [left|done].
Qed.

(** The iterations run to the end when the cells they touch are
    allocated. *)
Lemma for_each_body_runs sched : ∀ h : gmap Z Z,
  (∀ i, i ∈ sched →
     is_Some (h !! (v1 + i)) ∧ is_Some (h !! (v2 + i)) ∧ is_Some (h !! (v_out + i))) →
  is_Some (for_each sched (body v1 v2 v_out) h).
Proof.
  induction sched as [|j rest IH]; intros h Hal; simpl; [done|].
  destruct (Hal j) as ([x Hx] & [y Hy] & Ho); [left|].
  rewrite (body_Some _ _ _ _ Hx Hy Ho). simpl. apply IH.
  intros i Hi. destruct (Hal i) as (H1 & H2 & H3); [by right|].
  assert (∀ p, is_Some (h !! p) → is_Some (<[v_out + j := int_add x y]> h !! p)) as Hd.
  { intros p Hp. destruct (decide (p = v_out + j)) as [->|?].
    - by rewrite lookup_insert_eq.
    - by rewrite lookup_insert_ne. }
  auto.
Qed.

(** When no input cell of the schedule is an output cell of the
    schedule, every iteration stores the sum of the inputs as they were
    before the loop, whatever the order. *)
Lemma for_each_body_values sched : ∀ h h' : gmap Z Z,
  NoDup sched →
  (∀ i j, i ∈ sched → j ∈ sched → v1 + i ≠ v_out + j ∧ v2 + i ≠ v_out + j) →
  for_each sched (body v1 v2 v_out) h = Some h' →
  ∀ i x y, i ∈ sched → h !! (v1 + i) = Some x → h !! (v2 + i) = Some y →
           h' !! (v_out + i) = Some (int_add x y).
Proof.
  induction sched as [|j rest IH]; intros h h' Hnd Hsep Hrun i x y Hi Hx Hy.
  - by apply elem_of_nil in Hi.
  - apply NoDup_cons in Hnd as [Hj Hnd]. simpl in Hrun.
    destruct (body v1 v2 v_out j h) as [h1|] eqn:Hb; [simpl in Hrun|done].
    apply body_inv in Hb as (a & b & Ha & Hb & _ & ->).
    apply elem_of_cons in Hi as [->|Hi].
    + destruct (for_each_body_frame _ _ _ Hrun) as [_ Hfr].
      rewrite Hfr.
      * rewrite lookup_insert_eq. congruence.
      * intros k Hk Heq. apply Hj. by replace j with k by lia.
    + destruct (Hsep i j) as [? ?]; [by right|left|].
      apply (IH _ _ Hnd) with (i := i) (x := x) (y := y) in Hrun; [done| |done| |].
      * intros k l Hk Hl. apply Hsep; by right.
      * by rewrite lookup_insert_ne.
      * by rewrite lookup_insert_ne.
Qed.
End OpenMP_loop.

Section OpenMP_spec.
Import OpenMP.

Lemma schedule_elem size sched i : schedule size sched → i ∈ sched ↔ 0 ≤ i < size.
Proof. unfold schedule. intros ->. rewrite elem_of_seqZ. lia. Qed.

Lemma schedule_NoDup size sched : schedule size sched → NoDup sched.
Proof. unfold schedule. intros ->. apply NoDup_seqZ. Qed.

Lemma schedule_in_order size : schedule size (seqZ 0 size).
Proof. unfold schedule. reflexivity. Qed.

Lemma read_array_is_Some (h : gmap Z Z) p n i :
  is_Some (read_array h p n) → 0 ≤ i < n → is_Some (h !! (p + i)).
Proof.
  intros [xs Hxs] Hi. destruct (read_array_load _ _ _ _ _ Hxs Hi) as (x & _ & Hx).
  by exists x.
Qed.

(** The compute step on allocated arrays: it runs to the end under every
    schedule, changes no cell outside [v_out[0..size)], and, when the
    inputs share no cell with the output, leaves in [v_out] the sums of
    the inputs. *)
Lemma vector_add_openmp_sched_spec sched v1 v2 v_out size (h : gmap Z Z) :
  schedule size sched →
  is_Some (read_array h v1 size) → is_Some (read_array h v2 size) →
  is_Some (read_array h v_out size) →
  ∃ h', vector_add_openmp_sched sched v1 v2 v_out h = Some h' ∧
        (∀ p, is_Some (h' !! p) ↔ is_Some (h !! p)) ∧
        (∀ p, ¬ (v_out ≤ p < v_out + size) → h' !! p = h !! p) ∧
        (apart v1 v_out size → apart v2 v_out size →
         ∀ a b, read_array h v1 size = Some a → read_array h v2 size = Some b →
                read_array h' v_out size = Some (zip_with int_add a b)).
Proof.
  intros Hs H1 H2 Ho. unfold vector_add_openmp_sched.
  destruct (for_each_body_runs v1 v2 v_out sched h) as [h' Hrun].
  { intros i Hi. apply (schedule_elem size sched i Hs) in Hi.
    repeat split; by eapply read_array_is_Some. }
  exists h'. split; [done|].
  destruct (for_each_body_frame _ _ _ _ _ _ Hrun) as [Hdom Hfr].
  split; [done|]. split.
  - intros p Hp. apply Hfr. intros i Hi.
    apply (schedule_elem size sched i Hs) in Hi. lia.
  - intros Ha1 Ha2 a b Ha Hb. apply read_array_Some.
    pose proof (read_array_length _ _ _ _ Ha) as Hla.
    pose proof (read_array_length _ _ _ _ Hb) as Hlb.
    split; [rewrite length_zip_with; lia|].
    intros i z Hz. apply lookup_zip_with_Some in Hz as (x & y & -> & Hx & Hy).
    assert (0 ≤ Z.of_nat i < size) as Hi by (apply lookup_lt_Some in Hx; lia).
    apply (for_each_body_values v1 v2 v_out sched h h').
    + by eapply schedule_NoDup.
    + intros k l Hk Hl.
      apply (schedule_elem size sched _ Hs) in Hk, Hl.
      unfold apart in *. lia.
    + done.
    + by apply (schedule_elem size).
    + apply read_array_Some in Ha as [_ Ha]. by apply Ha.
    + apply read_array_Some in Hb as [_ Hb]. by apply Hb.
Qed.
End OpenMP_spec.

(** C10.  [vector_add_openmp] modifies only the output array, and only
    its indices in [0, size): under every schedule of the parallel loop
    (the index order of [vector_add_openmp] is one) it runs to the end on
    allocated arrays, allocates and frees nothing, and leaves every cell
    outside [v_out[0..size)] as it was, so that input arrays that share no
    cell with the output are unchanged; when [size <= 0] it leaves the
    whole memory unchanged. *)
Theorem C10_vector_add_openmp_frame sched v1 v2 v_out size (h : gmap Z Z) :
  OpenMP.schedule size sched →
  is_Some (read_array h v1 size) → is_Some (read_array h v2 size) →
  is_Some (read_array h v_out size) →
  ∃ h', OpenMP.vector_add_openmp_sched sched v1 v2 v_out h = Some h' ∧
        (∀ p, ¬ (v_out ≤ p < v_out + size) → h' !! p = h !! p) ∧
        (∀ p, is_Some (h' !! p) ↔ is_Some (h !! p)) ∧
        (apart v1 v_out size → read_array h' v1 size = read_array h v1 size) ∧
        (apart v2 v_out size → read_array h' v2 size = read_array h v2 size) ∧
        (size ≤ 0 → h' = h).
Proof.
  intros Hs H1 H2 Ho.
  destruct (vector_add_openmp_sched_spec sched v1 v2 v_out size h)
    as (h' & Hrun & Hdom & Hfr & _); try done.
  exists h'. do 3 (split; [done|]). split; [|split].
  - intros Hap. apply read_array_agree. intros i Hi. apply Hfr.
    unfold apart in Hap. lia.
  - intros Hap. apply read_array_agree. intros i Hi. apply Hfr.
    unfold apart in Hap. lia.
  - intros Hsz. apply map_eq. intros p. apply Hfr. lia.
Qed.

(** ** Computations *)

Lemma bind_Ret {S A B} (m : M S A) (k : A → M S B) s a s' :
  m s = Ret a s' → bind m k s = k a s'.
Proof. unfold bind. by intros ->. Qed.

Lemma bind_Exit {S A B} (m : M S A) (k : A → M S B) s c s' :
  m s = Exit c s' → bind m k s = Exit c s'.
Proof. unfold bind. by intros ->. Qed.

Lemma bind_Crash {S A B} (m : M S A) (k : A → M S B) s s' :
  m s = Crash s' → bind m k s = Crash s'.
Proof. unfold bind. by intros ->. Qed.

Lemma on_host_Ret {G A} (m : M host A) h (g : G) a h' :
  m h = Ret a h' → on_host m (h, g) = Ret a (h', g).
Proof. unfold on_host. by intros ->. Qed.

Lemma logs_nil h : logs [] h = h.
Proof. destruct h. unfold logs. simpl. by rewrite app_nil_r. Qed.

Lemma logs_log e es h : logs es (log e h) = logs (e :: es) h.
Proof. unfold logs, log. simpl. by rewrite <- app_assoc. Qed.

Lemma logs_logs es es' h : logs es' (logs es h) = logs (es ++ es') h.
Proof. unfold logs. simpl. by rewrite <- app_assoc. Qed.

Lemma log_logs e h : log e h = logs [e] h.
Proof. done. Qed.

(** ** [print] *)

(** The printing loop over the indices [idxs] writes the elements at
    these indices, in order. *)
Lemma print_loop A idxs : ∀ xs h,
  mapM (load (heap h) A) idxs = Some xs →
  for_ idxs (λ i, x <- get_elem A i ;; printf (fmt_d x)) h = Ret tt (logs (shown xs) h).
Proof.
  induction idxs as [|i rest IH]; intros xs h Hxs; simpl in *.
  - inversion Hxs. by rewrite logs_nil.
  - destruct (load (heap h) A i) as [x|] eqn:Hx; [simpl in Hxs|done].
    destruct (mapM (load (heap h) A) rest) as [xs'|] eqn:Hr; [simpl in Hxs|done].
    inversion Hxs; subst xs; clear Hxs.
    unfold bind at 1. unfold bind at 1. unfold get_elem at 1. rewrite Hx.
    unfold printf at 1. rewrite (IH xs'); [|done].
    by rewrite logs_log.
Qed.

Lemma read_array_take (h : gmap Z Z) p n m xs :
  read_array h p n = Some xs → 0 ≤ m ≤ n →
  mapM (load h p) (seqZ 0 m) = Some (take (Z.to_nat m) xs).
Proof.
  intros [Hlen Hel]%read_array_Some Hm.
  apply mapM_Some, Forall2_same_length_lookup. split.
  - rewrite length_seqZ, length_take. lia.
  - intros i j x [-> Hi]%lookup_seqZ Hx. rewrite lookup_take_Some in Hx.
    destruct Hx as [Hx _]. unfold load. rewrite Z.add_0_l. by apply Hel.
Qed.

Lemma read_array_drop (h : gmap Z Z) p n m xs :
  read_array h p n = Some xs → 0 ≤ m ≤ n →
  mapM (load h p) (seqZ (n - m) m) = Some (drop (length xs - Z.to_nat m) xs).
Proof.
  intros [Hlen Hel]%read_array_Some Hm.
  apply mapM_Some, Forall2_same_length_lookup. split.
  - rewrite length_seqZ, length_drop. lia.
  - intros i j x [-> Hi]%lookup_seqZ Hx. rewrite lookup_drop in Hx.
    unfold load. apply Hel in Hx.
    replace (p + (n - m + Z.of_nat i)) with (p + Z.of_nat (length xs - Z.to_nat m + i)) by lia.
    done.
Qed.

Lemma print_small A size xs h :
  read_array (heap h) A size = Some xs → size ≤ 15 →
  OpenMP.print A size h = Ret tt (logs (shown xs ++ [footer]) h).
Proof.
  intros Hxs Hsz. unfold OpenMP.print, OpenMP.PRINT. simpl.
  replace (15 <? size) with false by (symmetry; apply Z.ltb_ge; lia).
  unfold for_range. rewrite Z.sub_0_r.
  erewrite bind_Ret; [|by apply print_loop].
  unfold printf. by rewrite log_logs, logs_logs.
Qed.

Lemma print_large A size xs h :
  read_array (heap h) A size = Some xs → 15 < size →
  OpenMP.print A size h =
    Ret tt (logs (shown (take 5 xs) ++ [ellipsis] ++
                  shown (drop (length xs - 5) xs) ++ [footer]) h).
Proof.
  intros Hxs Hsz. unfold OpenMP.print, OpenMP.PRINT. simpl.
  replace (15 <? size) with true by (symmetry; apply Z.ltb_lt; lia).
  unfold for_range. rewrite Z.sub_0_r.
  replace (size - (size - 5)) with 5 by lia.
  pose proof (read_array_take _ _ size 5 xs Hxs ltac:(lia)) as H1.
  pose proof (read_array_drop _ _ size 5 xs Hxs ltac:(lia)) as H2.
  change (Z.to_nat 5) with 5%nat in H1, H2.
  apply print_loop in H1.
  rewrite (bind_Ret _ _ h tt
             (logs (shown (drop (length xs - 5) xs))
                (log ellipsis (logs (shown (take 5 xs)) h)))).
  - unfold printf. rewrite !log_logs, !logs_logs. reflexivity.
  - rewrite (bind_Ret _ _ _ _ _ H1).
    rewrite (bind_Ret _ _ _ tt (log ellipsis (logs (shown (take 5 xs)) h))) by done.
    by apply print_loop.
Qed.

Lemma print_same : OpenCL.print = OpenMP.print.
Proof. reflexivity. Qed.

(** C6.  [print], in both programs: for [size <= 15] it writes the [size]
    elements of the array in order; for [size > 15] it writes the first
    five elements, the ellipsis marker, then the last five elements.  The
    separator line closes the output in both cases. *)
Theorem C6_print_truncation A size xs h :
  read_array (heap h) A size = Some xs →
  (size ≤ 15 →
     OpenMP.print A size h = Ret tt (logs (shown xs ++ [footer]) h) ∧
     OpenCL.print A size h = Ret tt (logs (shown xs ++ [footer]) h)) ∧
  (15 < size →
     let first5 := take 5 xs in
     let last5 := drop (length xs - 5) xs in
     length first5 = 5%nat ∧ length last5 = 5%nat ∧
     OpenMP.print A size h =
       Ret tt (logs (shown first5 ++ [ellipsis] ++ shown last5 ++ [footer]) h) ∧
     OpenCL.print A size h =
       Ret tt (logs (shown first5 ++ [ellipsis] ++ shown last5 ++ [footer]) h)).
Proof.
  intros Hxs. split; intros Hsz.
  - rewrite print_same. split; by apply print_small.
  - pose proof (read_array_length _ _ _ _ Hxs) as Hlen.
    rewrite print_same. simpl.
    split; [rewrite length_take; lia|].
    split; [rewrite length_drop; lia|].
    split; by apply print_large.
Qed.

(** ** [init] *)

Section Init.
Context `{Platform}.

Lemma wf_host0 : wf host0.
Proof.
  unfold wf, host0. simpl. split; [lia|]. split.
  - intros a [x Hx]. by rewrite lookup_empty in Hx.
  - intros p n Hp. by rewrite lookup_empty in Hp.
Qed.

Lemma wf_logs es h : wf (logs es h) ↔ wf h.
Proof. done. Qed.

(** The cells of a fresh block, and the cells after a block is freed. *)
Lemma lookup_fresh_cells (m : gmap Z Z) p n a :
  foldr (λ i m, <[p + i := 0]> m) m (seqZ 0 n) !! a =
    if decide (p ≤ a < p + n) then Some 0 else m !! a.
Proof.
  assert (∀ idxs, foldr (λ i m, <[p + i := 0]> m) m idxs !! a =
                  if decide (a - p ∈ idxs) then Some 0 else m !! a) as Hgen.
  { induction idxs as [|j rest IH]; cbn [foldr].
    - rewrite decide_False; [done|apply not_elem_of_nil].
    - destruct (decide (a = p + j)) as [->|Hne].
      + rewrite lookup_insert_eq. rewrite decide_True; [done|].
        replace (p + j - p) with j by lia. left.
      + rewrite lookup_insert_ne by done. rewrite IH.
        destruct (decide (a - p ∈ rest)) as [Hin|Hin].
        * rewrite decide_True; [done|by right].
        * rewrite decide_False; [done|].
          intros [?|?]%elem_of_cons; [lia|done]. }
  rewrite Hgen. destruct (decide (p ≤ a < p + n)) as [Hr|Hr].
  - rewrite decide_True; [done|]. apply elem_of_seqZ. lia.
  - rewrite decide_False; [done|]. rewrite elem_of_seqZ. lia.
Qed.

Lemma lookup_freed_cells (m : gmap Z Z) p n a :
  foldr (λ i m, delete (p + i) m) m (seqZ 0 n) !! a =
    if decide (p ≤ a < p + n) then None else m !! a.
Proof.
  assert (∀ idxs, foldr (λ i m, delete (p + i) m) m idxs !! a =
                  if decide (a - p ∈ idxs) then None else m !! a) as Hgen.
  { induction idxs as [|j rest IH]; cbn [foldr].
    - rewrite decide_False; [done|apply not_elem_of_nil].
    - destruct (decide (a = p + j)) as [->|Hne].
      + rewrite lookup_delete_eq. rewrite decide_True; [done|].
        replace (p + j - p) with j by lia. left.
      + rewrite lookup_delete_ne by done. rewrite IH.
        destruct (decide (a - p ∈ rest)) as [Hin|Hin].
        * rewrite decide_True; [done|by right].
        * rewrite decide_False; [done|].
          intros [?|?]%elem_of_cons; [lia|done]. }
  rewrite Hgen. destruct (decide (p ≤ a < p + n)) as [Hr|Hr].
  - rewrite decide_True; [done|]. apply elem_of_seqZ. lia.
  - rewrite decide_False; [done|]. rewrite elem_of_seqZ. lia.
Qed.

(** The filling loop of [init] over allocated cells. *)
Lemma init_loop A idxs : ∀ h,
  NoDup idxs → (∀ i, i ∈ idxs → is_Some (heap h !! (A + i))) →
  ∃ h', for_ idxs (λ i, r <- rand ;; set_elem A i (r `rem` 100)) h = Ret tt h' ∧
        blocks h' = blocks h ∧ brk h' = brk h ∧ trace h' = trace h ∧
        rand_calls h' = (rand_calls h + length idxs)%nat ∧
        (∀ a, is_Some (heap h' !! a) ↔ is_Some (heap h !! a)) ∧
        (∀ a, (∀ i, i ∈ idxs → a ≠ A + i) → heap h' !! a = heap h !! a) ∧
        (∀ (k : nat) i, idxs !! k = Some i →
           heap h' !! (A + i) = Some (rand_seq (rand_calls h + k) `rem` 100)).
Proof.
  induction idxs as [|j rest IH]; intros h Hnd Hal.
  - exists h. simpl. unfold ret. repeat split; try done; try lia.
  - apply NoDup_cons in Hnd as [Hj Hnd].
    destruct (Hal j) as [o Ho]; [left|].
    set (v := rand_seq (rand_calls h) `rem` 100).
    set (h1 := {| heap := <[A + j := v]> (heap h); blocks := blocks h; brk := brk h;
                  rand_calls := S (rand_calls h); trace := trace h |}).
    assert (Hstep : (r <- rand ;; set_elem A j (r `rem` 100)) h = Ret tt h1).
    { unfold bind, rand, set_elem, store. simpl. by rewrite Ho. }
    assert (Hdom1 : ∀ a, is_Some (heap h1 !! a) ↔ is_Some (heap h !! a)).
    { intros a. simpl. destruct (decide (a = A + j)) as [->|Hne].
      - rewrite lookup_insert_eq, Ho. split; by eexists.
      - by rewrite lookup_insert_ne. }
    destruct (IH h1 Hnd) as (h' & Hrun & Hbl & Hbrk & Htr & Hrc & Hdom & Hfr & Hval).
    { intros i Hi. apply Hdom1, Hal. by right. }
    exists h'. cbn [for_]. rewrite (bind_Ret _ _ _ _ _ Hstep).
    split; [done|]. do 3 (split; [done|]).
    split; [rewrite Hrc; simpl; lia|].
    split; [intros a; by rewrite Hdom, Hdom1|].
    split.
    + intros a Ha. rewrite Hfr by (intros i Hi; apply Ha; by right).
      simpl. rewrite lookup_insert_ne; [done|].
      intros Heq. apply (Ha j); [left|done].
    + intros k i Hk. destruct k as [|k]; simpl in Hk.
      * inversion Hk; subst i. rewrite Hfr.
        -- simpl. rewrite lookup_insert_eq. unfold v. do 3 f_equal. lia.
        -- intros i Hi Heq. apply Hj. by replace j with i by lia.
      * rewrite (Hval k i Hk). simpl. do 3 f_equal. lia.
Qed.

(** [init]: it never fails, calls [rand] once per element, prints
    nothing and leaves the cells allocated before as they were. *)
Lemma init_spec size h :
  wf h →
  ∃ p h', OpenMP.init size h = Ret p h' ∧ wf h' ∧
          trace h' = trace h ∧
          rand_calls h' = (rand_calls h + Z.to_nat size)%nat ∧
          read_array (heap h') p size = Some (init_values (rand_calls h) size) ∧
          (∀ a, a < brk h → heap h' !! a = heap h !! a) ∧
          brk h ≤ brk h' ∧
          (size < 0 → p = NULL ∧ h' = h) ∧
          (0 ≤ size → p = brk h ∧ brk h' = brk h + size + 1 ∧
                      blocks h' = <[p := size]> (blocks h)).
Proof.
  intros (Hbrk & Hcells & Hblocks). unfold OpenMP.init, for_range.
  rewrite Z.sub_0_r.
  destruct (decide (size < 0)) as [Hneg|Hpos].
  - exists NULL, h. unfold bind, malloc_int.
    replace (size <? 0) with true by (symmetry; apply Z.ltb_lt; lia).
    rewrite seqZ_nil by lia. simpl. unfold ret.
    split; [done|]. split; [done|]. split; [done|].
    split; [lia|]. split.
    { unfold init_values. replace (Z.to_nat size) with 0%nat by lia.
      apply read_array_nonpos; lia. }
    split; [done|]. split; [lia|]. split; [done|lia].
  - set (p := brk h).
    set (h0 := {| heap := foldr (λ i m, <[p + i := 0]> m) (heap h) (seqZ 0 size);
                  blocks := <[p := size]> (blocks h); brk := p + size + 1;
                  rand_calls := rand_calls h; trace := trace h |}).
    assert (Hm : malloc_int size h = Ret p h0).
    { unfold malloc_int.
      by replace (size <? 0) with false by (symmetry; apply Z.ltb_ge; lia). }
    destruct (init_loop p (seqZ 0 size) h0)
      as (h' & Hrun & Hbl & Hbrk' & Htr & Hrc & Hdom & Hfr & Hval).
    { apply NoDup_seqZ. }
    { intros i Hi%elem_of_seqZ. simpl. rewrite lookup_fresh_cells.
      rewrite decide_True by lia. by eexists. }
    exists p, h'. rewrite (bind_Ret _ _ _ _ _ Hm), (bind_Ret _ _ _ _ _ Hrun).
    unfold ret. split; [done|].
    assert (Hold : ∀ a, a < brk h → heap h' !! a = heap h !! a).
    { intros a Ha. rewrite Hfr.
      - simpl. rewrite lookup_fresh_cells. rewrite decide_False; [done|]. unfold p. lia.
      - intros i Hi%elem_of_seqZ. unfold p. lia. }
    assert (Hwf : wf h').
    { split; [rewrite Hbrk'; simpl; unfold p; lia|]. split.
      - intros a Ha. apply Hdom in Ha. simpl in Ha.
        rewrite lookup_fresh_cells in Ha. rewrite Hbrk'. simpl.
        destruct (decide (p ≤ a < p + size)); [unfold p in *; lia|].
        apply Hcells in Ha. unfold p. lia.
      - intros q n Hq. rewrite Hbl in Hq. simpl in Hq. rewrite Hbrk'. simpl.
        destruct (decide (q = p)) as [->|Hne].
        + rewrite lookup_insert_eq in Hq. inversion Hq. unfold p. lia.
        + rewrite lookup_insert_ne in Hq by done. apply Hblocks in Hq.
          unfold p. lia. }
    split; [done|]. split; [done|].
    split; [by rewrite Hrc, length_seqZ|].
    split; [|split; [done|split; [rewrite Hbrk'; simpl; unfold p; lia|split; [lia|]]]].
    + apply read_array_Some. unfold init_values.
      split; [by rewrite length_fmap, length_seq|].
      intros i x Hx. rewrite list_lookup_fmap in Hx.
      destruct (seq 0 (Z.to_nat size) !! i) as [k|] eqn:Hk; [|done].
      apply lookup_seq in Hk as [-> Hlt]. simpl in Hx. inversion Hx; subst x.
      rewrite (Hval i (Z.of_nat i)); [done|].
      apply lookup_seqZ. lia.
    + intros _. by rewrite Hbrk', Hbl.
Qed.

Lemma init_same : OpenCL.init = OpenMP.init.
Proof. reflexivity. Qed.

(** Arrays below [brk] survive a later [init]. *)
Lemma read_array_below (h h' : host) p n xs :
  wf h → (∀ a, a < brk h → heap h' !! a = heap h !! a) →
  read_array (heap h) p n = Some xs → read_array (heap h') p n = Some xs.
Proof.
  intros (_ & Hcells & _) Hold Hxs.
  rewrite <- Hxs. apply read_array_agree. intros i Hi. apply Hold.
  destruct (read_array_load _ _ _ _ i Hxs Hi) as (x & _ & Hx).
  unfold load in Hx. destruct (Hcells (p + i)); [by eexists|lia].
Qed.
End Init.

Section Vectors.
Context `{Platform}.

Lemma print_spec A size xs h :
  read_array (heap h) A size = Some xs →
  OpenMP.print A size h = Ret tt (logs (printed xs) h).
Proof.
  intros Hxs. pose proof (read_array_length _ _ _ _ Hxs) as Hlen.
  unfold printed. case_decide as Hc.
  - apply print_small; [done|lia].
  - apply print_large; [done|lia].
Qed.

Lemma init3_spec N h0 :
  wf h0 →
  ∃ p1 p2 p3 h1 h2 h3,
    OpenMP.init N h0 = Ret p1 h1 ∧ OpenMP.init N h1 = Ret p2 h2 ∧
    OpenMP.init N h2 = Ret p3 h3 ∧ three_vectors N h0 h3 p1 p2 p3.
Proof.
  intros Hwf0.
  destruct (init_spec N h0 Hwf0)
    as (p1 & h1 & Hi1 & Hwf1 & Htr1 & Hrc1 & Ha1 & Hold1 & Hb1 & Hneg1 & Hpos1).
  destruct (init_spec N h1 Hwf1)
    as (p2 & h2 & Hi2 & Hwf2 & Htr2 & Hrc2 & Ha2 & Hold2 & Hb2 & Hneg2 & Hpos2).
  destruct (init_spec N h2 Hwf2)
    as (p3 & h3 & Hi3 & Hwf3 & Htr3 & Hrc3 & Ha3 & Hold3 & Hb3 & Hneg3 & Hpos3).
  exists p1, p2, p3, h1, h2, h3. do 3 (split; [done|]).
  pose proof (read_array_below _ _ _ _ _ Hwf1 Hold2 Ha1) as Ha1'.
  pose proof (read_array_below _ _ _ _ _ Hwf2 Hold3 Ha1') as Ha1''.
  pose proof (read_array_below _ _ _ _ _ Hwf2 Hold3 Ha2) as Ha2'.
  split; [done|]. split; [congruence|]. split; [lia|].
  split; [done|]. split; [by rewrite Hrc1 in Ha2'|].
  split; [rewrite Hrc2, Hrc1 in Ha3; by replace (rand_calls h0 + 2 * Z.to_nat N)%nat
            with (rand_calls h0 + Z.to_nat N + Z.to_nat N)%nat by lia|].
  destruct Hwf0 as (Hbrk0 & _ & _).
  destruct (decide (N < 0)) as [Hn|Hn].
  - destruct (Hneg1 Hn) as [-> ->]. destruct (Hneg2 Hn) as [-> ->].
    destruct (Hneg3 Hn) as [-> ->].
    unfold apart, NULL. do 3 (split; [lia|]). left. lia.
  - destruct Hpos1 as (-> & Hk1 & Hbl1); [lia|].
    destruct Hpos2 as (-> & Hk2 & Hbl2); [lia|].
    destruct Hpos3 as (-> & Hk3 & Hbl3); [lia|].
    unfold apart. do 3 (split; [lia|]). right.
    split; [lia|]. split; [lia|]. split; [lia|].
    rewrite Hbl3, Hbl2, Hbl1. split; [|split].
    + rewrite !lookup_insert_ne by lia. apply lookup_insert_eq.
    + rewrite lookup_insert_ne by lia. apply lookup_insert_eq.
    + apply lookup_insert_eq.
Qed.

Lemma cli_size_eq (argv : list string) :
  (if 1 <? Z.of_nat (length argv)
   then atoi (default EmptyString (argv !! 1%nat)) else 100000000) = cli_size argv.
Proof. destruct argv as [|a [|b rest]]; try done. simpl length.
       replace (1 <? _) with true by (symmetry; apply Z.ltb_lt; lia). done. Qed.

Lemma free_NULL h : free NULL h = Ret tt h.
Proof. done. Qed.

Lemma free_block p n h :
  p ≠ NULL → blocks h !! p = Some n →
  ∃ h', free p h = Ret tt h' ∧ trace h' = trace h ∧ blocks h' = delete p (blocks h).
Proof.
  intros Hp Hb. unfold free. rewrite Hb.
  replace (p =? NULL) with false by (symmetry; apply Z.eqb_neq; lia).
  by eexists.
Qed.

(** The three [free] calls at the end of both programs. *)
Lemma free3 N h0 h p1 p2 p3 (h' : host) :
  three_vectors N h0 h p1 p2 p3 →
  blocks h' = blocks h →
  ∃ h3, (free p1 ;; free p2 ;; free p3) h' = Ret tt h3 ∧ trace h3 = trace h'.
Proof.
  intros (_ & _ & _ & _ & _ & _ & _ & _ & _ & Hc) Hbl.
  destruct Hc as [(_ & -> & -> & ->)|(HN & Hp1 & Hp2 & Hb1 & Hb2 & Hb3)].
  - exists h'. by rewrite !(bind_Ret _ _ _ _ _ (free_NULL _)).
  - rewrite <- Hbl in Hb1, Hb2, Hb3.
    destruct (free_block p1 N h') as (h1 & Hf1 & Ht1 & Hbl1); [unfold NULL; lia|done|].
    destruct (free_block p2 N h1) as (h2 & Hf2 & Ht2 & Hbl2); [unfold NULL; lia| |].
    { rewrite Hbl1, lookup_delete_ne by lia. done. }
    destruct (free_block p3 N h2) as (h3 & Hf3 & Ht3 & Hbl3); [unfold NULL; lia| |].
    { rewrite Hbl2, Hbl1, !lookup_delete_ne by lia. done. }
    exists h3. rewrite (bind_Ret _ _ _ _ _ Hf1), (bind_Ret _ _ _ _ _ Hf2).
    split; [done|congruence].
Qed.
End Vectors.

(** ** The OpenMP program, end to end *)

Section OpenMP_main.
Context `{Platform}.
Import OpenMP.

Lemma with_SZ_Ret {A} (f : Z → M host A) h g a h' :
  f (SZ g) h = Ret a h' → with_SZ f (h, g) = Ret a (h', g).
Proof. intros Hf. unfold with_SZ. simpl. by apply on_host_Ret. Qed.

Lemma omp_main_setup_spec argv :
  ∃ p1 p2 p3 h,
    main_setup argv (host0, globals0) = Ret (p1, p2, p3) (h, {| SZ := cli_size argv |}) ∧
    three_vectors (cli_size argv) (log threads_line host0) h p1 p2 p3.
Proof.
  set (N := cli_size argv).
  destruct (init3_spec N (log threads_line host0))
    as (p1 & p2 & p3 & h1 & h2 & h3 & Hi1 & Hi2 & Hi3 & Hv).
  { apply wf_host0. }
  exists p1, p2, p3, h3. split; [|done].
  unfold main_setup.
  rewrite (bind_Ret _ _ _ tt (host0, {| SZ := N |})).
  2:{ unfold N. rewrite <- cli_size_eq.
      destruct (1 <? Z.of_nat (length argv)); [done|].
      unfold ret, globals0. done. }
  rewrite (bind_Ret _ _ _ tt (log threads_line host0, {| SZ := N |})) by done.
  rewrite (bind_Ret _ _ _ _ _ (with_SZ_Ret init _ {| SZ := N |} _ _ Hi1)).
  rewrite (bind_Ret _ _ _ _ _ (with_SZ_Ret init _ {| SZ := N |} _ _ Hi2)).
  rewrite (bind_Ret _ _ _ _ _ (with_SZ_Ret init _ {| SZ := N |} _ _ Hi3)).
  done.
Qed.

Lemma omp_main_run_spec N h0 h p1 p2 p3 :
  three_vectors N h0 h p1 p2 p3 →
  ∃ h', main_run (p1, p2, p3) (h, {| SZ := N |}) = Ret 0 (h', {| SZ := N |}) ∧
        trace h' = trace h ++
          omp_report (init_values (rand_calls h0) N)
                     (init_values (rand_calls h0 + Z.to_nat N) N).
Proof.
  intros Hv.
  pose proof Hv as (Hwf & Htr & Hrc & Ha & Hb & Ho & Hab & Hao & Hbo & Hblk).
  set (a := init_values (rand_calls h0) N) in *.
  set (b := init_values (rand_calls h0 + Z.to_nat N) N) in *.
  set (g := {| SZ := N |}).
  unfold main_run.
  set (e1 := Stdout ("Vector v1:" +:+ LF)).
  set (e2 := Stdout ("Vector v2:" +:+ LF)).
  set (e3 := Stdout ("Vector v_out (OpenMP):" +:+ LF)).
  set (e4 := StdoutMs "CPU (OpenMP) Execution Time: ").
  rewrite (bind_Ret _ _ _ tt (logs [e1] h, g)) by done.
  rewrite (bind_Ret _ _ _ tt (logs (printed a) (logs [e1] h), g)).
  2:{ apply with_SZ_Ret. by apply print_spec. }
  rewrite logs_logs.
  rewrite (bind_Ret _ _ _ tt (logs [e2] (logs ([e1] ++ printed a) h), g)) by done.
  rewrite logs_logs.
  rewrite (bind_Ret _ _ _ tt (logs (printed b) (logs (([e1] ++ printed a) ++ [e2]) h), g)).
  2:{ apply with_SZ_Ret. by apply print_spec. }
  rewrite logs_logs.
  set (t2 := (([e1] ++ printed a) ++ [e2]) ++ printed b).
  destruct (vector_add_openmp_sched_spec (seqZ 0 N) p1 p2 p3 N (heap h))
    as (m' & Hrun & Hdom & Hfr & Hsum); [apply schedule_in_order|by eexists..|].
  specialize (Hsum Hao Hbo a b Ha Hb).
  set (h2 := upd_heap (λ _, m') (logs t2 h)).
  rewrite (bind_Ret _ _ _ tt (h2, g)).
  2:{ apply with_SZ_Ret. unfold heap_step. simpl.
      unfold vector_add_openmp. by rewrite Hrun. }
  rewrite (bind_Ret _ _ _ tt (logs [e3] h2, g)) by done.
  rewrite (bind_Ret _ _ _ tt (logs (printed (zip_with int_add a b)) (logs [e3] h2), g)).
  2:{ apply with_SZ_Ret. by apply print_spec. }
  rewrite logs_logs.
  rewrite (bind_Ret _ _ _ tt
             (logs [e4] (logs ([e3] ++ printed (zip_with int_add a b)) h2), g)) by done.
  rewrite logs_logs.
  set (h3 := logs _ h2).
  destruct (free3 N h0 h p1 p2 p3 h3 Hv) as (h4 & Hfree & Htr4); [done|].
  exists h4.
  assert (Hf : (on_host (G := globals) (free p1) ;; on_host (free p2) ;;
                on_host (free p3) ;; ret 0) (h3, g) = Ret 0 (h4, g)).
  { unfold bind in Hfree |- *. unfold on_host at 1.
    destruct (free p1 h3) as [[] h5| |]; try done.
    unfold on_host at 1. destruct (free p2 h5) as [[] h6| |]; try done.
    unfold on_host at 1. by rewrite Hfree. }
  split; [exact Hf|].
  rewrite Htr4. unfold h3, h2, t2, omp_report, e1, e2, e3, e4. simpl.
  by repeat (rewrite <- app_assoc; simpl).
Qed.

(** The OpenMP program runs to the end with exit status 0 for every
    command line, with the vector length of the command line. *)
Lemma omp_main_spec argv :
  let N := cli_size argv in
  ∃ h', main argv (host0, globals0) = Ret 0 (h', {| SZ := N |}) ∧
        trace h' = [threads_line] ++
          omp_report (init_values 0 N) (init_values (Z.to_nat N) N).
Proof.
  intros N. destruct (omp_main_setup_spec argv) as (p1 & p2 & p3 & h & Hs & Hv).
  destruct (omp_main_run_spec _ _ _ _ _ _ Hv) as (h' & Hr & Htr).
  exists h'. unfold main. rewrite (bind_Ret _ _ _ _ _ Hs). split; [done|].
  rewrite Htr. destruct Hv as (_ & -> & _). done.
Qed.
End OpenMP_main.

(** ** Running the OpenCL program step by step *)

Section Steps.
Import OpenCL.
Context {A B C : Type}.

Lemma bind_assoc {S} (m : M S A) (f : A → M S B) (g : B → M S C) s :
  bind (bind m f) g s = bind m (λ x, bind (f x) g) s.
Proof. unfold bind. by destruct (m s). Qed.

Lemma bind_ret {S} (a : A) (k : A → M S B) s : bind (ret a) k s = k a s.
Proof. done. Qed.

Lemma bind_exit {S} c (k : A → M S B) s : bind (exit c) k s = Exit c s.
Proof. done. Qed.

Lemma bind_get x (k : Z → prog B) h f r :
  bind (get x) k (h, {| vars := f; device := r |}) =
    k (f x) (h, {| vars := f; device := r |}).
Proof. done. Qed.

Lemma bind_set x v (k : unit → prog B) h f r :
  bind (set x v) k (h, {| vars := f; device := r |}) =
    k tt (h, {| vars := <[x := v]> f; device := r |}).
Proof. done. Qed.

Lemma bind_get_rt (k : cl_runtime → prog B) h f r :
  bind get_rt k (h, {| vars := f; device := r |}) =
    k r (h, {| vars := f; device := r |}).
Proof. done. Qed.

Lemma bind_set_rt r' (k : unit → prog B) h f r :
  bind (set_rt r') k (h, {| vars := f; device := r |}) =
    k tt (h, {| vars := f; device := r' |}).
Proof. done. Qed.

Lemma bind_api c st (k : unit → prog B) h (s : state) :
  bind (api c st) k (h, s) = k tt (logs [Call c st] h, s).
Proof. done. Qed.

Lemma bind_printf {G} text (k : unit → M (host * G) B) h (g : G) :
  bind (on_host (printf text)) k (h, g) = k tt (logs [Stdout text] h, g).
Proof. done. Qed.

Lemma bind_printf_ms {G} text (k : unit → M (host * G) B) h (g : G) :
  bind (on_host (printf_ms text)) k (h, g) = k tt (logs [StdoutMs text] h, g).
Proof. done. Qed.

Lemma bind_perror {G} msg (k : unit → M (host * G) B) h (g : G) :
  bind (on_host (perror msg)) k (h, g) = k tt (logs [Stderr msg] h, g).
Proof. done. Qed.

Lemma bind_new_handle (k : Z → prog B) h f m a n :
  bind new_handle k (h, {| vars := f; device := {| mem := m; kargs := a; fresh := n |} |}) =
    k n (h, {| vars := f; device := {| mem := m; kargs := a; fresh := n + 1 |} |}).
Proof. done. Qed.
End Steps.

Lemma var_insert_eq (f : OpenCL.gvar → Z) x v : (<[x := v]> f) x = v.
Proof. apply fn_lookup_insert. Qed.

Lemma var_insert_ne (f : OpenCL.gvar → Z) x v y : x ≠ y → (<[x := v]> f) y = f y.
Proof. apply fn_lookup_insert_ne. Qed.

Lemma ltb_neg z : z < 0 → (z <? 0) = true.
Proof. intros. by apply Z.ltb_lt. Qed.

Lemma ltb_nonneg z : 0 ≤ z → (z <? 0) = false.
Proof. intros. by apply Z.ltb_ge. Qed.

Ltac run_step :=
  first
    [ rewrite bind_assoc | rewrite bind_ret | rewrite bind_exit
    | rewrite bind_get | rewrite bind_set | rewrite bind_get_rt | rewrite bind_set_rt
    | rewrite bind_api | rewrite bind_printf | rewrite bind_printf_ms
    | rewrite bind_perror | rewrite bind_new_handle
    | rewrite logs_logs | rewrite var_insert_eq
    | rewrite var_insert_ne by discriminate ].

Ltac run :=
  repeat (run_step;
          cbn [fst snd OpenCL.vars OpenCL.device OpenCL.mem OpenCL.kargs OpenCL.fresh app]).

(** ** The OpenCL program: device selection *)

Section OpenCL_device.
Import OpenCL.
Variable env : cl_env.

Lemma create_device_no_platform h f r :
  st_platform env < 0 →
  create_device env (h, {| vars := f; device := r |}) =
    Exit 1 (logs [Call clGetPlatformIDs (st_platform env);
                  Stderr "Couldn't identify a platform"] h,
            {| vars := <[err := st_platform env]> f; device := r |}).
Proof.
  intros Hp. unfold create_device, check_err, cl_GetPlatformIDs.
  run. rewrite (ltb_neg _ Hp). run. done.
Qed.

Lemma create_device_gpu h f r :
  0 ≤ st_platform env → 0 ≤ st_gpu env →
  create_device env (h, {| vars := f; device := r |}) =
    Ret (dev_gpu env)
        (logs [Call clGetPlatformIDs (st_platform env);
               Call (clGetDeviceIDs CL_DEVICE_TYPE_GPU) (st_gpu env)] h,
         {| vars := <[err := st_gpu env]> (<[err := st_platform env]> f); device := r |}).
Proof.
  intros Hp Hg. unfold create_device, check_err, cl_GetPlatformIDs, cl_GetDeviceIDs.
  run. rewrite (ltb_nonneg _ Hp). run. rewrite (ltb_nonneg _ Hg).
  replace (st_gpu env =? CL_DEVICE_NOT_FOUND) with false
    by (symmetry; apply Z.eqb_neq; unfold CL_DEVICE_NOT_FOUND; lia).
  run. rewrite (ltb_nonneg _ Hg). run. done.
Qed.

Lemma create_device_cpu h f r :
  0 ≤ st_platform env → st_gpu env = CL_DEVICE_NOT_FOUND → 0 ≤ st_cpu env →
  create_device env (h, {| vars := f; device := r |}) =
    Ret (dev_cpu env)
        (logs [Call clGetPlatformIDs (st_platform env);
               Call (clGetDeviceIDs CL_DEVICE_TYPE_GPU) (st_gpu env);
               fallback_line;
               Call (clGetDeviceIDs CL_DEVICE_TYPE_CPU) (st_cpu env)] h,
         {| vars := <[err := st_cpu env]>
                      (<[err := st_gpu env]> (<[err := st_platform env]> f));
            device := r |}).
Proof.
  intros Hp Hg Hc. unfold create_device, check_err, cl_GetPlatformIDs, cl_GetDeviceIDs.
  run. rewrite (ltb_nonneg _ Hp). run. rewrite Hg, Z.eqb_refl. run.
  repeat (progress (run; rewrite ?(ltb_nonneg _ Hc))). done.
Qed.

Lemma create_device_none h f r :
  0 ≤ st_platform env → st_gpu env = CL_DEVICE_NOT_FOUND → st_cpu env < 0 →
  create_device env (h, {| vars := f; device := r |}) =
    Exit 1
        (logs [Call clGetPlatformIDs (st_platform env);
               Call (clGetDeviceIDs CL_DEVICE_TYPE_GPU) (st_gpu env);
               fallback_line;
               Call (clGetDeviceIDs CL_DEVICE_TYPE_CPU) (st_cpu env);
               Stderr "Couldn't access any devices"] h,
         {| vars := <[err := st_cpu env]>
                      (<[err := st_gpu env]> (<[err := st_platform env]> f));
            device := r |}).
Proof.
  intros Hp Hg Hc. unfold create_device, check_err, cl_GetPlatformIDs, cl_GetDeviceIDs.
  run. rewrite (ltb_nonneg _ Hp). run. rewrite Hg, Z.eqb_refl. run.
  repeat (progress (run; rewrite ?(ltb_neg _ Hc))). done.
Qed.

Lemma create_device_gpu_error h f r :
  0 ≤ st_platform env → st_gpu env < 0 → st_gpu env ≠ CL_DEVICE_NOT_FOUND →
  create_device env (h, {| vars := f; device := r |}) =
    Exit 1
        (logs [Call clGetPlatformIDs (st_platform env);
               Call (clGetDeviceIDs CL_DEVICE_TYPE_GPU) (st_gpu env);
               Stderr "Couldn't access any devices"] h,
         {| vars := <[err := st_gpu env]> (<[err := st_platform env]> f); device := r |}).
Proof.
  intros Hp Hg Hne. unfold create_device, check_err, cl_GetPlatformIDs, cl_GetDeviceIDs.
  run. rewrite (ltb_nonneg _ Hp). run. rewrite (ltb_neg _ Hg).
  replace (st_gpu env =? CL_DEVICE_NOT_FOUND) with false
    by (symmetry; by apply Z.eqb_neq).
  run. rewrite (ltb_neg _ Hg). run. done.
Qed.
End OpenCL_device.

(** C5.  [create_device] asks for a GPU first.  On a platform that is
    identified: when the GPU query succeeds its device is selected and
    the CPU is not queried; the CPU is queried only after the GPU query
    answered [CL_DEVICE_NOT_FOUND], and its device is then selected when
    that query succeeds; when neither query finds a device the process
    prints a diagnostic and exits with status 1. *)
Theorem C5_gpu_first_cpu_fallback (env : OpenCL.cl_env) (h : host) (s : OpenCL.state) :
  0 ≤ OpenCL.st_platform env →
  let o := OpenCL.create_device env (h, s) in
  let platform_call := Call clGetPlatformIDs (OpenCL.st_platform env) in
  let gpu_call := Call (clGetDeviceIDs CL_DEVICE_TYPE_GPU) (OpenCL.st_gpu env) in
  let cpu_call := Call (clGetDeviceIDs CL_DEVICE_TYPE_CPU) (OpenCL.st_cpu env) in
  (0 ≤ OpenCL.st_gpu env →
     ∃ s', o = Ret (OpenCL.dev_gpu env) s' ∧
           trace s'.1 = trace h ++ [platform_call; gpu_call]) ∧
  (OpenCL.st_gpu env = OpenCL.CL_DEVICE_NOT_FOUND → 0 ≤ OpenCL.st_cpu env →
     ∃ s', o = Ret (OpenCL.dev_cpu env) s' ∧
           trace s'.1 = trace h ++ [platform_call; gpu_call; fallback_line; cpu_call]) ∧
  (∃ t, trace (final_state o).1 = trace h ++ t ∧
        ∀ st, Call (clGetDeviceIDs CL_DEVICE_TYPE_CPU) st ∈ t →
              OpenCL.st_gpu env = OpenCL.CL_DEVICE_NOT_FOUND) ∧
  (OpenCL.st_gpu env = OpenCL.CL_DEVICE_NOT_FOUND → OpenCL.st_cpu env < 0 →
     ∃ s', o = Exit 1 s' ∧
           trace s'.1 = trace h ++ [platform_call; gpu_call; fallback_line; cpu_call;
                                    Stderr "Couldn't access any devices"]).
Proof.
  intros Hp o pc gc cc. destruct s as [f r]. subst o.
  split; [|split; [|split]].
  - intros Hg. rewrite create_device_gpu by done. by eexists.
  - intros Hg Hc. rewrite create_device_cpu by done. by eexists.
  - destruct (decide (0 ≤ OpenCL.st_gpu env)) as [Hg|Hg].
    { rewrite create_device_gpu by done. eexists. split; [done|].
      intros st Hin. repeat (apply elem_of_cons in Hin as [Hin|Hin]; [done|]).
      by apply elem_of_nil in Hin. }
    destruct (decide (OpenCL.st_gpu env = OpenCL.CL_DEVICE_NOT_FOUND)) as [Hnf|Hnf].
    { destruct (decide (0 ≤ OpenCL.st_cpu env)) as [Hc|Hc].
      - rewrite create_device_cpu by done. by eexists.
      - rewrite create_device_none by (done || lia). by eexists. }
    rewrite create_device_gpu_error by (done || lia). eexists. split; [done|].
    intros st Hin. repeat (apply elem_of_cons in Hin as [Hin|Hin]; [done|]).
    by apply elem_of_nil in Hin.
  - intros Hg Hc. rewrite create_device_none by done. by eexists.
Qed.

(** ** Character buffers *)


Lemma length_list_ascii_of_string (text : string) :
  length (list_ascii_of_string text) = String.length text.
Proof. induction text as [|c text IH]; simpl; congruence. Qed.

Lemma size_t_id z : 0 ≤ z < 2 ^ 64 → OpenCL.size_t z = z.
Proof. intros Hz. unfold OpenCL.size_t. by apply Z.mod_small. Qed.

Lemma size_t_range z : 0 ≤ OpenCL.size_t z < 2 ^ 64.
Proof. unfold OpenCL.size_t. by apply Z.mod_pos_bound. Qed.

(** A buffer with the cell [n] is one of [n + 1] bytes, without
    wrap-around of the request. *)
Lemma buffer_served_size env n :
  0 ≤ n → buffer_served env n →
  OpenCL.size_t n = n ∧ OpenCL.size_t (n + 1) = n + 1 ∧ OpenCL.malloc_ok env (n + 1) = true.
Proof.
  intros Hn [Hm Hlt].
  assert (n + 1 < 2 ^ 64) as Hs.
  { destruct (decide (n + 1 < 2 ^ 64)) as [|Hge]; [done|exfalso].
    unfold OpenCL.size_t in Hlt.
    assert ((n + 1) `mod` 2 ^ 64 = (n + 1 - 2 ^ 64) `mod` 2 ^ 64) as Heq
      by (rewrite <- (Z_mod_plus_full (n + 1 - 2 ^ 64) 1 (2 ^ 64)); f_equal; lia).
    rewrite Heq in Hlt.
    pose proof (Z.mod_le (n + 1 - 2 ^ 64) (2 ^ 64)). lia. }
  rewrite (size_t_id (n + 1)) in Hm by lia.
  rewrite !size_t_id by lia. done.
Qed.

Lemma strlen_nonneg text : 0 ≤ strlen text.
Proof. unfold strlen. lia. Qed.

(** The block that holds [chars] and a terminating [NUL], made as
    [build_program] makes it: the terminator first, the characters
    over what [malloc] left. *)
Lemma filled_block (junk : nat → Ascii.ascii) (chars : list Ascii.ascii) :
  chars ++ drop (length chars)
             (<[length chars := OpenCL.NUL]> (junk <$> seq 0 (S (length chars)))) =
  chars ++ [OpenCL.NUL].
Proof.
  f_equal. set (n := length chars).
  assert (length (junk <$> seq 0 (S n)) = S n) as Hlen by by rewrite length_fmap, length_seq.
  rewrite insert_take_drop by lia.
  rewrite drop_app_length' by (rewrite length_take; lia).
  by rewrite drop_ge by lia.
Qed.


(** A block with a [NUL] holds a C string. *)
Lemma c_str_is_Some (cells : list Ascii.ascii) :
  OpenCL.NUL ∈ cells → is_Some (OpenCL.c_str cells).
Proof.
  induction cells as [|c cells IH]; intros Hin; [by apply elem_of_nil in Hin|].
  cbn [OpenCL.c_str]. destruct (decide (c = OpenCL.NUL)); [done|].
  apply elem_of_cons in Hin as [Hc|Hin]; [done|].
  destruct (IH Hin) as [text ->]. done.
Qed.

(** ** The OpenCL program: session set-up *)

Section OpenCL_setup.
Import OpenCL.
Variable env : cl_env.

(** A found device, whichever way. *)
Lemma create_device_found h f r :
  device_found env →
  ∃ f', create_device env (h, {| vars := f; device := r |}) =
          Ret (selected_device env)
              (logs (device_calls env) h, {| vars := f'; device := r |}) ∧
        0 ≤ f' err ∧ ∀ x, x ≠ err → f' x = f x.
Proof.
  intros [Hp [Hg|[Hg Hc]]]; unfold selected_device, device_calls.
  - destruct (decide (st_gpu env = CL_DEVICE_NOT_FOUND)) as [Hd|Hd];
      [unfold CL_DEVICE_NOT_FOUND in Hd; lia|].
    rewrite create_device_gpu by done. eexists. split; [reflexivity|].
    split; [by rewrite var_insert_eq|].
    intros x Hx. by rewrite !var_insert_ne.
  - destruct (decide (st_gpu env = CL_DEVICE_NOT_FOUND)) as [Hd|Hd]; [|done].
    rewrite create_device_cpu by done. eexists. split; [done|].
    split; [by rewrite var_insert_eq|].
    intros x Hx. by rewrite !var_insert_ne.
Qed.

(** Lines 197 to 205 when the file is read as [src]: the buffer then
    holds [src] and the terminating [NUL]. *)
Lemma read_source {B} filename src (k : list Ascii.ascii → prog B) s :
  reads env filename src →
  bind (malloc_char env (size_t (size_t (ftell_end env filename) + 1)))
    (λ b, bind (set_char b (size_t (ftell_end env filename)) NUL)
       (λ b, bind (fread b (size_t (ftell_end env filename)) src) k)) s =
  k (list_ascii_of_string src ++ [NUL]) s.
Proof.
  intros (_ & -> & Hb).
  destruct (buffer_served_size env _ (strlen_nonneg src) Hb) as (-> & -> & Hm).
  unfold malloc_char. rewrite bind_ret, Hm. unfold set_char, strlen.
  rewrite length_fmap, length_seq.
  rewrite decide_True by lia. rewrite bind_ret. unfold fread.
  rewrite Nat2Z.id, <- length_list_ascii_of_string.
  rewrite take_ge by lia.
  rewrite decide_True
    by (rewrite length_insert, length_fmap, length_seq; lia).
  rewrite bind_ret.
  replace (Z.to_nat (Z.of_nat (length (list_ascii_of_string src)) + 1))
    with (S (length (list_ascii_of_string src))) by lia.
  by rewrite filled_block.
Qed.

(** The text that the runtime is passed as the program source. *)
Lemma source_text filename src :
  reads env filename src →
  string_of_list_ascii
    (take (Z.to_nat (size_t (ftell_end env filename))) (list_ascii_of_string src ++ [NUL])) = src.
Proof.
  intros (_ & -> & Hb).
  destruct (buffer_served_size env _ (strlen_nonneg src) Hb) as (-> & _ & _).
  unfold strlen. rewrite Nat2Z.id, <- length_list_ascii_of_string, take_app_length.
  apply string_of_list_ascii_of_string.
Qed.


Lemma build_program_ok ctx dev filename src h f m a n :
  reads env filename src → 0 ≤ st_program env → 0 ≤ st_build env →
  build_program env ctx dev filename
      (h, {| vars := f; device := {| mem := m; kargs := a; fresh := n |} |}) =
    Ret n (logs (build_calls env ctx src n) h,
           {| vars := <[err := st_build env]> (<[err := st_program env]> f);
              device := {| mem := m; kargs := a; fresh := n + 1 |} |}).
Proof.
  intros Hf Hp Hb. unfold build_program. rewrite (proj1 Hf). cbv zeta.
  rewrite (read_source _ _ _ _ Hf). cbv beta. rewrite (source_text _ _ Hf).
  unfold cl_CreateProgramWithSource, create_object, cl_BuildProgram, check_err.
  run. rewrite (ltb_nonneg _ Hp). run. rewrite (ltb_nonneg _ Hp).
  run. rewrite (ltb_nonneg _ Hb). run. done.
Qed.

Lemma build_program_rejected ctx dev filename src h f r :
  reads env filename src → st_program env < 0 →
  build_program env ctx dev filename (h, {| vars := f; device := r |}) =
    Exit 1 (logs [Call (clCreateProgramWithSource ctx src) (st_program env);
                  Stderr "Couldn't create the program"] h,
            {| vars := <[err := st_program env]> f; device := r |}).
Proof.
  intros Hf Hp. unfold build_program. rewrite (proj1 Hf). cbv zeta.
  rewrite (read_source _ _ _ _ Hf). cbv beta. rewrite (source_text _ _ Hf).
  unfold cl_CreateProgramWithSource, create_object, check_err.
  run. rewrite (ltb_neg _ Hp). run. rewrite (ltb_neg _ Hp). run. done.
Qed.



(** Lines 219 to 225 on every platform: the process exits with status
    1 after the two queries and the [printf], or the assignment
    [program_log[log_size] = 0] is undefined because the buffer is not
    there. *)
Lemma print_log_any prg dev h (s : state) :
  let o : outcome (host * state) unit :=
    bind (cl_GetProgramBuildInfo_size env prg dev (size_t (log_size_junk env)))
      (λ log_size, bind (malloc_char env (size_t (log_size + 1)))
         (λ b, bind (set_char b log_size NUL)
            (λ b, bind (cl_GetProgramBuildInfo env prg dev (size_t (log_size + 1)) b)
               (λ b, bind (printf_s b) (λ _, exit 1))))) (h, s) in
  ∃ t, Forall setup_obs t ∧
       ((buffer_served env (log_size env) ∧ o = Exit 1 (logs t h, s)) ∨
        (¬ buffer_served env (log_size env) ∧ o = Crash (logs t h, s))).
Proof.
  intros o. subst o.
  unfold cl_GetProgramBuildInfo_size. rewrite bind_assoc, bind_api, bind_ret.
  change (if st_log_size env <? 0 then size_t (log_size_junk env)
          else Z.of_nat (String.length (build_log env)) + 1) with (log_size env).
  set (L := log_size env).
  assert (0 ≤ L) as HL.
  { unfold L, log_size. destruct (st_log_size env <? 0).
    - apply size_t_range.
    - pose proof (strlen_nonneg (build_log env)). lia. }
  unfold malloc_char. rewrite bind_ret.
  destruct (malloc_ok env (size_t (L + 1))) eqn:Hm.
  2: { exists [Call (clGetProgramBuildInfo prg dev 0) (st_log_size env)].
       split; [by apply Forall_singleton|]. right. split; [|done].
       intros [Hm' _]. congruence. }
  unfold set_char. rewrite length_fmap, length_seq.
  pose proof (size_t_range (L + 1)) as Hr.
  destruct (decide (0 ≤ L < Z.of_nat (Z.to_nat (size_t (L + 1))))) as [Hin|Hout'].
  2: { exists [Call (clGetProgramBuildInfo prg dev 0) (st_log_size env)].
       split; [by apply Forall_singleton|]. right. split; [|done].
       intros [_ Hlt]. apply Hout'. lia. }
  rewrite bind_ret. unfold cl_GetProgramBuildInfo. rewrite bind_assoc, bind_api, bind_ret.
  unfold printf_s.
  match goal with |- context [c_str ?cells] =>
    assert (NUL ∈ cells) as Hnul; [|destruct (c_str_is_Some cells Hnul) as [text ->]]
  end.
  { match goal with |- context [if ?b then _ else _] => destruct b end.
    - apply (list_elem_of_lookup_2 _ (Z.to_nat L)). apply list_lookup_insert_eq.
      rewrite length_fmap, length_seq. lia.
    - apply elem_of_app. left. apply elem_of_app. right. by apply list_elem_of_singleton. }
  rewrite bind_printf, !logs_logs. unfold exit.
  eexists. split; [|left; split; [split; [done|lia]|reflexivity]].
  repeat (apply Forall_cons_2; [done|]). apply Forall_nil_2.
Qed.



Lemma bind_crash {A B} (k : A → prog B) s : bind crash k s = Crash s.
Proof. done. Qed.

(** [build_program] on every platform and from every state.  It only
    adds observations of the set-up to the trace, assigns no global but
    [err] and leaves the memory objects and kernel arguments; it
    returns only after a successful build, exits only with status 1, and
    its behaviour is undefined exactly when a character buffer is not
    there. *)
Lemma build_program_outcome ctx dev filename h f m a n :
  let o := build_program env ctx dev filename
             (h, {| vars := f; device := {| mem := m; kargs := a; fresh := n |} |}) in
  (∃ es f' n',
     final_state o = (logs es h, {| vars := f';
                                    device := {| mem := m; kargs := a; fresh := n' |} |}) ∧
     Forall setup_obs es ∧ (∀ x, x ≠ err → f' x = f x) ∧
     (∀ p s', o = Ret p s' → 0 ≤ f' err)) ∧
  (∀ c s', o = Exit c s' → c = 1) ∧
  ((∃ s', o = Crash s') ↔ build_faults env filename).
Proof.
  intros o. subst o. unfold build_program, build_faults.
  destruct (file env filename) as [text|] eqn:Hfile.
  2: { run. split; [|split].
       - exists [Stderr "Couldn't find the program file"], f, n. cbn [final_state].
         split; [done|]. split; [by apply Forall_singleton|]. split; [done|]. done.
       - intros c s' Heq. by inversion Heq.
       - split; [by intros [s' ?]|]. intros [[? Hs] _]. discriminate. }
  cbv zeta. set (P := size_t (ftell_end env filename)).
  assert (0 ≤ P < 2 ^ 64) as HP by apply size_t_range.
  pose proof (size_t_range (P + 1)) as HP1.
  unfold malloc_char. rewrite bind_ret.
  destruct (malloc_ok env (size_t (P + 1))) eqn:Hm.
  2: { unfold set_char. rewrite bind_crash. split; [|split].
       - exists [], f, n. cbn [final_state]. rewrite logs_nil.
         split; [done|]. split; [done|]. split; [done|]. done.
       - done.
       - split; [|by eexists]. intros _. split; [done|]. left. intros [Hm' _]. congruence. }
  unfold set_char. rewrite length_fmap, length_seq.
  destruct (decide (0 ≤ P < Z.of_nat (Z.to_nat (size_t (P + 1))))) as [Hin|Hout].
  2: { rewrite bind_crash. split; [|split].
       - exists [], f, n. cbn [final_state]. rewrite logs_nil.
         split; [done|]. split; [done|]. split; [done|]. done.
       - done.
       - split; [|by eexists]. intros _. split; [done|]. left. intros [_ Hlt].
         apply Hout. lia. }
  assert (buffer_served env P) as Hserved by (split; [done|lia]).
  rewrite bind_ret. unfold fread.
  rewrite decide_True
    by (rewrite length_take, length_insert, length_fmap, length_seq; lia).
  rewrite bind_ret.
  match goal with |- context [string_of_list_ascii ?l] =>
    set (src := string_of_list_ascii l) end.
  unfold cl_CreateProgramWithSource, create_object, cl_BuildProgram, check_err.
  run. destruct (st_program env <? 0) eqn:Hp.
  { run. rewrite Hp. run. split; [|split].
    - eexists _, _, _. cbn [final_state]. split; [reflexivity|].
      split; [repeat (apply Forall_cons_2; [done|]); apply Forall_nil_2|].
      split; [|done]. intros x Hx. by rewrite var_insert_ne.
    - intros c s' Heq. by inversion Heq.
    - split; [by intros [s' ?]|]. intros [_ [Hn|(Hp' & _)]]; [done|].
      apply Z.ltb_lt in Hp. lia. }
  run. rewrite Hp. run. destruct (st_build env <? 0) eqn:Hb.
  2: { run. unfold ret. split; [|split].
       - eexists _, _, _. cbn [final_state]. split; [reflexivity|].
         split; [repeat (apply Forall_cons_2; [done|]); apply Forall_nil_2|].
         split.
         + intros x Hx. by rewrite !var_insert_ne.
         + intros _ _ _. rewrite var_insert_eq. by apply Z.ltb_ge.
       - done.
       - split; [by intros [s' ?]|]. intros [_ [Hn|(_ & Hb' & _)]]; [done|].
         apply Z.ltb_ge in Hb. lia. }
  match goal with |- context [bind _ _ (logs ?es h, ?s1)] =>
    destruct (print_log_any n dev (logs es h) s1) as (t & Ht & [[Hs Ho]|[Hs Ho]])
  end.
  - rewrite (bind_Exit _ _ _ _ _ Ho). split; [|split].
    + eexists _, _, _. cbn [final_state]. rewrite logs_logs. split; [reflexivity|].
      split; [repeat (apply Forall_cons_2; [done|]); exact Ht|].
      split; [|done]. intros x Hx. by rewrite !var_insert_ne.
    + intros c s' Heq. by inversion Heq.
    + split; [by intros [s' ?]|]. by intros [_ [Hn|(_ & _ & Hn)]].
  - rewrite (bind_Crash _ _ _ _ Ho). split; [|split].
    + eexists _, _, _. cbn [final_state]. rewrite logs_logs. split; [reflexivity|].
      split; [repeat (apply Forall_cons_2; [done|]); exact Ht|].
      split; [|done]. intros x Hx. by rewrite !var_insert_ne.
    + done.
    + split; [|by eexists]. intros _. split; [done|]. right.
      split; [by apply Z.ltb_ge|]. split; [by apply Z.ltb_lt|done].
Qed.

Lemma setup_ok filename kernelname src h f m a n :
  session_ok env filename src →
  ∃ f', setup_openCL_device_context_queue_kernel env filename kernelname
          (h, {| vars := f; device := {| mem := m; kargs := a; fresh := n |} |}) =
        Ret tt (logs (session_calls env src kernelname n) h,
                {| vars := f'; device := {| mem := m; kargs := a; fresh := n + 4 |} |}) ∧
        f' device_id = selected_device env ∧ f' context = n ∧ f' program = n + 1 ∧
        f' queue = n + 2 ∧ f' kernel = n + 3 ∧ 0 ≤ f' err ∧
        (∀ x, x ∈ [SZ; v1; v2; v_out; bufV1; bufV2; bufV_out; event] → f' x = f x).
Proof.
  intros ((Hdev & Hctx & Hfile & Hprg) & Hb & Hq & Hk).
  unfold setup_openCL_device_context_queue_kernel.
  destruct (create_device_found h f {| mem := m; kargs := a; fresh := n |} Hdev)
    as (f1 & Hcd & _ & Hf1).
  run. rewrite (bind_Ret _ _ _ _ _ Hcd).
  unfold cl_CreateContext, create_object, check_err.
  run. rewrite (ltb_nonneg _ Hctx). run. rewrite (ltb_nonneg _ Hctx). run.
  rewrite (bind_Ret _ _ _ _ _ (build_program_ok _ _ _ _ _ _ _ _ _ Hfile Hprg Hb)).
  unfold cl_CreateCommandQueueWithProperties, cl_CreateKernel, create_object.
  run. rewrite (ltb_nonneg _ Hq). run. rewrite (ltb_nonneg _ Hq). run.
  rewrite (ltb_nonneg _ Hk). run. rewrite (ltb_nonneg _ Hk). unfold ret.
  eexists. split.
  - unfold session_calls. rewrite <- !app_assoc.
    replace (n + 1 + 1 + 1 + 1) with (n + 4) by lia.
    replace (n + 1 + 1) with (n + 2) by lia. reflexivity.
  - repeat (rewrite var_insert_eq || rewrite var_insert_ne by discriminate).
    split; [done|]. split; [done|]. split; [done|]. split; [lia|]. split; [lia|].
    split; [done|].
    intros x Hx. apply list_elem_of_In in Hx. simpl in Hx.
    repeat (destruct Hx as [<-|Hx];
            [repeat rewrite var_insert_ne by discriminate; by apply Hf1|]).
    done.
Qed.
End OpenCL_setup.

(** ** The OpenCL program up to the session set-up *)

Lemma bind_on_host {G A B} (m : M host A) (k : A → M (host * G) B) h (g : G) a h' :
  m h = Ret a h' → bind (on_host m) k (h, g) = k a (h', g).
Proof. intros Hm. by rewrite (bind_Ret _ _ _ _ _ (on_host_Ret _ _ _ _ _ Hm)). Qed.

Lemma trace_logs es h : trace (logs es h) = trace h ++ es.
Proof. done. Qed.

Section OpenCL_prologue.
Context `{Platform}.
Import OpenCL.
Variable env : cl_env.

Lemma ocl_inits_spec h0 f r :
  wf h0 →
  ∃ p1 p2 p3 h,
    ((n <- get SZ;; p <- on_host (init n);; set v1 p);;
     (n <- get SZ;; p <- on_host (init n);; set v2 p);;
     (n <- get SZ;; p <- on_host (init n);; set v_out p))
      (h0, {| vars := f; device := r |}) =
      Ret tt (h, {| vars := <[v_out := p3]> (<[v2 := p2]> (<[v1 := p1]> f));
                    device := r |}) ∧
    three_vectors (f SZ) h0 h p1 p2 p3.
Proof.
  intros Hwf.
  destruct (init3_spec (f SZ) h0 Hwf)
    as (p1 & p2 & p3 & h1 & h2 & h3 & Hi1 & Hi2 & Hi3 & Hv).
  exists p1, p2, p3, h3. split; [|done]. rewrite init_same.
  run. rewrite (bind_on_host _ _ _ _ _ _ Hi1).
  run. rewrite (bind_on_host _ _ _ _ _ _ Hi2).
  run. by rewrite (bind_on_host _ _ _ _ _ _ Hi3).
Qed.

Lemma ocl_main_setup_spec argv :
  ∃ p1 p2 p3 h f,
    main_setup argv (host0, state0) =
      Ret tt (h, {| vars := f; device := device state0 |}) ∧
    three_vectors (cli_size argv) host0 h p1 p2 p3 ∧
    f SZ = cli_size argv ∧ f v1 = p1 ∧ f v2 = p2 ∧ f v_out = p3 ∧
    (∀ x, x ∈ [bufV1; bufV2; bufV_out; device_id; context; program; kernel; queue;
               event; err] → f x = 0).
Proof.
  unfold main_setup, state0. rewrite <- cli_size_eq.
  destruct (1 <? Z.of_nat (length argv)).
  - set (N := atoi _). rewrite bind_set.
    destruct (ocl_inits_spec host0 (<[SZ := N]> vars0) (device state0) wf_host0)
      as (p1 & p2 & p3 & h3 & Hrun & Hv).
    rewrite var_insert_eq in Hv.
    exists p1, p2, p3, h3. eexists. split; [exact Hrun|]. split; [exact Hv|].
    repeat (rewrite var_insert_eq || rewrite var_insert_ne by discriminate).
    do 4 (split; [reflexivity|]).
    intros x Hx. apply list_elem_of_In in Hx. simpl in Hx.
    repeat (destruct Hx as [<-|Hx];
            [repeat rewrite var_insert_ne by discriminate; reflexivity|]).
    destruct Hx.
  - rewrite bind_ret.
    destruct (ocl_inits_spec host0 vars0 (device state0) wf_host0)
      as (p1 & p2 & p3 & h3 & Hrun & Hv).
    exists p1, p2, p3, h3. eexists. split; [exact Hrun|]. split; [exact Hv|].
    repeat (rewrite var_insert_eq || rewrite var_insert_ne by discriminate).
    do 4 (split; [reflexivity|]).
    intros x Hx. apply list_elem_of_In in Hx. simpl in Hx.
    repeat (destruct Hx as [<-|Hx];
            [repeat rewrite var_insert_ne by discriminate; reflexivity|]).
    destruct Hx.
Qed.
End OpenCL_prologue.

Section OpenCL_inputs.
Context `{Platform}.
Import OpenCL.
Variable env : cl_env.

Lemma main_inputs_spec N h0 h p1 p2 p3 f r :
  three_vectors N h0 h p1 p2 p3 → f SZ = N → f v1 = p1 → f v2 = p2 →
  main_inputs (h, {| vars := f; device := r |}) =
    Ret (size_t N)
        (logs (ocl_inputs (init_values (rand_calls h0) N)
                          (init_values (rand_calls h0 + Z.to_nat N) N)) h,
         {| vars := f; device := r |}).
Proof.
  intros (_ & _ & _ & Ha & Hb & _) HN H1 H2.
  unfold main_inputs. rewrite print_same.
  run. rewrite H1, HN.
  erewrite bind_on_host; [|apply print_spec; exact Ha].
  run. rewrite H2, HN.
  erewrite bind_on_host; [|apply print_spec; exact Hb].
  run. unfold ocl_inputs. by rewrite <- !app_assoc.
Qed.

Lemma printed_stdout xs : Forall (λ e, ∃ text, e = Stdout text) (printed xs).
Proof.
  assert (∀ ys, Forall (λ e, ∃ text, e = Stdout text) (shown ys)) as Hs.
  { intros ys. unfold shown. apply Forall_fmap, Forall_true. intros y. by eexists. }
  unfold printed. case_decide; repeat (apply Forall_app; split); try apply Hs;
    apply Forall_singleton; by eexists.
Qed.

Lemma ocl_inputs_stdout a b : Forall (λ e, ∃ text, e = Stdout text) (ocl_inputs a b).
Proof.
  unfold ocl_inputs. repeat (apply Forall_app; split); try apply printed_stdout;
    apply Forall_singleton; by eexists.
Qed.
End OpenCL_inputs.


(** ** The OpenCL program: release *)

Section OpenCL_release.
Import OpenCL.

Lemma free_trace p h : trace (final_state (free p h)) = trace h.
Proof.
  unfold free. destruct (p =? NULL); [done|]. by destruct (blocks h !! p).
Qed.

Lemma host_frees_trace h s : trace (final_state (host_frees (h, s))).1 = trace h.
Proof.
  destruct s as [f r]. unfold host_frees. run.
  assert (∀ p h (k : unit → prog unit),
            (∀ h', trace h' = trace h → trace (final_state (k tt (h', {| vars := f; device := r |}))).1 = trace h) →
            trace (final_state (bind (on_host (free p)) k (h, {| vars := f; device := r |}))).1
              = trace h) as Hstep.
  { intros p h0 k Hk. pose proof (free_trace p h0) as Hf.
    unfold bind, on_host. destruct (free p h0) as [[] h1|c h1|h1]; simpl in *; auto. }
  apply Hstep. intros h1 H1. run. rewrite <- H1. apply Hstep. intros h2 H2.
  run. rewrite <- H2.
  pose proof (free_trace (f v_out) h2) as Hf. unfold on_host.
  by destruct (free (f v_out) h2) as [[] h3|c h3|h3].
Qed.

Lemma free_memory_eq h f m a n :
  free_memory (h, {| vars := f; device := {| mem := m; kargs := a; fresh := n |} |}) =
  host_frees (logs (release_calls f m) h,
              {| vars := f;
                 device := {| mem := delete (f bufV_out) (delete (f bufV2) (delete (f bufV1) m));
                              kargs := a; fresh := n |} |}).
Proof.
  unfold free_memory, cl_ReleaseMemObject, cl_Release. run. reflexivity.
Qed.
End OpenCL_release.

(** ** The device path *)

Section Kernel.
Import OpenCL.

(** The work items of a launch over buffers of equal length. *)
Lemma run_work_items_lookup size a b gids : ∀ out,
  length a = length out → length b = length out →
  (∀ g, g ∈ gids → 0 ≤ g < Z.of_nat (length out)) →
  ∃ out', run_work_items gids size a b out = Some out' ∧
          length out' = length out ∧
          ∀ i : nat, out' !! i = if decide (Z.of_nat i ∈ gids)
                                 then zip_with int_add a b !! i else out !! i.
Proof.
  induction gids as [|g rest IH]; intros out Ha Hb Hg.
  - exists out. split; [done|]. split; [done|]. intros i.
    rewrite decide_False; [done|apply not_elem_of_nil].
  - destruct (Hg g) as [Hg0 Hg1]; [left|].
    destruct (lookup_lt_is_Some_2 a (Z.to_nat g)) as [x Hx]; [lia|].
    destruct (lookup_lt_is_Some_2 b (Z.to_nat g)) as [y Hy]; [lia|].
    cbn [run_work_items]. unfold vector_add_ocl at 1. rewrite Hx, Hy. simpl.
    rewrite decide_True by lia. simpl.
    destruct (IH (<[Z.to_nat g := int_add x y]> out)) as (out' & Hrun & Hlen & Hel).
    { by rewrite length_insert. } { by rewrite length_insert. }
    { intros k Hk. rewrite length_insert. apply Hg. by right. }
    exists out'. split; [done|]. split; [by rewrite Hlen, length_insert|].
    intros i. rewrite Hel.
    destruct (decide (Z.of_nat i ∈ rest)) as [Hin|Hin].
    + rewrite decide_True; [done|by right].
    + destruct (decide (i = Z.to_nat g)) as [->|Hne].
      * rewrite decide_True by (rewrite Z2Nat.id by lia; left).
        rewrite list_lookup_insert_eq by lia.
        symmetry. apply lookup_zip_with_Some. eauto.
      * rewrite decide_False by (intros [?|?]%elem_of_cons; [lia|done]).
        by rewrite list_lookup_insert_ne.
Qed.

Lemma run_work_items_spec size a b out N :
  length a = Z.to_nat N → length b = Z.to_nat N → length out = Z.to_nat N →
  run_work_items (seqZ 0 N) size a b out = Some (zip_with int_add a b).
Proof.
  intros Ha Hb Ho.
  destruct (run_work_items_lookup size a b (seqZ 0 N) out) as (out' & Hrun & Hlen & Hel);
    [lia|lia| |].
  { intros g Hg%elem_of_seqZ. lia. }
  rewrite Hrun. f_equal. apply list_eq. intros i. rewrite Hel.
  destruct (decide (Z.of_nat i ∈ seqZ 0 N)) as [Hin|Hin]; [done|].
  rewrite elem_of_seqZ in Hin.
  rewrite !lookup_ge_None_2; [done| |lia].
  rewrite length_zip_with. lia.
Qed.
End Kernel.

Section Read_back.
Import OpenCL.

(** The copy of a device buffer into allocated host cells. *)
Lemma read_back_loop p (cells : list Z) (s : state) idxs : ∀ h,
  (∀ i, i ∈ idxs → is_Some (heap h !! (p + i))) →
  ∃ h', for_ idxs (λ i, on_host (set_elem p i (default 0 (cells !! Z.to_nat i)))) (h, s)
          = Ret tt (h', s) ∧
        blocks h' = blocks h ∧ brk h' = brk h ∧ trace h' = trace h ∧
        rand_calls h' = rand_calls h ∧
        (∀ a, is_Some (heap h' !! a) ↔ is_Some (heap h !! a)) ∧
        (∀ a, (∀ i, i ∈ idxs → a ≠ p + i) → heap h' !! a = heap h !! a) ∧
        (∀ i, i ∈ idxs → heap h' !! (p + i) = Some (default 0 (cells !! Z.to_nat i))).
Proof.
  induction idxs as [|j rest IH]; intros h Hal.
  - exists h. cbn [for_]. unfold ret. repeat split; try done.
    intros i Hi. by apply elem_of_nil in Hi.
  - destruct (Hal j) as [o Ho]; [left|].
    set (v := default 0 (cells !! Z.to_nat j)).
    set (h1 := upd_heap (λ _, <[p + j := v]> (heap h)) h).
    assert (Hstep : on_host (set_elem p j v) (h, s) = Ret tt (h1, s)).
    { unfold on_host, set_elem, store. by rewrite Ho. }
    assert (Hdom1 : ∀ a, is_Some (heap h1 !! a) ↔ is_Some (heap h !! a)).
    { intros a. simpl. destruct (decide (a = p + j)) as [->|Hne].
      - rewrite lookup_insert_eq, Ho. split; by eexists.
      - by rewrite lookup_insert_ne. }
    destruct (IH h1) as (h' & Hrun & Hbl & Hbrk & Htr & Hrc & Hdom & Hfr & Hval).
    { intros i Hi. apply Hdom1, Hal. by right. }
    exists h'. cbn [for_]. rewrite (bind_Ret _ _ _ _ _ Hstep).
    split; [done|]. do 4 (split; [done|]).
    split; [intros a; by rewrite Hdom, Hdom1|]. split.
    + intros a Ha. rewrite Hfr by (intros i Hi; apply Ha; by right).
      simpl. rewrite lookup_insert_ne; [done|].
      intros Heq. apply (Ha j); [left|done].
    + intros i Hi. destruct (decide (i ∈ rest)) as [Hin|Hin]; [by apply Hval|].
      apply elem_of_cons in Hi as [->|Hi]; [|done].
      rewrite Hfr.
      * simpl. by rewrite lookup_insert_eq.
      * intros i Hi Heq. apply Hin. by replace j with i by lia.
Qed.
End Read_back.

Section OpenCL_args.
Import OpenCL.
Variable env : cl_env.

Lemma set_kernel_arg_eq idx x h f m a n :
  set_kernel_arg env idx x
      (h, {| vars := f; device := {| mem := m; kargs := a; fresh := n |} |}) =
    Ret tt (logs [Call (clSetKernelArg (f kernel) idx) (st_setarg env idx)] h,
            {| vars := f;
               device := {| mem := m; kargs := bind_arg (st_setarg env idx) idx (f x) a;
                            fresh := n |} |}).
Proof.
  unfold set_kernel_arg, cl_SetKernelArg, bind_arg. run.
  destruct (st_setarg env idx <? 0); run; done.
Qed.

(** [copy_kernel_args] looks at [err] only, which no [clSetKernelArg]
    call assigns: whatever these calls return, it goes on when [err]
    is not negative on entry. *)
Lemma copy_kernel_args_eq h f m a n :
  0 ≤ f err →
  copy_kernel_args env
      (h, {| vars := f; device := {| mem := m; kargs := a; fresh := n |} |}) =
    Ret tt (logs (setarg_calls env (f kernel)) h,
            {| vars := f;
               device := {| mem := m; kargs := args_after env f a; fresh := n |} |}).
Proof.
  intros Herr. unfold copy_kernel_args, check_err.
  rewrite (bind_Ret _ _ _ _ _ (set_kernel_arg_eq _ _ _ _ _ _ _)).
  rewrite (bind_Ret _ _ _ _ _ (set_kernel_arg_eq _ _ _ _ _ _ _)).
  rewrite (bind_Ret _ _ _ _ _ (set_kernel_arg_eq _ _ _ _ _ _ _)).
  rewrite (bind_Ret _ _ _ _ _ (set_kernel_arg_eq _ _ _ _ _ _ _)).
  run. rewrite (ltb_nonneg _ Herr). reflexivity.
Qed.
End OpenCL_args.

Section OpenCL_device_path.
Import OpenCL.
Variable env : cl_env.

Lemma size_t_bytes N : 0 < N → N ≤ INT_MAX → size_t (N * sizeof_int) = 4 * N.
Proof.
  unfold INT_MAX, size_t, sizeof_int. intros H0 H1.
  rewrite Z.mod_small; lia.
Qed.

Lemma size_t_small N : 0 < N → N ≤ INT_MAX → size_t N = N.
Proof. unfold INT_MAX, size_t. intros H0 H1. rewrite Z.mod_small; lia. Qed.

Lemma create_buffer_ok N buf h f m a n :
  0 < N → N ≤ INT_MAX → 4 * N ≤ max_mem_alloc env → 0 ≤ st_buffer env buf →
  f SZ = N →
  create_buffer env buf
      (h, {| vars := f; device := {| mem := m; kargs := a; fresh := n |} |}) =
    Ret tt (logs [Call (clCreateBuffer (f context) (4 * N)) (st_buffer env buf)] h,
            {| vars := <[buf := n]> f;
               device := {| mem := <[n := fresh_cells env N]> m; kargs := a;
                            fresh := n + 1 |} |}).
Proof.
  intros H0 H1 Hmax Hst HN. unfold create_buffer, cl_CreateBuffer. run.
  rewrite HN, size_t_bytes by done.
  replace (4 * N =? 0) with false by (symmetry; apply Z.eqb_neq; lia).
  replace (max_mem_alloc env <? 4 * N) with false by (symmetry; apply Z.ltb_ge; lia).
  cbn [orb]. run. rewrite (ltb_nonneg _ Hst). run.
  unfold fresh_cells, sizeof_int. replace ((4 * N) `div` 4) with N.
  - reflexivity.
  - rewrite Z.mul_comm, Z.div_mul; lia.
Qed.

Lemma write_buffer_ok N buf v cells data h f m a n :
  0 < N → N ≤ INT_MAX → 0 ≤ st_write env buf → f SZ = N →
  m !! f buf = Some cells → length cells = Z.to_nat N →
  read_array (heap h) (f v) N = Some data →
  write_buffer env buf v
      (h, {| vars := f; device := {| mem := m; kargs := a; fresh := n |} |}) =
    Ret tt (logs [Call (clEnqueueWriteBuffer (f queue) (f buf) (4 * N)) (st_write env buf)] h,
            {| vars := f;
               device := {| mem := <[f buf := data]> m; kargs := a; fresh := n |} |}).
Proof.
  intros H0 H1 Hst HN Hm Hlen Hdata.
  unfold write_buffer, cl_EnqueueWriteBuffer. run.
  rewrite HN, size_t_bytes by done. rewrite Hm.
  replace (sizeof_int * Z.of_nat (length cells) <? 4 * N) with false
    by (symmetry; apply Z.ltb_ge; unfold sizeof_int; lia).
  run. rewrite (ltb_nonneg _ Hst).
  unfold bind at 1. cbn [heap logs].
  replace ((4 * N) `div` sizeof_int) with N
    by (unfold sizeof_int; rewrite Z.mul_comm, Z.div_mul; lia).
  rewrite Hdata.
  rewrite drop_ge by (apply read_array_length in Hdata; lia).
  rewrite app_nil_r. reflexivity.
Qed.

Lemma setup_kernel_memory_ok N xa xb h f m a n :
  device_ok env N → f SZ = N →
  read_array (heap h) (f v1) N = Some xa → read_array (heap h) (f v2) N = Some xb →
  setup_kernel_memory env
      (h, {| vars := f; device := {| mem := m; kargs := a; fresh := n |} |}) =
    Ret tt
      (logs [Call (clCreateBuffer (f context) (4 * N)) (st_buffer env bufV1);
             Call (clCreateBuffer (f context) (4 * N)) (st_buffer env bufV2);
             Call (clCreateBuffer (f context) (4 * N)) (st_buffer env bufV_out);
             Call (clEnqueueWriteBuffer (f queue) n (4 * N)) (st_write env bufV1);
             Call (clEnqueueWriteBuffer (f queue) (n + 1) (4 * N)) (st_write env bufV2)] h,
       {| vars := <[bufV_out := n + 2]> (<[bufV2 := n + 1]> (<[bufV1 := n]> f));
          device := {| mem := <[n + 1 := xb]>
                                (<[n := xa]>
                                   (<[n + 2 := fresh_cells env N]>
                                      (<[n + 1 := fresh_cells env N]>
                                         (<[n := fresh_cells env N]> m))));
                       kargs := a; fresh := n + 3 |} |}).
Proof.
  intros (H0 & H1 & Hmax & (Hb1 & Hb2 & Hb3) & (Hw1 & Hw2) & _) HN Hxa Hxb.
  unfold setup_kernel_memory.
  set (fc := fresh_cells env N).
  set (f1 := <[bufV1 := n]> f).
  set (f2 := <[bufV2 := n + 1]> f1).
  set (f3 := <[bufV_out := n + 2]> f2).
  assert (Hf1 : ∀ x, x ≠ bufV1 → f1 x = f x)
    by (intros x Hx; unfold f1; by rewrite var_insert_ne).
  assert (Hf2 : ∀ x, x ≠ bufV1 → x ≠ bufV2 → f2 x = f x)
    by (intros x Hx Hy; unfold f2; rewrite var_insert_ne by done; by apply Hf1).
  assert (Hf3 : ∀ x, x ≠ bufV1 → x ≠ bufV2 → x ≠ bufV_out → f3 x = f x)
    by (intros x Hx Hy Hz; unfold f3; rewrite var_insert_ne by done; by apply Hf2).
  assert (Hlen : length fc = Z.to_nat N)
    by (unfold fc, fresh_cells; by rewrite length_fmap, length_seq).
  assert (f3 bufV1 = n) as Hn1
    by (unfold f3, f2, f1; by rewrite !var_insert_ne, var_insert_eq by discriminate).
  assert (f3 bufV2 = n + 1) as Hn2
    by (unfold f3, f2; by rewrite var_insert_ne, var_insert_eq by discriminate).
  rewrite (bind_Ret _ _ _ _ _ (create_buffer_ok N bufV1 h f m a n H0 H1 Hmax Hb1 HN)).
  fold f1 fc.
  rewrite (bind_Ret _ _ _ _ _ (create_buffer_ok N bufV2 _ f1 _ a (n + 1) H0 H1 Hmax Hb2
                                 ltac:(rewrite Hf1 by discriminate; exact HN))).
  fold f2 fc. replace (n + 1 + 1) with (n + 2) by lia.
  rewrite (bind_Ret _ _ _ _ _ (create_buffer_ok N bufV_out _ f2 _ a (n + 2) H0 H1 Hmax Hb3
                                 ltac:(rewrite Hf2 by discriminate; exact HN))).
  fold f3 fc. replace (n + 2 + 1) with (n + 3) by lia.
  rewrite !logs_logs. rewrite !Hf1, !Hf2 by discriminate. cbn [app].
  set (m3 := <[n + 2 := fc]> (<[n + 1 := fc]> (<[n := fc]> m))).
  set (h3 := logs _ h).
  assert (Hm1 : m3 !! f3 bufV1 = Some fc).
  { rewrite Hn1. unfold m3. rewrite !lookup_insert_ne by lia. apply lookup_insert_eq. }
  rewrite (bind_Ret _ _ _ _ _ (write_buffer_ok N bufV1 v1 fc xa h3 f3 m3 a (n + 3)
             H0 H1 Hw1 ltac:(rewrite Hf3 by discriminate; exact HN) Hm1 Hlen
             ltac:(rewrite Hf3 by discriminate; exact Hxa))).
  assert (Hm2 : <[f3 bufV1 := xa]> m3 !! f3 bufV2 = Some fc).
  { rewrite Hn1, Hn2. unfold m3. rewrite !lookup_insert_ne by lia. apply lookup_insert_eq. }
  rewrite (write_buffer_ok N bufV2 v2 fc xb (logs _ h3) f3 _ a (n + 3)
             H0 H1 Hw2 ltac:(rewrite Hf3 by discriminate; exact HN) Hm2 Hlen
             ltac:(rewrite Hf3 by discriminate; exact Hxb)).
  unfold h3. rewrite !logs_logs, Hn1, Hn2, !Hf3 by discriminate. reflexivity.
Qed.
End OpenCL_device_path.

Section OpenCL_main_device.
Import OpenCL.
Variable env : cl_env.

Lemma bind_arg_ok st idx v (a : gmap Z Z) : 0 ≤ st → bind_arg st idx v a = <[idx := v]> a.
Proof. intros Hst. unfold bind_arg. by rewrite (ltb_nonneg _ Hst). Qed.

(** The device path when every call succeeds: it leaves the sums of
    the two input vectors in the output vector, and changes no other
    host cell. *)
Lemma main_device_ok N xa xb h f m a n :
  device_ok env N → 0 < n → f SZ = N → 0 ≤ f err →
  read_array (heap h) (f v1) N = Some xa → read_array (heap h) (f v2) N = Some xb →
  is_Some (read_array (heap h) (f v_out) N) →
  ∃ h' f' r',
    main_device env (size_t N)
        (h, {| vars := f; device := {| mem := m; kargs := a; fresh := n |} |}) =
      Ret tt (h', {| vars := f'; device := r' |}) ∧
    trace h' = trace h ++ device_path_calls env N (f context) (f queue) (f kernel) n ∧
    blocks h' = blocks h ∧
    read_array (heap h') (f v_out) N = Some (zip_with int_add xa xb) ∧
    (∀ p, ¬ (f v_out ≤ p < f v_out + N) → heap h' !! p = heap h !! p) ∧
    (∀ x, x ∉ [bufV1; bufV2; bufV_out; event] → f' x = f x) ∧
    f' bufV1 = n ∧ f' bufV2 = n + 1 ∧ f' bufV_out = n + 2 ∧
    mem r' !! n = Some xa ∧ mem r' !! (n + 1) = Some xb ∧
    mem r' !! (n + 2) = Some (zip_with int_add xa xb).
Proof.
  intros Hok Hn HN Herr Hxa Hxb Hout.
  pose proof Hok as (H0 & H1 & Hmax & _ & _ & (Ha0 & Ha1 & Ha2 & Ha3) & Henq & Hwait & Hread).
  pose proof (read_array_length _ _ _ _ Hxa) as Hla.
  pose proof (read_array_length _ _ _ _ Hxb) as Hlb.
  unfold main_device.
  rewrite (bind_Ret _ _ _ _ _ (setup_kernel_memory_ok env N xa xb h f m a n Hok HN Hxa Hxb)).
  set (f3 := <[bufV_out := n + 2]> (<[bufV2 := n + 1]> (<[bufV1 := n]> f))).
  assert (Hf3 : ∀ x, x ≠ bufV1 → x ≠ bufV2 → x ≠ bufV_out → f3 x = f x)
    by (intros x Hx Hy Hz; unfold f3; by rewrite !var_insert_ne).
  assert (f3 bufV1 = n) as Hn1
    by (unfold f3; by rewrite !var_insert_ne, var_insert_eq by discriminate).
  assert (f3 bufV2 = n + 1) as Hn2
    by (unfold f3; by rewrite var_insert_ne, var_insert_eq by discriminate).
  assert (f3 bufV_out = n + 2) as Hn3 by (unfold f3; by rewrite var_insert_eq).
  set (fc := fresh_cells env N).
  assert (Hlen : length fc = Z.to_nat N)
    by (unfold fc, fresh_cells; by rewrite length_fmap, length_seq).
  set (m5 := <[n + 1 := xb]> (<[n := xa]> _)).
  assert (Hm5a : m5 !! n = Some xa)
    by (unfold m5; rewrite lookup_insert_ne by lia; apply lookup_insert_eq).
  assert (Hm5b : m5 !! (n + 1) = Some xb) by (unfold m5; apply lookup_insert_eq).
  assert (Hm5o : m5 !! (n + 2) = Some fc)
    by (unfold m5; rewrite !lookup_insert_ne by lia; apply lookup_insert_eq).
  set (h5 := logs _ h).
  rewrite (bind_Ret _ _ _ _ _ (copy_kernel_args_eq env h5 f3 m5 a (n + 3)
             ltac:(rewrite Hf3 by discriminate; exact Herr))).
  unfold args_after. rewrite !bind_arg_ok by done.
  rewrite Hn1, Hn2, Hn3, !Hf3 by discriminate. rewrite HN.
  set (args := <[3 := n + 2]> _).
  set (sums := zip_with int_add xa xb).
  assert (Hbound : bound_args {| mem := m5; kargs := args; fresh := n + 3 |} =
                   Some (N, xa, xb, n + 2, fc)).
  { unfold bound_args. cbn [kargs mem].
    assert (args !! 0 = Some N) as ->
      by (unfold args; by rewrite !lookup_insert_ne, lookup_insert_eq by lia).
    assert (args !! 1 = Some n) as ->
      by (unfold args; by rewrite !lookup_insert_ne, lookup_insert_eq by lia).
    assert (args !! 2 = Some (n + 1)) as ->
      by (unfold args; by rewrite !lookup_insert_ne, lookup_insert_eq by lia).
    assert (args !! 3 = Some (n + 2)) as ->
      by (unfold args; by rewrite lookup_insert_eq).
    cbn [mbind option_bind]. rewrite Hm5a. cbn [mbind option_bind].
    rewrite Hm5b. cbn [mbind option_bind]. rewrite Hm5o. reflexivity. }
  unfold cl_EnqueueNDRangeKernel, cl_WaitForEvents, cl_EnqueueReadBuffer.
  run. rewrite Hbound, size_t_small by done.
  replace (N =? 0) with false by (symmetry; apply Z.eqb_neq; lia).
  run. rewrite (ltb_nonneg _ Henq).
  rewrite (run_work_items_spec N xa xb fc N) by done. fold sums.
  run. rewrite ?Hn3, ?Hf3 by discriminate.
  replace (n + 3 =? NULL) with false by (symmetry; apply Z.eqb_neq; unfold NULL; lia).
  run. rewrite ?Hn3, ?Hf3 by discriminate. rewrite HN, size_t_bytes by done.
  rewrite lookup_insert_eq.
  replace (sizeof_int * Z.of_nat (length sums) <? 4 * N) with false.
  2:{ symmetry. apply Z.ltb_ge. unfold sums, sizeof_int.
      rewrite length_zip_with. lia. }
  run. rewrite (ltb_nonneg _ Hread).
  replace ((4 * N) `div` sizeof_int) with N
    by (unfold sizeof_int; rewrite Z.mul_comm, Z.div_mul; lia).
  rewrite bind_assoc.
  set (s6 := {| vars := _; device := _ |}).
  set (h6 := logs _ h5).
  destruct (read_back_loop (f v_out) sums s6 (seqZ 0 N) h6)
    as (h' & Hloop & Hbl & _ & Htr & _ & Hdom & Hfr & Hval).
  { intros i Hi%elem_of_seqZ. apply (read_array_is_Some _ _ N); [done|lia]. }
  rewrite (bind_Ret _ _ _ _ _ Hloop). run. unfold ret.
  eexists h', _, _. split; [reflexivity|].
  split.
  { rewrite Htr. unfold h6, h5. rewrite !trace_logs.
    unfold device_path_calls, setarg_calls. rewrite <- !app_assoc. reflexivity. }
  split; [by rewrite Hbl|].
  split.
  { apply read_array_Some. unfold sums. split; [rewrite length_zip_with; lia|].
    intros i x Hx. rewrite Hval.
    - rewrite Nat2Z.id. fold sums in Hx |- *. by rewrite Hx.
    - apply elem_of_seqZ. apply lookup_lt_Some in Hx.
      rewrite length_zip_with in Hx. lia. }
  split.
  { intros p Hp. rewrite Hfr; [done|]. intros i Hi%elem_of_seqZ. lia. }
  split.
  { intros x Hx. rewrite !not_elem_of_cons in Hx. destruct Hx as (? & ? & ? & ? & _).
    rewrite var_insert_ne by done. by apply Hf3. }
  rewrite var_insert_ne by discriminate. rewrite Hn1.
  rewrite var_insert_ne by discriminate. rewrite Hn2.
  rewrite var_insert_ne by discriminate. rewrite Hn3.
  do 3 (split; [done|]). cbn [mem].
  split; [by rewrite lookup_insert_ne by lia|].
  split; [by rewrite lookup_insert_ne by lia|].
  apply lookup_insert_eq.
Qed.
End OpenCL_main_device.

(** ** The OpenCL program, end to end *)

Ltac in_list :=
  repeat match goal with H : _ ∈ _ |- _ => apply list_elem_of_In in H; simpl in H end;
  apply list_elem_of_In; simpl; tauto.

Section OpenCL_main.
Context `{Platform}.
Import OpenCL.
Variable env : cl_env.

Lemma main_results_spec N out h f r :
  f SZ = N → read_array (heap h) (f v_out) N = Some out →
  main_results (h, {| vars := f; device := r |}) =
    Ret tt (logs (ocl_results out) h, {| vars := f; device := r |}).
Proof.
  intros HN Hout. unfold main_results. rewrite print_same. run. rewrite HN.
  erewrite bind_on_host; [|apply print_spec; exact Hout].
  unfold on_host, printf_ms. rewrite log_logs, !logs_logs.
  reflexivity.
Qed.

Lemma host_frees_ok N h0 h p1 p2 p3 h' f r :
  three_vectors N h0 h p1 p2 p3 → blocks h' = blocks h →
  f v1 = p1 → f v2 = p2 → f v_out = p3 →
  ∃ h3, host_frees (h', {| vars := f; device := r |}) =
          Ret tt (h3, {| vars := f; device := r |}) ∧
        trace h3 = trace h'.
Proof.
  intros Hv Hbl H1 H2 H3.
  destruct (free3 N h0 h p1 p2 p3 h' Hv Hbl) as (h3 & Hfree & Htr).
  exists h3. split; [|done]. unfold host_frees.
  unfold bind in Hfree.
  destruct (free p1 h') as [[] h5| |] eqn:E1; try done.
  destruct (free p2 h5) as [[] h6| |] eqn:E2; try done.
  run. rewrite H1, (bind_on_host _ _ _ _ _ _ E1).
  run. rewrite H2, (bind_on_host _ _ _ _ _ _ E2).
  run. rewrite H3. by apply on_host_Ret.
Qed.

(** A run in which every call succeeds. *)
Lemma ocl_main_ok argv src :
  session_ok env kernel_file src → device_ok env (cli_size argv) →
  ∃ h' s', main env argv (host0, state0) = Ret 0 (h', s') ∧
           trace h' = ocl_trace env src (cli_size argv) ∧
           vars s' SZ = cli_size argv.
Proof.
  intros Hsess Hdev. set (N := cli_size argv).
  destruct (ocl_main_setup_spec argv)
    as (p1 & p2 & p3 & h & f & Hsetup & Hv & HN & H1 & H2 & H3 & Hz).
  unfold main. rewrite (bind_Ret _ _ _ _ _ Hsetup).
  rewrite (bind_Ret _ _ _ _ _ (main_inputs_spec _ _ _ _ _ _ _ _ Hv HN H1 H2)).
  fold N. change (rand_calls host0) with 0%nat. rewrite Nat.add_0_l.
  set (a := init_values 0 N). set (b := init_values (Z.to_nat N) N).
  destruct (setup_ok env kernel_file kernel_name src (logs (ocl_inputs a b) h) f ∅ ∅ 1 Hsess)
    as (f1 & Hset & Hdv & Hctx & Hprg & Hq & Hk & Herr & Hsame).
  rewrite (bind_Ret _ _ _ _ _ Hset).
  pose proof Hv as (Hwf & Htr & _ & Ha & Hb & Ho & _ & Hao & Hbo & _).
  fold N a b in Ha, Hb. change (rand_calls host0) with 0%nat in Ha, Hb, Ho.
  rewrite Nat.add_0_l in Hb.
  assert (Hs : ∀ x, x ∈ [SZ; v1; v2; v_out] → f1 x = f x).
  { intros x Hx. apply Hsame. in_list. }
  set (h1 := logs (session_calls env src kernel_name 1) (logs (ocl_inputs a b) h)).
  destruct (main_device_ok env N a b h1 f1 ∅ ∅ (1 + 4))
    as (h2 & f2 & r2 & Hdevice & Htr2 & Hbl2 & Hsum & Hfr & Hf2 & Hb1 & Hb2 & Hb3
        & Hm1 & Hm2 & Hm3); try done.
  { rewrite Hs by in_list. exact HN. }
  { rewrite Hs by in_list. rewrite H1. exact Ha. }
  { rewrite Hs by in_list. rewrite H2. exact Hb. }
  { rewrite Hs by in_list. rewrite H3. by eexists. }
  rewrite (bind_Ret _ _ _ _ _ Hdevice).
  assert (Hk2 : ∀ x, x ∈ [SZ; v1; v2; v_out; context; program; queue; kernel] →
                     f2 x = f1 x).
  { intros x Hx. apply Hf2. apply list_elem_of_In in Hx. simpl in Hx.
    rewrite !not_elem_of_cons.
    repeat (destruct Hx as [<-|Hx];
            [repeat split; try discriminate; apply not_elem_of_nil|]).
    destruct Hx. }
  rewrite (bind_Ret _ _ _ _ _ (main_results_spec N (zip_with int_add a b) h2 f2 r2
             ltac:(rewrite Hk2, Hs by in_list; exact HN)
             ltac:(rewrite Hk2 by in_list; exact Hsum))).
  destruct r2 as [m2 a2 n2]. unfold bind at 1. rewrite free_memory_eq.
  cbn [mem] in Hm1, Hm2, Hm3.
  destruct (host_frees_ok N host0 h p1 p2 p3
              (logs (release_calls f2 m2) (logs (ocl_results (zip_with int_add a b)) h2))
              f2 {| mem := delete (f2 bufV_out) (delete (f2 bufV2) (delete (f2 bufV1) m2));
                    kargs := a2; fresh := n2 |} Hv)
    as (h3 & Hfrees & Htr3).
  { cbn [blocks logs]. rewrite Hbl2. reflexivity. }
  { rewrite Hk2, Hs by in_list. exact H1. }
  { rewrite Hk2, Hs by in_list. exact H2. }
  { rewrite Hk2, Hs by in_list. exact H3. }
  rewrite Hfrees. unfold ret.
  eexists _, _. split; [reflexivity|]. split.
  - rewrite Htr3, !trace_logs, Htr2. unfold h1. rewrite !trace_logs, Htr.
    change (trace host0) with (@nil obs). rewrite app_nil_l.
    unfold ocl_trace. fold N a b. rewrite <- !app_assoc.
    do 2 f_equal.
    rewrite Hctx, Hq, Hk. change (1 + 2) with 3. change (1 + 3) with 4.
    change (1 + 4) with 5. do 2 f_equal.
    unfold release_calls, final_release_calls, release_status.
    rewrite Hb1, Hb2, Hb3. change (5 + 1) with 6. change (5 + 2) with 7.
    change (5 + 1) with 6 in Hm2. change (5 + 2) with 7 in Hm3.
    rewrite Hm1. rewrite lookup_delete_ne by lia. rewrite Hm2.
    rewrite !lookup_delete_ne by lia. rewrite Hm3.
    rewrite !Hk2 by in_list.
    rewrite Hctx, Hq, Hk, Hprg. reflexivity.
  - cbn [vars]. rewrite Hk2, Hs by in_list. exact HN.
Qed.
End OpenCL_main.

(** ** Failures after the set-up *)

Section Invariants.
Context {S : Type} (I : S → Prop).

Lemma preserves_ret {A} (a : A) : preserves I (ret a).
Proof. intros s Hs. done. Qed.

Lemma preserves_exit {A} c : preserves I (exit (A := A) c).
Proof. intros s Hs. done. Qed.

Lemma preserves_bind {A B} (m : M S A) (k : A → M S B) :
  preserves I m → (∀ a, preserves I (k a)) → preserves I (bind m k).
Proof.
  intros Hm Hk s Hs. specialize (Hm s Hs). unfold bind.
  destruct (m s) as [a s1|c s1|s1]; [by apply Hk|done|done].
Qed.

Lemma preserves_for_ idxs (body : Z → M S unit) :
  (∀ i, preserves I (body i)) → preserves I (for_ idxs body).
Proof.
  intros Hb. induction idxs as [|i rest IH]; [apply preserves_ret|].
  apply preserves_bind; [apply Hb|done].
Qed.

Lemma no_exit_ret {A} (a : A) : no_exit I (ret a).
Proof. intros s Hs c s'. done. Qed.

Lemma no_exit_bind {A B} (m : M S A) (k : A → M S B) :
  preserves I m → no_exit I m → (∀ a, no_exit I (k a)) → no_exit I (bind m k).
Proof.
  intros Hp Hm Hk s Hs c s'. specialize (Hp s Hs). specialize (Hm s Hs).
  unfold bind. destruct (m s) as [a s1|c1 s1|s1] eqn:E; [by apply Hk| |done].
  by destruct (Hm c1 s1).
Qed.

Lemma no_exit_for_ idxs (body : Z → M S unit) :
  (∀ i, preserves I (body i)) → (∀ i, no_exit I (body i)) → no_exit I (for_ idxs body).
Proof.
  intros Hp Hb. induction idxs as [|i rest IH]; [apply no_exit_ret|].
  apply no_exit_bind; [apply Hp|apply Hb|done].
Qed.

Lemma keeps_running_ret {A} (a : A) : keeps_running I (ret a).
Proof. split; [apply preserves_ret|apply no_exit_ret]. Qed.

Lemma keeps_running_bind {A B} (m : M S A) (k : A → M S B) :
  keeps_running I m → (∀ a, keeps_running I (k a)) → keeps_running I (bind m k).
Proof.
  intros [Hp Hm] Hk. split.
  - apply preserves_bind; [done|]. intros a. apply Hk.
  - apply no_exit_bind; [done|done|]. intros a. apply Hk.
Qed.

Lemma keeps_running_for_ idxs (body : Z → M S unit) :
  (∀ i, keeps_running I (body i)) → keeps_running I (for_ idxs body).
Proof.
  intros Hb. split.
  - apply preserves_for_. intros i. apply Hb.
  - apply no_exit_for_; intros i; apply Hb.
Qed.
End Invariants.

Section Host_calls.
(** The calls of the C library that the programs make, [exit] apart,
    do not end the process. *)
Lemma preserves_any {A} (m : M host A) : preserves any_host m.
Proof. by intros h _. Qed.

Lemma no_exit_printf text : no_exit any_host (printf text).
Proof. by intros h _ c h'. Qed.

Lemma no_exit_printf_ms text : no_exit any_host (printf_ms text).
Proof. by intros h _ c h'. Qed.

Lemma no_exit_get_elem p i : no_exit any_host (get_elem p i).
Proof. intros h _ c h'. unfold get_elem. by destruct (load (heap h) p i). Qed.

Lemma no_exit_set_elem p i v : no_exit any_host (set_elem p i v).
Proof. intros h _ c h'. unfold set_elem. by destruct (store (heap h) p i v). Qed.

Lemma no_exit_free p : no_exit any_host (free p).
Proof.
  intros h _ c h'. unfold free. destruct (p =? NULL); [done|].
  by destruct (blocks h !! p).
Qed.

Lemma no_exit_print A size : no_exit any_host (OpenCL.print A size).
Proof.
  assert (∀ idxs, no_exit any_host
            (for_ idxs (λ i, x <- get_elem A i ;; printf (fmt_d x)))) as Hloop.
  { intros idxs. apply no_exit_for_; intros i; [apply preserves_any|].
    apply no_exit_bind; [apply preserves_any|apply no_exit_get_elem|].
    intros x. apply no_exit_printf. }
  unfold OpenCL.print, OpenCL.PRINT, for_range.
  change (1 =? 0) with false. change (1 =? 1) with true. cbn [andb].
  apply no_exit_bind; [apply preserves_any| |intros; apply no_exit_printf].
  destruct (15 <? size); [|apply Hloop].
  apply no_exit_bind; [apply preserves_any|apply Hloop|intros _].
  apply no_exit_bind; [apply preserves_any|apply no_exit_printf|intros _].
  apply Hloop.
Qed.
End Host_calls.

Section Device_calls.
Import OpenCL.
Context `{Platform}.
Variable env : cl_env.

(** A condition on one global of the program. *)
Variable x0 : gvar.
Variable P : Z → Prop.
Abbreviation I := (on_var x0 P).

Lemma keeps_running_get x : keeps_running I (get x).
Proof. split; [by intros [h s] Hs|by intros [h s] Hs c s']. Qed.

Lemma keeps_running_set x v : x ≠ x0 → keeps_running I (set x v).
Proof.
  intros Hx. split; [|by intros [h s] Hs c s'].
  intros [h s] Hs. unfold on_var in *. simpl in *. by rewrite var_insert_ne.
Qed.

Lemma keeps_running_get_rt : keeps_running I get_rt.
Proof. split; [by intros [h s] Hs|by intros [h s] Hs c s']. Qed.

Lemma keeps_running_set_rt r : keeps_running I (set_rt r).
Proof. split; [by intros [h s] Hs|by intros [h s] Hs c s']. Qed.

Lemma keeps_running_api c st : keeps_running I (api c st).
Proof. split; [by intros [h s] Hs|by intros [h s] Hs c' s']. Qed.

Lemma keeps_running_crash {A} : keeps_running I (crash (A := A)).
Proof. split; [by intros [h s] Hs|by intros [h s] Hs c' s']. Qed.

Lemma keeps_running_on_host {A} (m : M host A) :
  no_exit any_host m → keeps_running I (on_host m).
Proof.
  intros Hm. split.
  - intros [h s] Hs. unfold on_host. by destruct (m h).
  - intros [h s] Hs c s'. unfold on_host.
    destruct (m h) as [a h1|c1 h1|h1] eqn:E; [done| |done].
    by destruct (Hm h Logic.I c1 h1).
Qed.

Lemma keeps_running_write st q buf bytes ptr :
  keeps_running I (cl_EnqueueWriteBuffer st q buf bytes ptr).
Proof.
  unfold cl_EnqueueWriteBuffer.
  apply keeps_running_bind; [apply keeps_running_get_rt|intros r].
  apply keeps_running_bind; [apply keeps_running_api|intros _].
  match goal with |- context [if ?b then _ else _] => destruct b end;
    [apply keeps_running_ret|].
  split.
  - intros [h s] Hs.
    destruct (read_array (heap h) ptr (bytes `div` sizeof_int)), (mem r !! buf); done.
  - intros [h s] Hs c s'.
    destruct (read_array (heap h) ptr (bytes `div` sizeof_int)), (mem r !! buf); done.
Qed.

Ltac keeps :=
  repeat first
    [ apply no_exit_printf | apply no_exit_printf_ms | apply no_exit_print
    | apply no_exit_free | apply no_exit_set_elem
    | apply keeps_running_ret | apply keeps_running_get | apply keeps_running_get_rt
    | apply keeps_running_set_rt | apply keeps_running_api | apply keeps_running_crash
    | apply keeps_running_write
    | apply keeps_running_bind
    | apply keeps_running_for_
    | apply keeps_running_on_host
    | intros ?
    | match goal with
      | |- keeps_running _ (if ?b then _ else _) => destruct b
      | |- keeps_running _ (match ?x with _ => _ end) => destruct x
      end ].

Lemma keeps_running_setup_kernel_memory :
  x0 ∉ [bufV1; bufV2; bufV_out] → keeps_running I (setup_kernel_memory env).
Proof.
  intros Hx.
  assert (∀ buf, buf ∈ [bufV1; bufV2; bufV_out] → keeps_running I (create_buffer env buf)) as Hc.
  { intros buf Hb. unfold create_buffer, cl_CreateBuffer, new_handle. keeps.
    all: apply keeps_running_set; intros ->; done. }
  assert (∀ buf v, keeps_running I (write_buffer env buf v)) as Hw.
  { intros buf v. unfold write_buffer. keeps. }
  unfold setup_kernel_memory.
  do 3 (apply keeps_running_bind; [apply Hc; in_list|intros _]).
  apply keeps_running_bind; [apply Hw|intros _; apply Hw].
Qed.

Lemma keeps_running_set_kernel_arg idx x : keeps_running I (set_kernel_arg env idx x).
Proof. unfold set_kernel_arg, cl_SetKernelArg. keeps. Qed.

Lemma keeps_running_launch global :
  x0 ≠ event →
  keeps_running I
    (q <- get queue ;; k <- get kernel ;; ev <- get event ;;
     r <- cl_EnqueueNDRangeKernel env q k global ev ;;
     set event (snd r)).
Proof.
  intros Hx. unfold cl_EnqueueNDRangeKernel, new_handle. keeps.
  all: by apply keeps_running_set.
Qed.

Lemma keeps_running_wait :
  keeps_running I (ev <- get event ;; cl_WaitForEvents env ev).
Proof. unfold cl_WaitForEvents. keeps. Qed.

Lemma keeps_running_read :
  keeps_running I
    (q <- get queue ;; b <- get bufV_out ;; n <- get SZ ;; p <- get v_out ;;
     cl_EnqueueReadBuffer env q b (size_t (n * sizeof_int)) p).
Proof. unfold cl_EnqueueReadBuffer. keeps. Qed.

Lemma keeps_running_main_results : keeps_running I main_results.
Proof. unfold main_results. keeps. Qed.

Lemma keeps_running_free_memory : keeps_running I free_memory.
Proof. unfold free_memory, cl_ReleaseMemObject, cl_Release. keeps. Qed.
End Device_calls.

Section After_the_setup.
Import OpenCL.
Context `{Platform}.
Variable env : cl_env.

(** The last status stored in [err] is not negative. *)
Abbreviation err_ok := (on_var err (λ e, 0 ≤ e)).

(** [err] holds the status of [clCreateKernel] when [copy_kernel_args]
    tests it: the test cannot fire after a successful set-up. *)
Lemma keeps_running_check_err msg : keeps_running err_ok (check_err msg).
Proof.
  split.
  - intros [h s] Hs. unfold check_err, get, bind. unfold on_var in Hs. simpl in Hs.
    by rewrite (ltb_nonneg _ Hs).
  - intros [h s] Hs c s'. unfold check_err, get, bind. unfold on_var in Hs. simpl in Hs.
    by rewrite (ltb_nonneg _ Hs).
Qed.

Lemma keeps_running_copy_kernel_args : keeps_running err_ok (copy_kernel_args env).
Proof.
  unfold copy_kernel_args.
  do 4 (apply keeps_running_bind; [apply keeps_running_set_kernel_arg|intros _]).
  apply keeps_running_check_err.
Qed.

Lemma keeps_running_main_device global : keeps_running err_ok (main_device env global).
Proof.
  unfold main_device.
  apply keeps_running_bind;
    [apply keeps_running_setup_kernel_memory; intros Hx; apply list_elem_of_In in Hx; simpl in Hx; intuition discriminate|intros _].
  apply keeps_running_bind; [apply keeps_running_copy_kernel_args|intros _].
  apply keeps_running_bind; [by apply keeps_running_launch|intros _].
  apply keeps_running_bind; [apply keeps_running_wait|intros _].
  apply keeps_running_bind; [apply keeps_running_read|intros _].
  apply keeps_running_ret.
Qed.

(** Once the set-up has succeeded, no status of a later call ends the
    process: whatever [clCreateBuffer], [clEnqueueWriteBuffer],
    [clSetKernelArg], [clEnqueueNDRangeKernel], [clWaitForEvents] and
    [clEnqueueReadBuffer] return, [main] does not call [exit]. *)
Lemma later_failures_not_fatal global :
  keeps_running err_ok
    (main_device env global ;; main_results ;; free_memory ;; ret 0).
Proof.
  apply keeps_running_bind; [apply keeps_running_main_device|intros _].
  apply keeps_running_bind; [apply keeps_running_main_results|intros _].
  apply keeps_running_bind; [apply keeps_running_free_memory|intros _].
  apply keeps_running_ret.
Qed.

(** On every platform on which the set-up succeeds and for every command
    line, [main] does not call [exit], whatever the later calls
    return. *)
Lemma main_never_exits_after_setup argv src :
  session_ok env kernel_file src →
  ∀ c s', main env argv (host0, state0) ≠ Exit c s'.
Proof.
  intros Hsess c s'.
  destruct (ocl_main_setup_spec argv)
    as (p1 & p2 & p3 & h & f & Hsetup & Hv & HN & H1 & H2 & H3 & Hz).
  unfold main. rewrite (bind_Ret _ _ _ _ _ Hsetup).
  rewrite (bind_Ret _ _ _ _ _ (main_inputs_spec _ _ _ _ _ _ _ _ Hv HN H1 H2)).
  match goal with |- bind _ _ (?h1, _) ≠ _ =>
    destruct (setup_ok env kernel_file kernel_name src h1 f ∅ ∅ 1 Hsess)
      as (f1 & Hset & _ & _ & _ & _ & _ & Herr & _)
  end.
  rewrite (bind_Ret _ _ _ _ _ Hset).
  apply (proj2 (later_failures_not_fatal (size_t (cli_size argv)))). exact Herr.
Qed.
End After_the_setup.

Section Globals_kept.
Import OpenCL.
Context `{Platform}.
Variable env : cl_env.
Variable x0 : gvar.
Variable P : Z → Prop.
Abbreviation J := (on_var x0 P).

Lemma preserves_on_host {A} (m : M host A) : preserves J (on_host m).
Proof. intros [h s] Hs. unfold on_host. by destruct (m h). Qed.

Lemma preserves_set x v : x ≠ x0 → preserves J (set x v).
Proof. intros Hx. by apply keeps_running_set. Qed.

Ltac other_var Hx :=
  let E := fresh in intros E; rewrite <- E in Hx; clear E; intuition discriminate.

Ltac pres Hx :=
  repeat first
    [ apply preserves_ret | apply preserves_exit | apply preserves_on_host
    | apply (proj1 (keeps_running_get x0 P _))
    | apply (proj1 (keeps_running_get_rt x0 P))
    | apply (proj1 (keeps_running_set_rt x0 P _))
    | apply (proj1 (keeps_running_api x0 P _ _))
    | apply (proj1 (keeps_running_crash x0 P))
    | apply (proj1 (keeps_running_write x0 P _ _ _ _ _))
    | apply preserves_set; other_var Hx
    | apply preserves_bind
    | apply preserves_for_
    | match goal with
      | |- ∀ _, _ => intro
      | |- preserves _ (if ?b then _ else _) => destruct b
      | |- preserves _ (match ?x with _ => _ end) => destruct x
      end ].

(** The set-up and the device path assign every global but [SZ] and the
    three host pointers. *)
Lemma preserves_setup filename kernelname :
  x0 ∈ [SZ; v1; v2; v_out] →
  preserves J (setup_openCL_device_context_queue_kernel env filename kernelname).
Proof.
  intros Hx. apply list_elem_of_In in Hx. simpl in Hx.
  unfold setup_openCL_device_context_queue_kernel, create_device, build_program,
    check_err, cl_GetPlatformIDs, cl_GetDeviceIDs, cl_CreateContext,
    cl_CreateProgramWithSource, cl_BuildProgram, cl_GetProgramBuildInfo_size,
    cl_GetProgramBuildInfo, malloc_char, set_char, fread, printf_s,
    cl_CreateCommandQueueWithProperties, cl_CreateKernel, create_object, new_handle.
  pres Hx.
Qed.

Lemma preserves_main_device global :
  x0 ∈ [SZ; v1; v2; v_out] → preserves J (main_device env global).
Proof.
  intros Hx. apply list_elem_of_In in Hx. simpl in Hx.
  unfold main_device, setup_kernel_memory, create_buffer, write_buffer, copy_kernel_args,
    set_kernel_arg, check_err, cl_CreateBuffer, cl_SetKernelArg, cl_EnqueueNDRangeKernel,
    cl_WaitForEvents, cl_EnqueueReadBuffer, new_handle.
  pres Hx.
Qed.

Lemma preserves_main_rest global :
  x0 ∈ [SZ; v1; v2; v_out] →
  preserves J
    (setup_openCL_device_context_queue_kernel env kernel_file kernel_name ;;
     main_device env global ;; main_results ;; free_memory ;; ret 0).
Proof.
  intros Hx.
  apply preserves_bind; [by apply preserves_setup|intros _].
  apply preserves_bind; [by apply preserves_main_device|intros _].
  apply preserves_bind; [apply keeps_running_main_results|intros _].
  apply preserves_bind; [apply keeps_running_free_memory|intros _].
  apply preserves_ret.
Qed.
End Globals_kept.

Section Size_kept.
Import OpenCL.
Context `{Platform}.

(** On every platform and however the run ends, the global [SZ] holds
    the length chosen on the command line: nothing after the first
    statement of [main] assigns it. *)
Lemma main_keeps_SZ env argv :
  vars (final_state (main env argv (host0, state0))).2 SZ = cli_size argv.
Proof.
  destruct (ocl_main_setup_spec argv)
    as (p1 & p2 & p3 & h & f & Hsetup & Hv & HN & H1 & H2 & H3 & Hz).
  unfold main. rewrite (bind_Ret _ _ _ _ _ Hsetup).
  rewrite (bind_Ret _ _ _ _ _ (main_inputs_spec _ _ _ _ _ _ _ _ Hv HN H1 H2)).
  apply (preserves_main_rest env SZ (λ n, n = cli_size argv)); [in_list|exact HN].
Qed.
End Size_kept.

(** ** The claims about the compute step *)

(** C1.  After the vector-addition compute step every element of the
    output is the sum of the corresponding input elements, [out[i] ==
    a[i] + b[i]] with the addition of [int] (the mathematical sum whenever
    it is an [int]): for [vector_add_openmp] under every schedule of the
    parallel loop, and for the device path of the OpenCL program when
    every call succeeds. *)
Theorem C1_output_is_elementwise_sum :
  (∀ sched v1 v2 v_out N a b (h : gmap Z Z),
     0 < N → OpenMP.schedule N sched →
     read_array h v1 N = Some a → read_array h v2 N = Some b →
     is_Some (read_array h v_out N) → apart v1 v_out N → apart v2 v_out N →
     ∃ h', OpenMP.vector_add_openmp_sched sched v1 v2 v_out h = Some h' ∧
           ∀ i, 0 ≤ i < N →
             ∃ x y, a !! Z.to_nat i = Some x ∧ b !! Z.to_nat i = Some y ∧
                    load h' v_out i = Some (int_add x y) ∧
                    (in_int (x + y) → load h' v_out i = Some (x + y))) ∧
  (∀ env N a b (h : host) f m ka n,
     device_ok env N → 0 < n → f OpenCL.SZ = N → 0 ≤ f OpenCL.err →
     read_array (heap h) (f OpenCL.v1) N = Some a →
     read_array (heap h) (f OpenCL.v2) N = Some b →
     is_Some (read_array (heap h) (f OpenCL.v_out) N) →
     ∃ s', OpenCL.main_device env (OpenCL.size_t N)
             (h, {| OpenCL.vars := f;
                    OpenCL.device := {| OpenCL.mem := m; OpenCL.kargs := ka;
                                        OpenCL.fresh := n |} |}) = Ret tt s' ∧
           ∀ i, 0 ≤ i < N →
             ∃ x y, a !! Z.to_nat i = Some x ∧ b !! Z.to_nat i = Some y ∧
                    load (heap s'.1) (f OpenCL.v_out) i = Some (int_add x y) ∧
                    (in_int (x + y) → load (heap s'.1) (f OpenCL.v_out) i = Some (x + y))).
Proof.
  assert (Hpoint : ∀ (g : gmap Z Z) p N a b,
            read_array g p N = Some (zip_with int_add a b) →
            length a = Z.to_nat N → length b = Z.to_nat N →
            ∀ i, 0 ≤ i < N →
              ∃ x y, a !! Z.to_nat i = Some x ∧ b !! Z.to_nat i = Some y ∧
                     load g p i = Some (int_add x y) ∧
                     (in_int (x + y) → load g p i = Some (x + y))).
  { intros g p N a b Hsum Hla Hlb i Hi.
    destruct (read_array_load _ _ _ _ i Hsum Hi) as (z & Hz & Hload).
    apply lookup_zip_with_Some in Hz as (x & y & -> & Hx & Hy).
    exists x, y. do 3 (split; [done|]).
    intros Hxy. rewrite Hload. unfold int_add. by rewrite wrap_int_id. }
  split.
  - intros sched v1 v2 v_out N a b h HN Hs Ha Hb Ho Hao Hbo.
    destruct (vector_add_openmp_sched_spec sched v1 v2 v_out N h)
      as (h' & Hrun & _ & _ & Hsum); [done|by eexists..|done|].
    exists h'. split; [done|].
    apply Hpoint; eauto using read_array_length.
  - intros env N a b h f m ka n Hok Hn HN Herr Ha Hb Ho.
    destruct (main_device_ok env N a b h f m ka n)
      as (h' & f' & r' & Hrun & _ & _ & Hsum & _); try done.
    eexists. split; [exact Hrun|].
    apply Hpoint; eauto using read_array_length.
Qed.

(** C2.  For the same input vectors, the output vector that the device
    path of the OpenCL program reads back and the output vector that
    [vector_add_openmp] leaves are the same, element by element. *)
Theorem C2_device_path_equals_openmp
    env sched N a b (h : gmap Z Z) v1 v2 v_out (hc : host) f m ka n :
  OpenMP.schedule N sched →
  read_array h v1 N = Some a → read_array h v2 N = Some b →
  is_Some (read_array h v_out N) → apart v1 v_out N → apart v2 v_out N →
  device_ok env N → 0 < n → f OpenCL.SZ = N → 0 ≤ f OpenCL.err →
  read_array (heap hc) (f OpenCL.v1) N = Some a →
  read_array (heap hc) (f OpenCL.v2) N = Some b →
  is_Some (read_array (heap hc) (f OpenCL.v_out) N) →
  ∃ h' s' out,
    OpenMP.vector_add_openmp_sched sched v1 v2 v_out h = Some h' ∧
    OpenCL.main_device env (OpenCL.size_t N)
      (hc, {| OpenCL.vars := f;
              OpenCL.device := {| OpenCL.mem := m; OpenCL.kargs := ka;
                                  OpenCL.fresh := n |} |}) = Ret tt s' ∧
    read_array h' v_out N = Some out ∧
    read_array (heap s'.1) (f OpenCL.v_out) N = Some out ∧
    length out = Z.to_nat N.
Proof.
  intros Hs Ha Hb Ho Hao Hbo Hok Hn HN Herr Hca Hcb Hco.
  destruct (vector_add_openmp_sched_spec sched v1 v2 v_out N h)
    as (h' & Hrun & _ & _ & Hsum); [done|by eexists..|done|].
  destruct (main_device_ok env N a b hc f m ka n)
    as (hc' & f' & r' & Hdev & _ & _ & Hdsum & _); try done.
  exists h', (hc', {| OpenCL.vars := f'; OpenCL.device := r' |}), (zip_with int_add a b).
  split; [done|]. split; [done|]. split; [by apply Hsum|]. split; [done|].
  apply read_array_length in Ha, Hb. rewrite length_zip_with. lia.
Qed.

(** ** The claims about failures *)

(** C3.  A failed buffer allocation or argument binding is not fatal.
    On every platform, once the set-up has stored a status that is not
    negative in [err], the rest of [main] keeps it so and does not call
    [exit], whatever the later calls return.  On two platforms, one on
    which no device buffer can be allocated and one on which no kernel
    argument can be bound, the OpenCL program goes on after the failed
    calls, prints a result vector and ends with exit status 0. *)
Theorem C3_unchecked_failures_exit_0 :
  (∀ (H : Platform) env global,
     keeps_running (on_var OpenCL.err (λ e, 0 ≤ e))
       (OpenCL.main_device env global ;; OpenCL.main_results ;;
        OpenCL.free_memory ;; ret 0)) ∧
  let run env := OpenCL.main (H := Sample.platform) env ["prog"; "4"] (host0, OpenCL.state0) in
  let calls env := api_calls (trace (final_state (run env)).1) in
  exit_code (run Sample.alloc_fails) = Some 0 ∧
  drop 7 (calls Sample.alloc_fails) =
    [(clCreateBuffer 1 16, -4); (clCreateBuffer 1 16, -4); (clCreateBuffer 1 16, -4);
     (clEnqueueWriteBuffer 3 0 16, -38); (clEnqueueWriteBuffer 3 0 16, -38);
     (clSetKernelArg 4 0, 0); (clSetKernelArg 4 1, 0);
     (clSetKernelArg 4 2, 0); (clSetKernelArg 4 3, 0);
     (clEnqueueNDRangeKernel 3 4 4, -52); (clWaitForEvents 0, -58);
     (clEnqueueReadBuffer 3 0 16, -38);
     (clReleaseMemObject 0, -38); (clReleaseMemObject 0, -38); (clReleaseMemObject 0, -38);
     (clReleaseKernel 4, 0); (clReleaseCommandQueue 3, 0);
     (clReleaseProgram 2, 0); (clReleaseContext 1, 0)] ∧
  exit_code (run Sample.setarg_fails) = Some 0 ∧
  drop 7 (calls Sample.setarg_fails) =
    [(clCreateBuffer 1 16, 0); (clCreateBuffer 1 16, 0); (clCreateBuffer 1 16, 0);
     (clEnqueueWriteBuffer 3 5 16, 0); (clEnqueueWriteBuffer 3 6 16, 0);
     (clSetKernelArg 4 0, -5); (clSetKernelArg 4 1, -5);
     (clSetKernelArg 4 2, -5); (clSetKernelArg 4 3, -5);
     (clEnqueueNDRangeKernel 3 4 4, -52); (clWaitForEvents 0, -58);
     (clEnqueueReadBuffer 3 7 16, 0);
     (clReleaseMemObject 5, 0); (clReleaseMemObject 6, 0); (clReleaseMemObject 7, 0);
     (clReleaseKernel 4, 0); (clReleaseCommandQueue 3, 0);
     (clReleaseProgram 2, 0); (clReleaseContext 1, 0)] ∧
  Stdout ("Vector v_out (OpenCL):" +:+ LF) ∈ trace (final_state (run Sample.setarg_fails)).1.
Proof.
  split; [intros H env global; apply later_failures_not_fatal|].
  cbv zeta. split; [vm_compute; reflexivity|]. split; [vm_compute; reflexivity|].
  split; [vm_compute; reflexivity|]. split; [vm_compute; reflexivity|].
  apply list_elem_of_In. vm_compute. tauto.
Qed.

(** ** The claims about the session and the command line *)

Section Kinds.
Context `{Platform}.

Lemma omap_stdout (g : obs → option object_kind) l :
  (∀ text, g (Stdout text) = None) →
  Forall (λ e, ∃ text, e = Stdout text) l → omap g l = [].
Proof.
  intros Hg. induction 1 as [|e l [text ->] _ IH]; [done|].
  cbn [omap list_omap]. by rewrite Hg, IH.
Qed.

Lemma creates_device_calls env : omap creates (device_calls env) = [].
Proof.
  unfold device_calls. cbn [app omap list_omap creates].
  destruct (OpenCL.st_platform env <? 0), (OpenCL.st_gpu env <? 0);
    case_decide; cbn [omap list_omap creates];
    destruct (OpenCL.st_cpu env <? 0); reflexivity.
Qed.

Lemma creates_session_calls env src name n :
  session_ok env kernel_file src →
  omap creates (session_calls env src name n) = [Context; Program; Queue; Kernel].
Proof.
  intros ((_ & Hc & _ & Hp) & Hb & Hq & Hk). unfold session_calls, build_calls.
  rewrite omap_app, creates_device_calls. cbn [app omap list_omap creates].
  rewrite (ltb_nonneg _ Hc), (ltb_nonneg _ Hp), (ltb_nonneg _ Hb),
    (ltb_nonneg _ Hq), (ltb_nonneg _ Hk). reflexivity.
Qed.

Lemma creates_device_path_calls env N c q k n :
  device_ok env N →
  omap creates (device_path_calls env N c q k n) = [Buffer; Buffer; Buffer].
Proof.
  intros (_ & _ & _ & (Hb1 & Hb2 & Hb3) & _).
  unfold device_path_calls, setarg_calls. cbn [app omap list_omap creates].
  rewrite (ltb_nonneg _ Hb1), (ltb_nonneg _ Hb2), (ltb_nonneg _ Hb3).
  repeat match goal with |- context [if ?c then _ else _] => destruct c end;
    reflexivity.
Qed.

Lemma releases_device_calls env : omap releases (device_calls env) = [].
Proof. unfold device_calls. case_decide; reflexivity. Qed.

Lemma ocl_trace_kinds env src N :
  session_ok env kernel_file src → device_ok env N →
  omap creates (ocl_trace env src N) =
    [Context; Program; Queue; Kernel; Buffer; Buffer; Buffer] ∧
  omap releases (ocl_trace env src N) =
    [Buffer; Buffer; Buffer; Kernel; Queue; Program; Context] ∧
  ∃ t, ocl_trace env src N = t ++ final_release_calls ∧ omap releases t = [].
Proof.
  intros Hs Hd.
  set (a := init_values 0 N). set (b := init_values (Z.to_nat N) N).
  assert (Hin : ∀ g : obs → option object_kind,
            (∀ text, g (Stdout text) = None) → omap g (ocl_inputs a b) = []).
  { intros g Hg. apply omap_stdout; [done|apply ocl_inputs_stdout]. }
  assert (Hout : ∀ g : obs → option object_kind,
            (∀ text, g (Stdout text) = None) → (∀ text, g (StdoutMs text) = None) →
                      omap g (ocl_results (zip_with int_add a b)) = []).
  { intros g Hg Hg'. unfold ocl_results. rewrite !omap_app.
    rewrite (omap_stdout g (printed _)) by (done || apply printed_stdout).
    cbn [omap list_omap app]. by rewrite Hg, Hg'. }
  assert (Hrs : omap releases (session_calls env src kernel_name 1) = []).
  { unfold session_calls. rewrite !omap_app, releases_device_calls. reflexivity. }
  assert (Hrd : omap releases (device_path_calls env N 1 3 4 5) = []) by reflexivity.
  split; [|split].
  - unfold ocl_trace. fold a b. rewrite !omap_app.
    rewrite Hin, Hout, creates_session_calls, creates_device_path_calls by done.
    reflexivity.
  - unfold ocl_trace. fold a b. rewrite !omap_app.
    rewrite Hin, Hout, Hrs, Hrd by done. reflexivity.
  - exists (ocl_inputs a b ++ session_calls env src kernel_name 1 ++
            device_path_calls env N 1 3 4 5 ++ ocl_results (zip_with int_add a b)).
    split.
    + unfold ocl_trace. fold a b. rewrite !app_assoc. reflexivity.
    + rewrite !omap_app. rewrite Hin, Hout, Hrs, Hrd by done. reflexivity.
Qed.
End Kinds.

(** C7.  [free_memory] makes exactly seven release calls: the three
    device buffers, then the kernel, then the command queue, then the
    program, then the context.  In a run in which every call succeeds
    these are the only release calls, each object created is released
    once and with success, and the order of the kinds of object
    released is the reverse of the order in which they were created. *)
Theorem C7_release_order `{Platform} :
  (∀ h s, trace (final_state (OpenCL.free_memory (h, s))).1 =
          trace h ++ release_calls (OpenCL.vars s) (OpenCL.mem (OpenCL.device s))) ∧
  (∀ f m, omap releases (release_calls f m) =
          [Buffer; Buffer; Buffer; Kernel; Queue; Program; Context]) ∧
  (∀ env argv src,
     session_ok env kernel_file src → device_ok env (cli_size argv) →
     ∃ s' t,
       OpenCL.main env argv (host0, OpenCL.state0) = Ret 0 s' ∧
       trace s'.1 = t ++ final_release_calls ∧
       omap releases t = [] ∧
       omap creates (trace s'.1) =
         [Context; Program; Queue; Kernel; Buffer; Buffer; Buffer] ∧
       omap releases (trace s'.1) = rev (omap creates (trace s'.1))).
Proof.
  split; [|split].
  - intros h [f [m a n]]. rewrite free_memory_eq, host_frees_trace. apply trace_logs.
  - reflexivity.
  - intros env argv src Hs Hd.
    destruct (ocl_main_ok env argv src Hs Hd) as (h' & s' & Hrun & Htr & _).
    destruct (ocl_trace_kinds env src (cli_size argv) Hs Hd) as (Hc & Hr & t & Ht & Hnone).
    exists (h', s'), t. split; [exact Hrun|]. cbn [fst]. rewrite Htr.
    split; [exact Ht|]. split; [exact Hnone|]. split; [exact Hc|].
    rewrite Hc, Hr. reflexivity.
Qed.

(** C8.  The vector length is [atoi] of the first command-line argument
    when there is one and 100,000,000 otherwise, for every command line:
    the OpenMP program runs to the end with exit status 0 on vectors of
    that length, and the OpenCL program allocates, fills and prints its
    vectors with that length and takes it for the global work size; no
    value is rejected, and on every platform [SZ] holds that length when
    the OpenCL program ends, however it ends. *)
Theorem C8_cli_vector_length `{Platform} (argv : list string) :
  let N := cli_size argv in
  (match argv with _ :: arg :: _ => N = atoi arg | _ => N = 100000000 end) ∧
  (∃ h', OpenMP.main argv (host0, OpenMP.globals0) = Ret 0 (h', {| OpenMP.SZ := N |}) ∧
         trace h' = [threads_line] ++
                    omp_report (init_values 0 N) (init_values (Z.to_nat N) N)) ∧
  (∃ h f p1 p2 p3,
     bind (OpenCL.main_setup argv) (λ _, OpenCL.main_inputs) (host0, OpenCL.state0) =
       Ret (OpenCL.size_t N)
           (logs (ocl_inputs (init_values 0 N) (init_values (Z.to_nat N) N)) h,
            {| OpenCL.vars := f; OpenCL.device := OpenCL.device OpenCL.state0 |}) ∧
     f OpenCL.SZ = N ∧ f OpenCL.v1 = p1 ∧ f OpenCL.v2 = p2 ∧ f OpenCL.v_out = p3 ∧
     three_vectors N host0 h p1 p2 p3) ∧
  (∀ env, OpenCL.vars (final_state (OpenCL.main env argv (host0, OpenCL.state0))).2
            OpenCL.SZ = N).
Proof.
  intros N. split; [|split; [|split]]; [| | |intros env; apply main_keeps_SZ].
  - unfold N, cli_size. by destruct argv as [|? [|? ?]].
  - apply omp_main_spec.
  - destruct (ocl_main_setup_spec argv)
      as (p1 & p2 & p3 & h & f & Hsetup & Hv & HN & H1 & H2 & H3 & _).
    exists h, f, p1, p2, p3. split; [|do 4 (split; [assumption|]); exact Hv].
    rewrite (bind_Ret _ _ _ _ _ Hsetup).
    apply (main_inputs_spec _ _ _ _ _ _ _ _ Hv HN H1 H2).
Qed.

(** C9.  Neither program seeds the generator, so the input vectors are a
    function of the vector length alone: a run of the OpenMP program and
    a run of the OpenCL program with the same length fill [v1] with the
    same values and [v2] with the same values, the first [N] and the
    next [N] values of [rand()], each modulo 100. *)
Theorem C9_same_input_vectors `{Platform} (argv_omp argv_ocl : list string) :
  cli_size argv_omp = cli_size argv_ocl →
  let N := cli_size argv_omp in
  ∃ p1 p2 p3 h g q1 q2 h' f r a b,
    OpenMP.main_setup argv_omp (host0, OpenMP.globals0) = Ret (p1, p2, p3) (h, g) ∧
    OpenCL.main_setup argv_ocl (host0, OpenCL.state0) =
      Ret tt (h', {| OpenCL.vars := f; OpenCL.device := r |}) ∧
    f OpenCL.v1 = q1 ∧ f OpenCL.v2 = q2 ∧
    read_array (heap h) p1 N = Some a ∧ read_array (heap h') q1 N = Some a ∧
    read_array (heap h) p2 N = Some b ∧ read_array (heap h') q2 N = Some b ∧
    a = init_values 0 N ∧ b = init_values (Z.to_nat N) N.
Proof.
  intros Heq N.
  destruct (omp_main_setup_spec argv_omp) as (p1 & p2 & p3 & h & Hs & Hv).
  destruct (ocl_main_setup_spec argv_ocl)
    as (q1 & q2 & q3 & h' & f & Hs' & Hv' & _ & H1 & H2 & _).
  rewrite <- Heq in Hv'. fold N in Hv, Hv'.
  destruct Hv as (_ & _ & _ & Ha & Hb & _). destruct Hv' as (_ & _ & _ & Ha' & Hb' & _).
  exists p1, p2, p3, h. eexists. exists q1, q2, h', f. eexists. eexists _, _.
  split; [exact Hs|]. split; [exact Hs'|]. do 2 (split; [done|]).
  split; [exact Ha|]. split; [exact Ha'|]. split; [exact Hb|]. split; [exact Hb'|].
  split; reflexivity.
Qed.

(** ** The theorems at concrete inputs *)

(** The spec's example, [a = 3 1 4 1 5] and [b = 9 2 6 5 3], under the
    schedule 3, 0, 4, 1, 2 and on the device. *)
Lemma schedule_sample : OpenMP.schedule 5 [3; 0; 4; 1; 2].
Proof. unfold OpenMP.schedule. apply (bool_decide_unpack _). vm_compute. exact I. Defined.

Lemma device_ok_sample : device_ok Sample.all_ok 5.
Proof. unfold device_ok, INT_MAX. simpl. lia. Defined.

Lemma C1_witness :
  (∃ h', OpenMP.vector_add_openmp_sched [3; 0; 4; 1; 2] 10 20 30 Sample.heap5 = Some h' ∧
         read_array h' 30 5 = Some [12; 3; 10; 6; 8]) ∧
  (∃ s', OpenCL.main_device Sample.all_ok (OpenCL.size_t 5) (Sample.host5, Sample.state5)
           = Ret tt s' ∧
         read_array (heap s'.1) 30 5 = Some [12; 3; 10; 6; 8]).
Proof.
  destruct C1_output_is_elementwise_sum as [Homp Hocl]. split.
  - destruct (Homp [3; 0; 4; 1; 2] 10 20 30 5 Sample.a5 Sample.b5 Sample.heap5)
      as (h' & Hrun & _).
    + lia.
    + exact schedule_sample.
    + reflexivity.
    + reflexivity.
    + eexists. reflexivity.
    + unfold apart. lia.
    + unfold apart. lia.
    + exists h'. split; [exact Hrun|]. vm_compute in Hrun. inversion Hrun. reflexivity.
  - destruct (Hocl Sample.all_ok 5 Sample.a5 Sample.b5 Sample.host5 Sample.vars5 ∅ ∅ 5)
      as (s' & Hrun & _).
    + exact device_ok_sample.
    + lia.
    + reflexivity.
    + simpl. lia.
    + reflexivity.
    + reflexivity.
    + eexists. reflexivity.
    + exists s'. split; [exact Hrun|]. vm_compute in Hrun. inversion Hrun. reflexivity.
Defined.

Lemma C2_witness :
  ∃ h' s' out,
    OpenMP.vector_add_openmp_sched [3; 0; 4; 1; 2] 10 20 30 Sample.heap5 = Some h' ∧
    OpenCL.main_device Sample.all_ok (OpenCL.size_t 5) (Sample.host5, Sample.state5)
      = Ret tt s' ∧
    read_array h' 30 5 = Some out ∧ read_array (heap s'.1) 30 5 = Some out ∧
    length out = 5%nat.
Proof.
  apply (C2_device_path_equals_openmp Sample.all_ok [3; 0; 4; 1; 2] 5 Sample.a5 Sample.b5
           Sample.heap5 10 20 30 Sample.host5 Sample.vars5 ∅ ∅ 5).
  - exact schedule_sample.
  - reflexivity.
  - reflexivity.
  - eexists. reflexivity.
  - unfold apart. lia.
  - unfold apart. lia.
  - exact device_ok_sample.
  - lia.
  - reflexivity.
  - simpl. lia.
  - reflexivity.
  - reflexivity.
  - eexists. reflexivity.
Defined.






Lemma C5_witness :
  ∃ s', OpenCL.create_device Sample.all_ok (host0, OpenCL.state0) = Ret 1001 s' ∧
        trace s'.1 = [Call clGetPlatformIDs 0; Call (clGetDeviceIDs CL_DEVICE_TYPE_GPU) 0].
Proof.
  destruct (C5_gpu_first_cpu_fallback Sample.all_ok host0 OpenCL.state0) as (Hgpu & _).
  - simpl. lia.
  - apply Hgpu. simpl. lia.
Defined.

Lemma C6_witness :
  OpenMP.print 10 5 Sample.host5 = Ret tt (logs (shown [3; 1; 4; 1; 5] ++ [footer]) Sample.host5).
Proof.
  destruct (C6_print_truncation 10 5 Sample.a5 Sample.host5) as (Hsmall & _).
  - reflexivity.
  - apply Hsmall. lia.
Defined.

Lemma session_ok_sample :
  session_ok Sample.all_ok kernel_file "__kernel void vector_add_ocl(...)".
Proof.
  unfold session_ok, reaches_build, device_found. simpl.
  repeat split; try lia.
Defined.

Lemma device_ok_sample4 : device_ok Sample.all_ok (cli_size (H := Sample.platform) ["prog"; "4"]).
Proof. unfold device_ok, INT_MAX. vm_compute. intuition discriminate. Defined.

Lemma C7_witness :
  ∃ s' t,
    OpenCL.main (H := Sample.platform) Sample.all_ok ["prog"; "4"] (host0, OpenCL.state0)
      = Ret 0 s' ∧
    trace s'.1 = t ++ final_release_calls ∧ omap releases t = [].
Proof.
  destruct (C7_release_order (H := Sample.platform)) as (_ & _ & Hrun).
  destruct (Hrun Sample.all_ok ["prog"; "4"] "__kernel void vector_add_ocl(...)"
              session_ok_sample device_ok_sample4) as (s' & t & Hmain & Htr & Hnone & _).
  exists s', t. split; [exact Hmain|]. split; [exact Htr|exact Hnone].
Defined.

Lemma C9_witness :
  ∃ p1 p2 p3 h g q1 q2 h' f r a b,
    OpenMP.main_setup (H := Sample.platform) ["omp"; "4"] (host0, OpenMP.globals0)
      = Ret (p1, p2, p3) (h, g) ∧
    OpenCL.main_setup (H := Sample.platform) ["ocl"; "4"] (host0, OpenCL.state0)
      = Ret tt (h', {| OpenCL.vars := f; OpenCL.device := r |}) ∧
    f OpenCL.v1 = q1 ∧ f OpenCL.v2 = q2 ∧
    read_array (heap h) p1 4 = Some a ∧ read_array (heap h') q1 4 = Some a ∧
    read_array (heap h) p2 4 = Some b ∧ read_array (heap h') q2 4 = Some b ∧
    a = [38; 58; 13; 15] ∧ b = [51; 27; 10; 19].
Proof.
  apply (C9_same_input_vectors (H := Sample.platform) ["omp"; "4"] ["ocl"; "4"]).
  reflexivity.
Defined.

Lemma C10_witness :
  ∃ h', OpenMP.vector_add_openmp_sched [3; 0; 4; 1; 2] 10 20 30 Sample.heap5 = Some h' ∧
        (∀ p, ¬ (30 ≤ p < 30 + 5) → h' !! p = Sample.heap5 !! p) ∧
        read_array h' 10 5 = Some [3; 1; 4; 1; 5] ∧
        read_array h' 20 5 = Some [9; 2; 6; 5; 3].
Proof.
  destruct (C10_vector_add_openmp_frame [3; 0; 4; 1; 2] 10 20 30 5 Sample.heap5)
    as (h' & Hrun & Hfr & _ & H1 & H2 & _).
  - exact schedule_sample.
  - eexists. reflexivity.
  - eexists. reflexivity.
  - eexists. reflexivity.
  - exists h'. split; [exact Hrun|]. split; [exact Hfr|]. split.
    + rewrite H1; [reflexivity|]. unfold apart. lia.
    + rewrite H2; [reflexivity|]. unfold apart. lia.
Defined.

(** * Further properties of the code *)

(** ** The compute loop of the OpenMP program *)

Section OpenMP_loop_more.
Import OpenMP.
Variables v1 v2 v_out : Z.

(** As [for_each_body_values], when an input cell may be the output cell
    of the same iteration, but of no other. *)
Lemma for_each_body_values_own sched : ∀ h h' : gmap Z Z,
  NoDup sched →
  (∀ i j, i ∈ sched → j ∈ sched → i ≠ j → v1 + i ≠ v_out + j ∧ v2 + i ≠ v_out + j) →
  for_each sched (body v1 v2 v_out) h = Some h' →
  ∀ i x y, i ∈ sched → h !! (v1 + i) = Some x → h !! (v2 + i) = Some y →
           h' !! (v_out + i) = Some (int_add x y).
Proof.
  induction sched as [|j rest IH]; intros h h' Hnd Hsep Hrun i x y Hi Hx Hy.
  - by apply elem_of_nil in Hi.
  - apply NoDup_cons in Hnd as [Hj Hnd]. simpl in Hrun.
    destruct (body v1 v2 v_out j h) as [h1|] eqn:Hb; [simpl in Hrun|done].
    apply body_inv in Hb as (a & b & Ha & Hb & _ & ->).
    apply elem_of_cons in Hi as [->|Hi].
    + destruct (for_each_body_frame _ _ _ _ _ _ Hrun) as [_ Hfr].
      rewrite Hfr.
      * rewrite lookup_insert_eq. congruence.
      * intros k Hk Heq. apply Hj. by replace j with k by lia.
    + assert (i ≠ j) as Hij by (intros ->; done).
      destruct (Hsep i j) as [? ?]; [by right|left|done|].
      apply (IH _ _ Hnd) with (i := i) (x := x) (y := y) in Hrun; [done| |done| |].
      * intros k l Hk Hl Hkl. apply Hsep; [by right|by right|done].
      * by rewrite lookup_insert_ne.
      * by rewrite lookup_insert_ne.
Qed.

(** The iterations run to the end only if the cells they touch are
    allocated. *)
Lemma for_each_body_allocated sched : ∀ h h' : gmap Z Z,
  for_each sched (body v1 v2 v_out) h = Some h' →
  ∀ i, i ∈ sched → cells_allocated h v1 v2 v_out i.
Proof.
  induction sched as [|j rest IH]; intros h h' Hrun i Hi.
  - by apply elem_of_nil in Hi.
  - simpl in Hrun.
    destruct (body v1 v2 v_out j h) as [h1|] eqn:Hb; [simpl in Hrun|done].
    apply body_inv in Hb as (a & b & Ha & Hb & Ho & ->).
    apply elem_of_cons in Hi as [->|Hi].
    + split; [by exists a|]. split; [by exists b|done].
    + destruct (IH _ _ Hrun i Hi) as (H1 & H2 & H3).
      assert (∀ p, is_Some (<[v_out + j := int_add a b]> h !! p) → is_Some (h !! p)) as Hd.
      { intros p. destruct (decide (p = v_out + j)) as [->|?].
        - by rewrite lookup_insert_eq.
        - by rewrite lookup_insert_ne. }
      repeat split; by apply Hd.
Qed.

(** Swapping the two input arrays changes no iteration. *)
Lemma body_swap i (h : gmap Z Z) : body v1 v2 v_out i h = body v2 v1 v_out i h.
Proof.
  unfold body, int_add. destruct (load h v1 i) as [a|], (load h v2 i) as [b|]; simpl; try done.
  by rewrite (Z.add_comm a b).
Qed.
End OpenMP_loop_more.

Section OpenMP_compute_more.
Import OpenMP.

(** The memory after the compute step, cell by cell, when each input
    array is the output array itself or shares no cell with it. *)
Lemma vector_add_openmp_sched_cells sched v1 v2 v_out size (h : gmap Z Z) a b :
  schedule size sched →
  read_array h v1 size = Some a → read_array h v2 size = Some b →
  is_Some (read_array h v_out size) →
  same_or_apart v1 v_out size → same_or_apart v2 v_out size →
  ∃ h', vector_add_openmp_sched sched v1 v2 v_out h = Some h' ∧
        ∀ p, h' !! p = if decide (v_out ≤ p < v_out + size)
                       then zip_with int_add a b !! Z.to_nat (p - v_out)
                       else h !! p.
Proof.
  intros Hs Ha Hb Ho H1 H2.
  destruct (vector_add_openmp_sched_spec sched v1 v2 v_out size h)
    as (h' & Hrun & _ & Hfr & _); [done|by eexists..|done|].
  exists h'. split; [done|]. intros p. case_decide as Hp; [|by apply Hfr].
  set (i := p - v_out).
  destruct (read_array_load _ _ _ _ i Ha ltac:(lia)) as (x & Hax & Hx).
  destruct (read_array_load _ _ _ _ i Hb ltac:(lia)) as (y & Hby & Hy).
  rewrite (proj2 (lookup_zip_with_Some int_add a b (Z.to_nat i) (int_add x y)))
    by (by exists x, y).
  replace p with (v_out + i) by lia.
  apply (for_each_body_values_own v1 v2 v_out sched h h').
  - by eapply schedule_NoDup.
  - intros k l Hk Hl Hkl.
    apply (schedule_elem size sched _ Hs) in Hk, Hl.
    unfold same_or_apart, apart in *. lia.
  - exact Hrun.
  - apply (schedule_elem size sched _ Hs). lia.
  - exact Hx.
  - exact Hy.
Qed.
End OpenMP_compute_more.

(** X1.  The result of [vector_add_openmp] does not depend on the order
    in which the runtime executes the iterations: when each input array
    is the output array itself or shares no cell with it, any two
    schedules of the parallel loop leave the same memory, the one that
    the loop in index order leaves, and the output holds the sums of the
    inputs as they were before the call (so the function may accumulate
    in place). *)
Theorem X1_schedule_independent s1 s2 v1 v2 v_out size (h : gmap Z Z) a b :
  OpenMP.schedule size s1 → OpenMP.schedule size s2 →
  read_array h v1 size = Some a → read_array h v2 size = Some b →
  is_Some (read_array h v_out size) →
  same_or_apart v1 v_out size → same_or_apart v2 v_out size →
  ∃ h', OpenMP.vector_add_openmp_sched s1 v1 v2 v_out h = Some h' ∧
        OpenMP.vector_add_openmp_sched s2 v1 v2 v_out h = Some h' ∧
        OpenMP.vector_add_openmp v1 v2 v_out size h = Some h' ∧
        read_array h' v_out size = Some (zip_with int_add a b).
Proof.
  intros Hs1 Hs2 Ha Hb Ho H1 H2.
  destruct (vector_add_openmp_sched_cells s1 v1 v2 v_out size h a b)
    as (h1 & Hr1 & Hc1); try done.
  destruct (vector_add_openmp_sched_cells s2 v1 v2 v_out size h a b)
    as (h2 & Hr2 & Hc2); try done.
  destruct (vector_add_openmp_sched_cells (seqZ 0 size) v1 v2 v_out size h a b)
    as (h3 & Hr3 & Hc3); try done.
  { apply schedule_in_order. }
  assert (h2 = h1) as -> by (apply map_eq; intros p; by rewrite Hc1, Hc2).
  assert (h3 = h1) as -> by (apply map_eq; intros p; by rewrite Hc1, Hc3).
  exists h1. do 3 (split; [done|]).
  pose proof (read_array_length _ _ _ _ Ha) as Hla.
  pose proof (read_array_length _ _ _ _ Hb) as Hlb.
  apply read_array_Some. split; [rewrite length_zip_with; lia|].
  intros i z Hz. rewrite Hc1.
  assert (Z.of_nat i < size) by (apply lookup_lt_Some in Hz; rewrite length_zip_with in Hz; lia).
  rewrite decide_True by lia.
  by replace (Z.to_nat (v_out + Z.of_nat i - v_out)) with i by lia.
Qed.

(** X2.  [vector_add_openmp] stays within bounds exactly when the arrays
    are large enough: under any schedule the loop runs to the end if and
    only if, for every index below [size], the three cells [v1[i]],
    [v2[i]] and [v_out[i]] are allocated; for [size <= 0] it always
    does. *)
Theorem X2_defined_iff_allocated sched v1 v2 v_out size (h : gmap Z Z) :
  OpenMP.schedule size sched →
  (is_Some (OpenMP.vector_add_openmp_sched sched v1 v2 v_out h) ↔
   ∀ i, 0 ≤ i < size → cells_allocated h v1 v2 v_out i) ∧
  (size ≤ 0 → OpenMP.vector_add_openmp_sched sched v1 v2 v_out h = Some h).
Proof.
  intros Hs. split; [split|].
  - intros [h' Hrun] i Hi.
    apply (for_each_body_allocated v1 v2 v_out sched h h' Hrun).
    by apply (schedule_elem size).
  - intros Hal. apply for_each_body_runs. intros i Hi.
    apply Hal. by apply (schedule_elem size sched).
  - intros Hsz. unfold OpenMP.schedule in Hs.
    rewrite seqZ_nil in Hs by lia. apply Permutation_nil_r in Hs as ->. done.
Qed.

(** X3.  Calling [vector_add_openmp] a second time with the same
    arguments changes nothing, when the inputs share no cell with the
    output: the second call, under any schedule, leaves the memory that
    the first call left. *)
Theorem X3_second_call_changes_nothing s1 s2 v1 v2 v_out size (h h1 : gmap Z Z) :
  OpenMP.schedule size s1 → OpenMP.schedule size s2 →
  apart v1 v_out size → apart v2 v_out size →
  OpenMP.vector_add_openmp_sched s1 v1 v2 v_out h = Some h1 →
  OpenMP.vector_add_openmp_sched s2 v1 v2 v_out h1 = Some h1.
Proof.
  intros Hs1 Hs2 Ha1 Ha2 Hrun.
  assert (∀ i, 0 ≤ i < size → cells_allocated h v1 v2 v_out i) as Hal.
  { intros i Hi. apply (for_each_body_allocated v1 v2 v_out s1 h h1 Hrun).
    by apply (schedule_elem size). }
  assert (∀ p, is_Some (read_array h p size) ↔ ∀ i, 0 ≤ i < size → is_Some (h !! (p + i)))
    as Hread.
  { intros p. split.
    - intros Hr i Hi. by eapply read_array_is_Some.
    - intros Hp. unfold read_array. apply mapM_is_Some, Forall_forall.
      intros i Hi%elem_of_seqZ. apply Hp. lia. }
  destruct (proj2 (Hread v1)) as [a Ha]; [intros i Hi; apply (Hal i Hi)|].
  destruct (proj2 (Hread v2)) as [b Hb]; [intros i Hi; apply (Hal i Hi)|].
  assert (is_Some (read_array h v_out size)) as Ho
    by (apply Hread; intros i Hi; apply (Hal i Hi)).
  destruct (vector_add_openmp_sched_cells s1 v1 v2 v_out size h a b)
    as (h1' & Hr1 & Hc1); try done; [by right..|].
  assert (h1' = h1) as -> by congruence.
  assert (read_array h1 v1 size = Some a) as Ha'.
  { rewrite <- Ha. apply read_array_agree. intros i Hi. rewrite Hc1.
    rewrite decide_False; [done|]. unfold apart in Ha1. lia. }
  assert (read_array h1 v2 size = Some b) as Hb'.
  { rewrite <- Hb. apply read_array_agree. intros i Hi. rewrite Hc1.
    rewrite decide_False; [done|]. unfold apart in Ha2. lia. }
  assert (is_Some (read_array h1 v_out size)) as Ho'.
  { destruct (vector_add_openmp_sched_spec s1 v1 v2 v_out size h)
      as (h1'' & Hr & Hdom & _); [done|by eexists..|done|].
    assert (h1'' = h1) as -> by congruence.
    unfold read_array. apply mapM_is_Some, Forall_forall.
    intros i Hi%elem_of_seqZ. unfold load. apply Hdom.
    eapply read_array_is_Some; [exact Ho|lia]. }
  destruct (vector_add_openmp_sched_cells s2 v1 v2 v_out size h1 a b)
    as (h2 & Hr2 & Hc2); try done; [by right..|].
  rewrite Hr2. f_equal. apply map_eq. intros p. rewrite Hc2, Hc1.
  by case_decide.
Qed.

(** X4.  The two input arrays of [vector_add_openmp] can be swapped:
    under every schedule, and whether or not the arrays are allocated or
    overlap, [vector_add_openmp(v1, v2, v_out, size)] and
    [vector_add_openmp(v2, v1, v_out, size)] have the same effect. *)
Theorem X4_inputs_commute sched v1 v2 v_out (h : gmap Z Z) :
  OpenMP.vector_add_openmp_sched sched v1 v2 v_out h =
  OpenMP.vector_add_openmp_sched sched v2 v1 v_out h.
Proof.
  unfold OpenMP.vector_add_openmp_sched. revert h.
  induction sched as [|i rest IH]; intros h; [done|].
  simpl. rewrite body_swap. destruct (OpenMP.body v2 v1 v_out i h); simpl; [apply IH|done].
Qed.

(** ** [init] and [print], further *)

Section Init_more.
Context `{Platform}.



Lemma init_values_range c size :
  (∀ k, 0 ≤ rand_seq k) → Forall (λ x, 0 ≤ x ≤ 99) (init_values c size).
Proof.
  intros Hr. unfold init_values. apply Forall_fmap, Forall_true. intros k. simpl.
  pose proof (Z.rem_bound_pos_pos (rand_seq (c + k)) 100 ltac:(lia) (Hr _)). lia.
Qed.
End Init_more.


(** X6.  [init] with a size that is not positive calls [rand] not once,
    writes no cell and prints nothing.  For a negative size the
    allocation fails and the array pointer is [NULL], with the process
    unchanged. *)
Theorem X6_init_nonpositive `{Platform} size h :
  size ≤ 0 →
  ∃ p h',
    OpenMP.init size h = Ret p h' ∧ OpenCL.init size h = Ret p h' ∧
    heap h' = heap h ∧ rand_calls h' = rand_calls h ∧ trace h' = trace h ∧
    (size < 0 → p = NULL ∧ h' = h).
Proof.
  intros Hsz. unfold OpenCL.init, OpenMP.init, for_range, bind, malloc_int.
  rewrite Z.sub_0_r, (seqZ_nil 0 size) by lia.
  destruct (size <? 0) eqn:Hneg.
  - apply Z.ltb_lt in Hneg. exists NULL, h. simpl. unfold ret.
    repeat split; try done; lia.
  - apply Z.ltb_ge in Hneg. assert (size = 0) as -> by lia.
    eexists _, _. simpl. unfold ret. split; [reflexivity|]. split; [reflexivity|].
    simpl. repeat split; try done; lia.
Qed.

Section Print_more.

Lemma bind_Ret_inv {S A B} (m : M S A) (k : A → M S B) s b s2 :
  bind m k s = Ret b s2 → ∃ a s1, m s = Ret a s1 ∧ k a s1 = Ret b s2.
Proof. unfold bind. destruct (m s) as [a s1| |]; [|done..]. intros Hk. by exists a, s1. Qed.

(** The printing loop returns only when every element it is to read is
    allocated, and it then has written them. *)
Lemma print_loop_inv A idxs : ∀ h h',
  for_ idxs (λ i, x <- get_elem A i ;; printf (fmt_d x)) h = Ret tt h' →
  ∃ xs, mapM (load (heap h) A) idxs = Some xs ∧ h' = logs (shown xs) h.
Proof.
  induction idxs as [|i rest IH]; intros h h' Hrun; simpl in Hrun.
  - exists []. inversion Hrun. by rewrite logs_nil.
  - unfold bind at 1 in Hrun. unfold bind at 1 in Hrun. unfold get_elem at 1 in Hrun.
    destruct (load (heap h) A i) as [x|] eqn:Hx; [|done].
    unfold printf at 1 in Hrun.
    destruct (IH _ _ Hrun) as (xs & Hxs & ->). simpl in Hxs.
    exists (x :: xs). simpl. rewrite Hx. simpl. rewrite Hxs. simpl.
    split; [done|]. by rewrite logs_log.
Qed.

Lemma print_loop_runs A idxs h :
  (∃ h', for_ idxs (λ i, x <- get_elem A i ;; printf (fmt_d x)) h = Ret tt h') ↔
  Forall (λ i, is_Some (heap h !! (A + i))) idxs.
Proof.
  split.
  - intros [h' Hrun]. destruct (print_loop_inv _ _ _ _ Hrun) as (xs & Hxs & _).
    apply (mapM_is_Some (load (heap h) A)). by exists xs.
  - intros Hal. apply (mapM_is_Some (load (heap h) A)) in Hal as [xs Hxs].
    eexists. by apply print_loop.
Qed.
End Print_more.

(** X7.  [print], in both programs, reads the elements at the indices
    0 to [size - 1] when [size <= 15], and the first five and the last
    five otherwise, so never more than 15: it returns exactly when the
    cells at these indices are allocated, and it never ends the
    process. *)
Theorem X7_print_reads A size h :
  ((∃ h', OpenMP.print A size h = Ret tt h') ↔
   Forall (λ i, is_Some (heap h !! (A + i))) (print_indices size)) ∧
  (∀ c h', OpenMP.print A size h ≠ Exit c h') ∧
  OpenCL.print = OpenMP.print ∧
  (length (print_indices size) ≤ 15)%nat.
Proof.
  split; [|split; [|split]].
  - unfold OpenMP.print, OpenMP.PRINT, print_indices, for_range.
    change (1 =? 0) with false. change (1 =? 1) with true. cbn [andb].
    rewrite !Z.sub_0_r. destruct (15 <? size) eqn:Hsz.
    + replace (size - (size - 5)) with 5 by lia. rewrite Forall_app. split.
      * intros [h' Hrun].
        apply bind_Ret_inv in Hrun as ([] & h3 & Hrun & _).
        apply bind_Ret_inv in Hrun as ([] & h1 & H1 & Hrun).
        apply bind_Ret_inv in Hrun as ([] & h2 & Hp & H2).
        destruct (print_loop_inv _ _ _ _ H1) as (xs & Hxs & ->).
        split; [apply (mapM_is_Some (load (heap h) A)); by exists xs|].
        inversion Hp; subst h2.
        destruct (print_loop_inv _ _ _ _ H2) as (ys & Hys & _).
        apply (mapM_is_Some (load (heap h) A)). by exists ys.
      * intros [Ha Hb].
        apply (mapM_is_Some (load (heap h) A)) in Ha as [xs Hxs].
        apply (mapM_is_Some (load (heap h) A)) in Hb as [ys Hys].
        eexists. rewrite (bind_Ret _ _ h tt (logs (shown ys) (log ellipsis (logs (shown xs) h)))).
        -- reflexivity.
        -- rewrite (bind_Ret _ _ _ _ _ (print_loop _ _ _ _ Hxs)).
           rewrite (bind_Ret _ _ _ tt (log ellipsis (logs (shown xs) h))) by done.
           by apply print_loop.
    + split.
      * intros [h' Hrun].
        apply bind_Ret_inv in Hrun as ([] & h1 & H1 & _).
        apply print_loop_runs. by exists h1.
      * intros Hal. apply print_loop_runs in Hal as [h1 H1].
        eexists. rewrite (bind_Ret _ _ _ _ _ H1). reflexivity.
  - intros c h'. rewrite <- print_same. by apply (no_exit_print A size h).
  - apply print_same.
  - unfold print_indices. destruct (15 <? size) eqn:Hsz.
    + rewrite length_app, !length_seqZ. lia.
    + apply Z.ltb_ge in Hsz. rewrite length_seqZ. lia.
Qed.

(** ** The OpenMP program, further *)

Section Cells.
Context `{Platform}.

(** The cells that [init] allocates: those of the new array, and no
    other. *)
Lemma init_cells size h :
  wf h →
  ∃ p h', OpenMP.init size h = Ret p h' ∧
          (∀ a, is_Some (heap h' !! a) ↔ is_Some (heap h !! a) ∨ in_array p size a) ∧
          blocks h' = (if decide (size < 0) then blocks h else <[p := size]> (blocks h)).
Proof.
  intros Hwf.
  destruct (init_spec size h Hwf)
    as (p & h' & Hrun & Hwf' & _ & _ & Hxs & Hold & _ & Hneg & Hpos).
  exists p, h'. split; [done|].
  destruct (decide (size < 0)) as [Hs|Hs].
  - destruct (Hneg Hs) as [-> ->]. split; [|done].
    intros a. unfold in_array. split; [by left|]. intros [?|?]; [done|lia].
  - destruct Hpos as (-> & Hbrk & Hbl); [lia|]. split; [|done].
    destruct Hwf as (_ & Hcells & _). destruct Hwf' as (_ & Hcells' & _).
    intros a. unfold in_array. split.
    + intros Ha. destruct (decide (a < brk h)) as [Hlt|Hge].
      * left. by rewrite <- Hold.
      * right. pose proof (Hcells' a Ha) as Hb. rewrite Hbrk in Hb.
        destruct (decide (a = brk h + size)) as [->|Hne]; [|lia].
        exfalso. revert Ha. unfold OpenMP.init, for_range in Hrun.
        apply bind_Ret_inv in Hrun as (q & h1 & Hm & Hrun).
        apply bind_Ret_inv in Hrun as ([] & h2 & Hloop & Hret).
        inversion Hret; subst q h2; clear Hret.
        unfold malloc_int in Hm.
        replace (size <? 0) with false in Hm by (symmetry; apply Z.ltb_ge; lia).
        inversion Hm; subst h1; clear Hm.
        destruct (init_loop (brk h) (seqZ 0 (size - 0))
                    {| heap := foldr (λ i m, <[brk h + i := 0]> m) (heap h) (seqZ 0 size);
                       blocks := <[brk h := size]> (blocks h); brk := brk h + size + 1;
                       rand_calls := rand_calls h; trace := trace h |})
          as (h2 & Hrun2 & _ & _ & _ & _ & Hdom & _).
        { apply NoDup_seqZ. }
        { intros i Hi%elem_of_seqZ. simpl. rewrite lookup_fresh_cells.
          rewrite decide_True by lia. by eexists. }
        rewrite Hrun2 in Hloop. inversion Hloop; subst h2.
        rewrite Hdom. simpl. rewrite lookup_fresh_cells.
        rewrite decide_False by lia. intros Ha. apply Hcells in Ha. lia.
    + intros [Ha|Ha].
      * rewrite Hold; [done|]. apply Hcells in Ha. lia.
      * destruct (read_array_load _ _ _ _ (a - brk h) Hxs ltac:(lia)) as (x & _ & Hx).
        unfold load in Hx. replace (brk h + (a - brk h)) with a in Hx by lia.
        by exists x.
Qed.

Lemma free_block_eq p n h :
  p ≠ NULL → blocks h !! p = Some n →
  free p h = Ret tt {| heap := foldr (λ i m, delete (p + i) m) (heap h) (seqZ 0 n);
                       blocks := delete p (blocks h); brk := brk h;
                       rand_calls := rand_calls h; trace := trace h |}.
Proof.
  intros Hp Hb. unfold free. rewrite Hb.
  by replace (p =? NULL) with false by (symmetry; apply Z.eqb_neq; lia).
Qed.
End Cells.

Section Vectors_more.
Context `{Platform}.

(** The three vectors of both programs, with the cells and the blocks
    that exist once they are made. *)
Lemma init3_cells N h0 :
  wf h0 →
  ∃ p1 p2 p3 h1 h2 h3,
    OpenMP.init N h0 = Ret p1 h1 ∧ OpenMP.init N h1 = Ret p2 h2 ∧
    OpenMP.init N h2 = Ret p3 h3 ∧ three_vectors N h0 h3 p1 p2 p3 ∧
    (∀ a, is_Some (heap h3 !! a) ↔
          is_Some (heap h0 !! a) ∨ in_array p1 N a ∨ in_array p2 N a ∨ in_array p3 N a) ∧
    blocks h3 = (if decide (N < 0) then blocks h0
                 else <[p3 := N]> (<[p2 := N]> (<[p1 := N]> (blocks h0)))).
Proof.
  intros Hwf0.
  destruct (init3_spec N h0 Hwf0) as (p1 & p2 & p3 & h1 & h2 & h3 & E1 & E2 & E3 & Hv).
  exists p1, p2, p3, h1, h2, h3. do 4 (split; [done|]).
  destruct (init_spec N h0 Hwf0) as (q1 & k1 & F1 & Hwf1 & _).
  rewrite E1 in F1. inversion F1; subst q1 k1; clear F1.
  destruct (init_spec N h1 Hwf1) as (q2 & k2 & F2 & Hwf2 & _).
  rewrite E2 in F2. inversion F2; subst q2 k2; clear F2.
  destruct (init_cells N h0 Hwf0) as (q1 & k1 & F1 & Hd1 & Hb1).
  rewrite E1 in F1. inversion F1; subst q1 k1; clear F1.
  destruct (init_cells N h1 Hwf1) as (q2 & k2 & F2 & Hd2 & Hb2).
  rewrite E2 in F2. inversion F2; subst q2 k2; clear F2.
  destruct (init_cells N h2 Hwf2) as (q3 & k3 & F3 & Hd3 & Hb3).
  rewrite E3 in F3. inversion F3; subst q3 k3; clear F3.
  split.
  - intros a. rewrite Hd3, Hd2, Hd1. tauto.
  - rewrite Hb3, Hb2, Hb1. by destruct (decide (N < 0)).
Qed.

(** The three [free] calls at the end of both programs give back every
    cell of the three vectors, and their blocks. *)
Lemma free3_cells N h0 h p1 p2 p3 (h' : host) :
  three_vectors N h0 h p1 p2 p3 →
  blocks h' = blocks h →
  ∃ h3, (free p1 ;; free p2 ;; free p3) h' = Ret tt h3 ∧
        trace h3 = trace h' ∧ rand_calls h3 = rand_calls h' ∧
        (∀ a, heap h3 !! a =
              if decide (in_array p1 N a ∨ in_array p2 N a ∨ in_array p3 N a)
              then None else heap h' !! a) ∧
        blocks h3 = (if decide (N < 0) then blocks h'
                     else delete p3 (delete p2 (delete p1 (blocks h')))).
Proof.
  intros (_ & _ & _ & _ & _ & _ & _ & _ & _ & Hc) Hbl.
  destruct Hc as [(HN & -> & -> & ->)|(HN & Hp1 & Hp2 & Hb1 & Hb2 & Hb3)].
  - exists h'. rewrite !(bind_Ret _ _ _ _ _ (free_NULL _)).
    split; [done|]. split; [done|]. split; [done|]. split.
    + intros a. rewrite decide_False; [done|]. unfold in_array, NULL. lia.
    + by rewrite decide_True.
  - rewrite <- Hbl in Hb1, Hb2, Hb3.
    rewrite (bind_Ret _ _ _ _ _ (free_block_eq p1 N h' ltac:(unfold NULL; lia) Hb1)).
    erewrite bind_Ret; [|apply (free_block_eq p2 N); [unfold NULL; lia|]; simpl;
                         by rewrite lookup_delete_ne by lia].
    erewrite free_block_eq; [|unfold NULL; lia|simpl; by rewrite !lookup_delete_ne by lia].
    eexists. split; [reflexivity|]. simpl.
    split; [done|]. split; [done|]. split.
    + intros a. rewrite !lookup_freed_cells. unfold in_array.
      repeat case_decide; try done; lia.
    + by rewrite decide_False by lia.
Qed.
End Vectors_more.

Section OpenMP_main_more.
Context `{Platform}.
Import OpenMP.

(** [main] from the vectors on: the compute step changes no cell outside
    [v_out], and the three [free] calls give the vectors back. *)
Lemma omp_main_run_cells N h0 h p1 p2 p3 :
  three_vectors N h0 h p1 p2 p3 →
  ∃ h', main_run (p1, p2, p3) (h, {| SZ := N |}) = Ret 0 (h', {| SZ := N |}) ∧
        rand_calls h' = rand_calls h ∧
        (∀ a, in_array p1 N a ∨ in_array p2 N a ∨ in_array p3 N a → heap h' !! a = None) ∧
        (∀ a, is_Some (heap h' !! a) → is_Some (heap h !! a)) ∧
        blocks h' = (if decide (N < 0) then blocks h
                     else delete p3 (delete p2 (delete p1 (blocks h)))).
Proof.
  intros Hv.
  pose proof Hv as (Hwf & Htr & Hrc & Ha & Hb & Ho & Hab & Hao & Hbo & Hblk).
  set (a := init_values (rand_calls h0) N) in *.
  set (b := init_values (rand_calls h0 + Z.to_nat N) N) in *.
  set (g := {| SZ := N |}).
  unfold main_run.
  set (e1 := Stdout ("Vector v1:" +:+ LF)).
  set (e2 := Stdout ("Vector v2:" +:+ LF)).
  set (e3 := Stdout ("Vector v_out (OpenMP):" +:+ LF)).
  set (e4 := StdoutMs "CPU (OpenMP) Execution Time: ").
  rewrite (bind_Ret _ _ _ tt (logs [e1] h, g)) by done.
  rewrite (bind_Ret _ _ _ tt (logs (printed a) (logs [e1] h), g)).
  2:{ apply with_SZ_Ret. by apply print_spec. }
  rewrite logs_logs.
  rewrite (bind_Ret _ _ _ tt (logs [e2] (logs ([e1] ++ printed a) h), g)) by done.
  rewrite logs_logs.
  rewrite (bind_Ret _ _ _ tt (logs (printed b) (logs (([e1] ++ printed a) ++ [e2]) h), g)).
  2:{ apply with_SZ_Ret. by apply print_spec. }
  rewrite logs_logs.
  set (t2 := (([e1] ++ printed a) ++ [e2]) ++ printed b).
  destruct (vector_add_openmp_sched_spec (seqZ 0 N) p1 p2 p3 N (heap h))
    as (m' & Hrun & Hdom & Hfr & Hsum); [apply schedule_in_order|by eexists..|].
  specialize (Hsum Hao Hbo a b Ha Hb).
  set (h2 := upd_heap (λ _, m') (logs t2 h)).
  rewrite (bind_Ret _ _ _ tt (h2, g)).
  2:{ apply with_SZ_Ret. unfold heap_step. simpl.
      unfold vector_add_openmp. by rewrite Hrun. }
  rewrite (bind_Ret _ _ _ tt (logs [e3] h2, g)) by done.
  rewrite (bind_Ret _ _ _ tt (logs (printed (zip_with int_add a b)) (logs [e3] h2), g)).
  2:{ apply with_SZ_Ret. by apply print_spec. }
  rewrite logs_logs.
  rewrite (bind_Ret _ _ _ tt
             (logs [e4] (logs ([e3] ++ printed (zip_with int_add a b)) h2), g)) by done.
  rewrite logs_logs.
  set (h3 := logs _ h2).
  destruct (free3_cells N h0 h p1 p2 p3 h3 Hv) as (h4 & Hfree & _ & Hrc4 & Hcells & Hbl4);
    [done|].
  exists h4.
  assert (Hf : (on_host (G := globals) (free p1) ;; on_host (free p2) ;;
                on_host (free p3) ;; ret 0) (h3, g) = Ret 0 (h4, g)).
  { unfold bind in Hfree |- *. unfold on_host at 1.
    destruct (free p1 h3) as [[] h5| |]; try done.
    unfold on_host at 1. destruct (free p2 h5) as [[] h6| |]; try done.
    unfold on_host at 1. by rewrite Hfree. }
  split; [exact Hf|]. split; [rewrite Hrc4; reflexivity|]. split; [|split].
  - intros c Hc. rewrite Hcells. by rewrite decide_True.
  - intros c. rewrite Hcells.
    destruct (decide (in_array p1 N c ∨ in_array p2 N c ∨ in_array p3 N c)) as [Hd|Hd];
      [intros [x Hx]; discriminate|].
    unfold h3, h2. simpl. by rewrite Hdom.
  - exact Hbl4.
Qed.
End OpenMP_main_more.

(** The state in which the OpenMP program ends. *)
Lemma omp_main_end_state `{Platform} (argv : list string) :
  let N := cli_size argv in
  ∃ h', OpenMP.main argv (host0, OpenMP.globals0) = Ret 0 (h', {| OpenMP.SZ := N |}) ∧
        trace h' = [threads_line] ++
          omp_report (init_values 0 N) (init_values (Z.to_nat N) N) ∧
        heap h' = ∅ ∧ blocks h' = ∅ ∧ rand_calls h' = (3 * Z.to_nat N)%nat.
Proof.
  intros N.
  destruct (init3_cells N (log threads_line host0))
    as (p1 & p2 & p3 & h1 & h2 & h3 & E1 & E2 & E3 & Hv & Hdom & Hbl).
  { apply wf_host0. }
  destruct (omp_main_setup_spec argv) as (q1 & q2 & q3 & k & Hs & Hw).
  assert (Hsame : (q1, q2, q3, k) = (p1, p2, p3, h3)).
  { unfold OpenMP.main_setup in Hs. fold N in Hs.
    rewrite (bind_Ret _ _ _ tt (host0, {| OpenMP.SZ := N |})) in Hs.
    2:{ unfold N. rewrite <- cli_size_eq.
        destruct (1 <? Z.of_nat (length argv)); [done|].
        unfold ret, OpenMP.globals0. done. }
    rewrite (bind_Ret _ _ _ tt (log threads_line host0, {| OpenMP.SZ := N |})) in Hs by done.
    rewrite (bind_Ret _ _ _ _ _ (with_SZ_Ret OpenMP.init _ {| OpenMP.SZ := N |} _ _ E1)) in Hs.
    rewrite (bind_Ret _ _ _ _ _ (with_SZ_Ret OpenMP.init _ {| OpenMP.SZ := N |} _ _ E2)) in Hs.
    rewrite (bind_Ret _ _ _ _ _ (with_SZ_Ret OpenMP.init _ {| OpenMP.SZ := N |} _ _ E3)) in Hs.
    by inversion Hs. }
  inversion Hsame; subst q1 q2 q3 k; clear Hsame.
  destruct (omp_main_run_cells N _ _ _ _ _ Hv) as (h' & Hrun & Hrc & Hnone & Hsub & Hbl').
  exists h'.
  assert (Hmain : OpenMP.main argv (host0, OpenMP.globals0) = Ret 0 (h', {| OpenMP.SZ := N |})).
  { unfold OpenMP.main. rewrite (bind_Ret _ _ _ _ _ Hs). exact Hrun. }
  split; [exact Hmain|]. split.
  { destruct (omp_main_spec argv) as (k & Hk & Htr). fold N in Hk, Htr.
    rewrite Hmain in Hk. inversion Hk; subst k. exact Htr. }
  destruct Hv as (_ & _ & Hrc3 & _ & _ & _ & _ & _ & _ & Hc).
  split; [|split].
  - apply map_eq. intros a. rewrite lookup_empty.
    destruct (heap h' !! a) as [x|] eqn:Hx; [|done]. exfalso.
    assert (is_Some (heap h3 !! a)) as Ha by (apply Hsub; by exists x).
    apply Hdom in Ha as [[y Hy]|Ha]; [done|].
    rewrite (Hnone a Ha) in Hx. done.
  - rewrite Hbl', Hbl. destruct (decide (N < 0)); [done|].
    destruct Hc as [?|(_ & ? & ? & _)]; [lia|].
    change (blocks (log threads_line host0)) with (∅ : gmap Z Z).
    apply map_eq. intros q. rewrite lookup_empty.
    destruct (decide (q = p3)) as [->|?]; [by rewrite lookup_delete_eq|].
    rewrite lookup_delete_ne by done.
    destruct (decide (q = p2)) as [->|?]; [by rewrite lookup_delete_eq|].
    rewrite lookup_delete_ne by done.
    destruct (decide (q = p1)) as [->|?]; [by rewrite lookup_delete_eq|].
    rewrite lookup_delete_ne by done.
    by rewrite !lookup_insert_ne by done.
  - rewrite Hrc, Hrc3. simpl. lia.
Qed.

(** X8.  The OpenMP program gives back all the memory it allocates
    ([malloc] of a size that is not negative being taken to succeed): for
    every command line [main] returns 0 with no allocated cell and no
    live block left, having called [rand] three times per element. *)
Theorem X8_openmp_main_frees_all `{Platform} (argv : list string) :
  ∃ h' g, OpenMP.main argv (host0, OpenMP.globals0) = Ret 0 (h', g) ∧
          heap h' = ∅ ∧ blocks h' = ∅ ∧
          rand_calls h' = (3 * Z.to_nat (cli_size argv))%nat.
Proof.
  destruct (omp_main_end_state argv) as (h' & Hmain & _ & Hheap & Hbl & Hrc).
  by exists h', {| OpenMP.SZ := cli_size argv |}.
Qed.

Section Sums.
Context `{Platform}.

(** Sums of two values between 0 and 99 are [int] values: the addition
    of the compute step does not wrap around on them. *)
Lemma zip_with_int_add_exact (a b : list Z) :
  Forall (λ x, 0 ≤ x ≤ 99) a → Forall (λ x, 0 ≤ x ≤ 99) b →
  zip_with int_add a b = zip_with Z.add a b ∧
  Forall (λ z, 0 ≤ z ≤ 198) (zip_with Z.add a b).
Proof.
  intros Ha. revert b. induction Ha as [|x a Hx Ha IH]; intros b Hb; [done|].
  destruct Hb as [|y b Hy Hb]; [done|]. simpl.
  destruct (IH b Hb) as [-> Hr]. split.
  - f_equal. unfold int_add. apply wrap_int_id. unfold in_int, INT_MIN, INT_MAX. lia.
  - constructor; [lia|done].
Qed.
End Sums.

(** X9.  No addition of the OpenMP program overflows: when [rand()]
    returns no negative value, the output vector that the program prints
    holds the exact sums of the input elements, each between 0 and 198,
    for every command line. *)
Theorem X9_openmp_sums_exact `{Platform} (argv : list string) :
  (∀ k, 0 ≤ rand_seq k) →
  let N := cli_size argv in
  let a := init_values 0 N in
  let b := init_values (Z.to_nat N) N in
  ∃ h' g, OpenMP.main argv (host0, OpenMP.globals0) = Ret 0 (h', g) ∧
          trace h' = [threads_line; Stdout ("Vector v1:" +:+ LF)] ++ printed a ++
                     [Stdout ("Vector v2:" +:+ LF)] ++ printed b ++
                     [Stdout ("Vector v_out (OpenMP):" +:+ LF)] ++
                     printed (zip_with Z.add a b) ++
                     [StdoutMs "CPU (OpenMP) Execution Time: "] ∧
          Forall (λ z, 0 ≤ z ≤ 198) (zip_with Z.add a b).
Proof.
  intros Hrand N a b.
  destruct (omp_main_end_state argv) as (h' & Hmain & Htr & _).
  destruct (zip_with_int_add_exact a b) as [Heq Hr]; [by apply init_values_range..|].
  exists h', {| OpenMP.SZ := N |}. split; [exact Hmain|]. split; [|exact Hr].
  rewrite Htr. unfold omp_report. fold N a b. by rewrite Heq.
Qed.

(** X10.  With a vector length that is not positive the OpenMP program
    still runs to the end with status 0: it calls [rand] not once and
    prints the three headings, each followed by the separator line
    alone, and the timing line. *)
Theorem X10_openmp_nonpositive_length `{Platform} (argv : list string) :
  cli_size argv ≤ 0 →
  ∃ h' g, OpenMP.main argv (host0, OpenMP.globals0) = Ret 0 (h', g) ∧
          rand_calls h' = 0%nat ∧
          trace h' = [threads_line;
                      Stdout ("Vector v1:" +:+ LF); footer;
                      Stdout ("Vector v2:" +:+ LF); footer;
                      Stdout ("Vector v_out (OpenMP):" +:+ LF); footer;
                      StdoutMs "CPU (OpenMP) Execution Time: "].
Proof.
  intros HN.
  destruct (omp_main_end_state argv) as (h' & Hmain & Htr & _ & _ & Hrc).
  exists h', {| OpenMP.SZ := cli_size argv |}. split; [exact Hmain|].
  split; [rewrite Hrc; lia|].
  rewrite Htr. unfold omp_report, init_values.
  replace (Z.to_nat (cli_size argv)) with 0%nat by lia. reflexivity.
Qed.

(** ** Outcomes by cases *)

Section Triples.
Context {S : Type}.
Implicit Types (P : S → Prop) (E : Z → S → Prop) (C : S → Prop).

Lemma triple_ret {A} P (Q : A → S → Prop) E C (a : A) :
  (∀ s, P s → Q a s) → triple P (ret a) Q E C.
Proof. intros HQ s Hs. by apply HQ. Qed.

Lemma triple_exit {A} P (Q : A → S → Prop) E C c :
  (∀ s, P s → E c s) → triple P (exit c) Q E C.
Proof. intros HE s Hs. by apply HE. Qed.

Lemma triple_bind {A B} P (R : A → S → Prop) (Q : B → S → Prop) E C
    (m : M S A) (k : A → M S B) :
  triple P m R E C → (∀ a, triple (R a) (k a) Q E C) → triple P (bind m k) Q E C.
Proof.
  intros Hm Hk s Hs. specialize (Hm s Hs). unfold bind.
  destruct (m s) as [a s1|c s1|s1]; [by apply Hk|done|done].
Qed.

Lemma triple_post {A} P (Q Q' : A → S → Prop) E C (m : M S A) :
  triple P m Q E C → (∀ a s, Q a s → Q' a s) → triple P m Q' E C.
Proof.
  intros Hm HQ s Hs. specialize (Hm s Hs). destruct (m s); [by apply HQ|done|done].
Qed.

Lemma triple_for_ P E C idxs (body : Z → M S unit) :
  (∀ i, i ∈ idxs → triple P (body i) (λ _, P) E C) →
  triple P (for_ idxs body) (λ _, P) E C.
Proof.
  induction idxs as [|i rest IH]; intros Hb; [by apply triple_ret|].
  simpl. apply (triple_bind _ (λ _, P)); [apply Hb; left|].
  intros _. apply IH. intros j Hj. apply Hb. by right.
Qed.
End Triples.

Section Prog_triples.
Import OpenCL.
Variable I : host * state → Prop.
Variable E : Z → host * state → Prop.
Variable C : host * state → Prop.

Lemma triple_get x : triple I (get x) (λ _, I) E C.
Proof. by intros [h s] Hs. Qed.

Lemma triple_get_rt : triple I get_rt (λ _, I) E C.
Proof. by intros [h s] Hs. Qed.

Lemma triple_set x v :
  (∀ h s, I (h, s) → I (h, {| vars := <[x := v]> (vars s); device := device s |})) →
  triple I (set x v) (λ _, I) E C.
Proof. intros HI [h s] Hs. by apply HI. Qed.

Lemma triple_set_rt r :
  (∀ h s, I (h, s) → I (h, {| vars := vars s; device := r |})) →
  triple I (set_rt r) (λ _, I) E C.
Proof. intros HI [h s] Hs. by apply HI. Qed.

Lemma triple_api c st :
  (∀ h s, I (h, s) → I (log (Call c st) h, s)) → triple I (api c st) (λ _, I) E C.
Proof. intros HI [h s] Hs. by apply HI. Qed.

Lemma triple_printf text :
  (∀ h s, I (h, s) → I (log (Stdout text) h, s)) →
  triple I (on_host (printf text)) (λ _, I) E C.
Proof. intros HI [h s] Hs. by apply HI. Qed.

Lemma triple_perror msg :
  (∀ h s, I (h, s) → I (log (Stderr msg) h, s)) →
  triple I (on_host (perror msg)) (λ _, I) E C.
Proof. intros HI [h s] Hs. by apply HI. Qed.

(** A value read from a global is the value the condition fixes for it. *)
Lemma triple_bind_get {B} x c (k : Z → prog B) (Q : B → host * state → Prop) :
  (∀ s, I s → vars s.2 x = c) → triple I (k c) Q E C →
  triple I (bind (get x) k) Q E C.
Proof.
  intros Hc Hk [h s] Hs. unfold bind, get. rewrite <- (Hc _ Hs) in Hk. by apply Hk.
Qed.

Lemma triple_bind_inv {A B} (m : M (host * state) A) (k : A → prog B)
    (Q : B → host * state → Prop) :
  triple I m (λ _, I) E C → (∀ a, triple I (k a) Q E C) → triple I (bind m k) Q E C.
Proof. intros Hm Hk. by apply (triple_bind _ (λ _, I)). Qed.
End Prog_triples.

(** ** The set-up of the session, on every platform *)

Section Setup_outcomes.
Import OpenCL.
Variable env : cl_env.
Variable h0 : host.
Variable s0 : state.
Variable filename : string.

Abbreviation SI := (setup_inv h0 s0).
Abbreviation SE := (λ (c : Z) (s : host * state), c = 1 ∧ setup_inv h0 s0 s).
Abbreviation SC :=
  (λ s : host * state, setup_inv h0 s0 s ∧ build_faults env filename).

Lemma setup_inv_start : SI (h0, s0).
Proof.
  unfold setup_inv. simpl. repeat split; try done.
  exists []. by rewrite app_nil_r.
Qed.

Lemma setup_inv_log e h s : setup_obs e → SI (h, s) → SI (log e h, s).
Proof.
  intros He (H1 & H2 & H3 & H4 & (t & Ht & Hq) & H6 & H7 & H8).
  unfold setup_inv. simpl in *. repeat split; try done.
  exists (t ++ [e]). rewrite Ht, app_assoc. split; [done|].
  apply Forall_app. split; [done|]. by constructor.
Qed.

Lemma setup_inv_set x v h s :
  x ∈ [err; device_id; context; program; queue; kernel] →
  SI (h, s) → SI (h, {| vars := <[x := v]> (vars s); device := device s |}).
Proof.
  intros Hx (H1 & H2 & H3 & H4 & H5 & H6 & H7 & H8).
  unfold setup_inv. simpl in *. repeat split; try done.
  intros y Hy. rewrite var_insert_ne; [by apply H8|].
  intros ->. apply list_elem_of_In in Hx, Hy. simpl in Hx, Hy.
  intuition congruence.
Qed.

Lemma setup_inv_handle h s :
  SI (h, s) →
  SI (h, {| vars := vars s;
            device := {| mem := mem (device s); kargs := kargs (device s);
                         fresh := fresh (device s) + 1 |} |}).
Proof. intros (H1 & H2 & H3 & H4 & H5 & H6 & H7 & H8). by unfold setup_inv. Qed.

Lemma triple_new_handle : triple SI new_handle (λ _, SI) SE SC.
Proof. intros [h [f r]] Hs. unfold new_handle, bind, get_rt, set_rt, ret. by apply setup_inv_handle. Qed.

Lemma triple_check_err msg :
  triple SI (check_err msg) (λ _ s, SI s ∧ 0 ≤ vars s.2 err) SE SC.
Proof.
  intros [h s] Hs. unfold check_err, bind, get.
  destruct (vars s err <? 0) eqn:He.
  - unfold on_host, perror, exit. split; [done|]. by apply setup_inv_log.
  - unfold ret. split; [done|]. simpl. by apply Z.ltb_ge.
Qed.

Lemma triple_check_err_inv msg : triple SI (check_err msg) (λ _, SI) SE SC.
Proof. eapply triple_post; [apply triple_check_err|]. by intros _ s [? _]. Qed.

Ltac tri :=
  repeat first
    [ apply triple_check_err_inv
    | apply triple_new_handle
    | apply triple_get | apply triple_get_rt
    | apply triple_set; intros ? ?; apply setup_inv_set; in_list
    | apply triple_api; intros ? ?; apply setup_inv_log; exact Logic.I
    | apply triple_printf; intros ? ?; apply setup_inv_log; exact Logic.I
    | apply triple_perror; intros ? ?; apply setup_inv_log; exact Logic.I
    | apply triple_ret; intros ? ?; assumption
    | apply triple_exit; intros ? ?; split; [reflexivity|assumption]
    | apply triple_bind_inv
    | match goal with
      | |- ∀ _, _ => intro
      | |- triple _ (if ?b then _ else _) _ _ _ => destruct b
      | |- triple _ (match ?x with _ => _ end) _ _ _ => destruct x
      end ].

Lemma triple_create_device : triple SI (create_device env) (λ _, SI) SE SC.
Proof. unfold create_device, cl_GetPlatformIDs, cl_GetDeviceIDs. tri. Qed.

Lemma triple_create_object c st :
  setup_obs (Call c st) → triple SI (create_object c st) (λ _, SI) SE SC.
Proof.
  intros Hc. unfold create_object.
  apply triple_bind_inv; [apply triple_api; intros ? ?; by apply setup_inv_log|].
  tri.
Qed.

Lemma setup_inv_after h f m a n es f' n' :
  SI (h, {| vars := f; device := {| mem := m; kargs := a; fresh := n |} |}) →
  Forall setup_obs es → (∀ x, x ≠ err → f' x = f x) →
  SI (logs es h, {| vars := f'; device := {| mem := m; kargs := a; fresh := n' |} |}).
Proof.
  intros (H1 & H2 & H3 & H4 & (t & Ht & Hq) & H6 & H7 & H8) Hes Hf.
  unfold setup_inv. simpl in *. repeat split; try done.
  - exists (t ++ es). rewrite Ht, app_assoc. split; [done|]. by apply Forall_app.
  - intros y Hy. rewrite Hf; [by apply H8|].
    intros ->. apply list_elem_of_In in Hy. simpl in Hy. intuition discriminate.
Qed.

Lemma triple_build_program ctx dev :
  triple SI (build_program env ctx dev filename) (λ _, SI) SE SC.
Proof.
  intros [h [f [m a n]]] Hs.
  destruct (build_program_outcome env ctx dev filename h f m a n)
    as ((es & f' & n' & Hfin & Hes & Hf & _) & Hexit & Hcrash).
  assert (SI (final_state (build_program env ctx dev filename
                             (h, {| vars := f;
                                    device := {| mem := m; kargs := a; fresh := n |} |}))))
    as Hinv by (rewrite Hfin; by apply (setup_inv_after h f m a n)).
  destruct (build_program env ctx dev filename _) as [p s'|c s'|s'];
    cbn [final_state] in Hinv.
  - done.
  - split; [by eapply Hexit|done].
  - split; [done|]. apply Hcrash. by eexists.
Qed.

(** The set-up on every platform and from every state: it returns only
    with a status in [err] that is not negative, it exits only with
    status 1, its behaviour is undefined only where [build_program]
    meets a buffer that is not there, and in every case it leaves what
    [setup_inv] lists as it was. *)
Lemma triple_setup kernelname :
  triple SI (setup_openCL_device_context_queue_kernel env filename kernelname)
    (λ _ s, SI s ∧ 0 ≤ vars s.2 err) SE SC.
Proof.
  unfold setup_openCL_device_context_queue_kernel, cl_CreateContext,
    cl_CreateCommandQueueWithProperties, cl_CreateKernel.
  apply triple_bind_inv; [apply triple_bind_inv; [apply triple_create_device|tri]|intros _].
  apply triple_bind_inv.
  { apply triple_bind_inv; [apply triple_get|intros d].
    apply triple_bind_inv; [by apply triple_create_object|]. tri. }
  intros _. apply triple_bind_inv; [apply triple_check_err_inv|intros _].
  apply triple_bind_inv.
  { apply triple_bind_inv; [apply triple_get|intros c].
    apply triple_bind_inv; [apply triple_get|intros d].
    apply triple_bind_inv; [apply triple_build_program|]. tri. }
  intros _. apply triple_bind_inv.
  { apply triple_bind_inv; [apply triple_get|intros c].
    apply triple_bind_inv; [apply triple_get|intros d].
    apply triple_bind_inv; [by apply triple_create_object|]. tri. }
  intros _. apply triple_bind_inv; [apply triple_check_err_inv|intros _].
  apply triple_bind_inv.
  { apply triple_bind_inv; [apply triple_get|intros c].
    apply triple_bind_inv; [by apply triple_create_object|]. tri. }
  intros _. apply triple_check_err.
Qed.
End Setup_outcomes.

(** The set-up reaches [build_program] and meets there a character
    buffer that is not there. *)
Lemma setup_faults env filename kernelname h f r :
  device_found env → 0 ≤ OpenCL.st_context env → build_faults env filename →
  ∃ s', OpenCL.setup_openCL_device_context_queue_kernel env filename kernelname
          (h, {| OpenCL.vars := f; OpenCL.device := r |}) = Crash s'.
Proof.
  intros Hdev Hctx Hfaults. unfold OpenCL.setup_openCL_device_context_queue_kernel.
  destruct (create_device_found env h f r Hdev) as (f1 & Hcd & _ & _).
  destruct r as [m a n].
  run. rewrite (bind_Ret _ _ _ _ _ Hcd).
  unfold OpenCL.cl_CreateContext, OpenCL.create_object, OpenCL.check_err.
  run. rewrite (ltb_nonneg _ Hctx). run. rewrite (ltb_nonneg _ Hctx). run.
  match goal with
  | |- context [bind (OpenCL.build_program env ?c ?d filename) _
                  (?h1, {| OpenCL.vars := ?f2; OpenCL.device := _ |})] =>
      destruct (build_program_outcome env c d filename h1 f2 m a (n + 1))
        as (_ & _ & Hcrash)
  end.
  destruct (proj2 Hcrash Hfaults) as [s' Hs']. rewrite (bind_Crash _ _ _ _ Hs').
  by eexists.
Qed.

(** X11.  The set-up of the session, on every platform and from every
    state: it returns only when the last status stored in [err] is not
    negative, and it ends the process only with exit status 1.  Its
    behaviour is undefined only in [build_program], where the results of
    [malloc] are not tested: when the buffer for the source text or,
    after a failed build, the buffer for the log is not there; and it is
    undefined whenever the set-up gets that far.  However it ends, it
    has left the host memory, the generator, the memory objects and
    kernel arguments of the device and the globals other than the
    session handles and [err] as they were, and has added to the trace
    only output and calls of the set-up: no buffer is created and
    nothing is released. *)
Theorem X11_setup_outcomes env filename kernelname (h : host) (s : OpenCL.state) :
  let o := OpenCL.setup_openCL_device_context_queue_kernel env filename kernelname (h, s) in
  match o with
  | Ret _ s' => 0 ≤ OpenCL.vars s'.2 OpenCL.err
  | Exit c _ => c = 1
  | Crash _ => build_faults env filename
  end ∧
  (device_found env → 0 ≤ OpenCL.st_context env → build_faults env filename →
     ∃ s', o = Crash s') ∧
  setup_inv h s (final_state o).
Proof.
  intros o. pose proof (triple_setup env h s filename kernelname (h, s) (setup_inv_start h s)) as Ht.
  fold o in Ht. split; [|split].
  - destruct o as [[] s'|c s'|s']; [by destruct Ht|by destruct Ht..].
  - intros Hdev Hctx Hfaults. destruct s as [f r]. by apply setup_faults.
  - destruct o as [[] s'|c s'|s']; by destruct Ht.
Qed.

(** ** The diagnostics of the set-up *)

Section Setup_failures.
Import OpenCL.
Variable env : cl_env.

Lemma setup_no_platform filename kernelname h f r :
  st_platform env < 0 →
  ∃ s', setup_openCL_device_context_queue_kernel env filename kernelname
          (h, {| vars := f; device := r |}) = Exit 1 s' ∧
        trace s'.1 = trace h ++ [Call clGetPlatformIDs (st_platform env);
                                 Stderr "Couldn't identify a platform"].
Proof.
  intros Hp. unfold setup_openCL_device_context_queue_kernel.
  rewrite bind_assoc.
  rewrite (bind_Exit _ _ _ _ _ (create_device_no_platform env h f r Hp)).
  eexists. split; [reflexivity|]. apply trace_logs.
Qed.

Lemma setup_context_fails filename kernelname h f r :
  device_found env → st_context env < 0 →
  ∃ s', setup_openCL_device_context_queue_kernel env filename kernelname
          (h, {| vars := f; device := r |}) = Exit 1 s' ∧
        trace s'.1 = trace h ++ device_calls env ++
                     [Call (clCreateContext (selected_device env)) (st_context env);
                      Stderr "Couldn't create a context"].
Proof.
  intros Hdev Hctx. unfold setup_openCL_device_context_queue_kernel.
  destruct (create_device_found env h f r Hdev) as (f1 & Hcd & _ & _).
  destruct r as [m a n].
  run. rewrite (bind_Ret _ _ _ _ _ Hcd).
  unfold cl_CreateContext, create_object, check_err.
  run. rewrite (ltb_neg _ Hctx). run. rewrite (ltb_neg _ Hctx). run.
  eexists. split; [reflexivity|]. cbn [fst]. rewrite !trace_logs.
  by rewrite <- !app_assoc.
Qed.

Lemma setup_no_file filename kernelname h f r :
  device_found env → 0 ≤ st_context env → file env filename = None →
  ∃ s', setup_openCL_device_context_queue_kernel env filename kernelname
          (h, {| vars := f; device := r |}) = Exit 1 s' ∧
        trace s'.1 = trace h ++ device_calls env ++
                     [Call (clCreateContext (selected_device env)) (st_context env);
                      Stderr "Couldn't find the program file"].
Proof.
  intros Hdev Hctx Hfile. unfold setup_openCL_device_context_queue_kernel.
  destruct (create_device_found env h f r Hdev) as (f1 & Hcd & _ & _).
  destruct r as [m a n].
  run. rewrite (bind_Ret _ _ _ _ _ Hcd).
  unfold build_program, cl_CreateContext, create_object, check_err.
  run. rewrite (ltb_nonneg _ Hctx). run. rewrite (ltb_nonneg _ Hctx). run.
  rewrite Hfile. run.
  eexists. split; [reflexivity|]. cbn [fst]. rewrite !trace_logs.
  by rewrite <- !app_assoc.
Qed.

Lemma setup_program_fails filename kernelname src h f r :
  device_found env → 0 ≤ st_context env → reads env filename src →
  st_program env < 0 →
  ∃ s', setup_openCL_device_context_queue_kernel env filename kernelname
          (h, {| vars := f; device := r |}) = Exit 1 s' ∧
        trace s'.1 = trace h ++ device_calls env ++
                     [Call (clCreateContext (selected_device env)) (st_context env);
                      Call (clCreateProgramWithSource (fresh r) src) (st_program env);
                      Stderr "Couldn't create the program"].
Proof.
  intros Hdev Hctx Hfile Hprg. unfold setup_openCL_device_context_queue_kernel.
  destruct (create_device_found env h f r Hdev) as (f1 & Hcd & _ & _).
  destruct r as [m a n].
  run. rewrite (bind_Ret _ _ _ _ _ Hcd).
  unfold cl_CreateContext, create_object, check_err.
  run. rewrite (ltb_nonneg _ Hctx). run. rewrite (ltb_nonneg _ Hctx). run.
  rewrite (bind_Exit _ _ _ _ _ (build_program_rejected env _ _ _ _ _ _ _ Hfile Hprg)).
  eexists. split; [reflexivity|]. cbn [fst]. rewrite !trace_logs.
  by rewrite <- !app_assoc.
Qed.

Lemma setup_queue_fails filename kernelname src h f m a n :
  reaches_build env filename src → 0 ≤ st_build env → st_queue env < 0 →
  ∃ s', setup_openCL_device_context_queue_kernel env filename kernelname
          (h, {| vars := f; device := {| mem := m; kargs := a; fresh := n |} |}) = Exit 1 s' ∧
        trace s'.1 = trace h ++ device_calls env ++
                     [Call (clCreateContext (selected_device env)) (st_context env)] ++
                     build_calls env n src (n + 1) ++
                     [Call (clCreateCommandQueueWithProperties n (selected_device env))
                           (st_queue env);
                      Stderr "Couldn't create a command queue"].
Proof.
  intros (Hdev & Hctx & Hfile & Hprg) Hb Hq.
  unfold setup_openCL_device_context_queue_kernel.
  destruct (create_device_found env h f {| mem := m; kargs := a; fresh := n |} Hdev)
    as (f1 & Hcd & _ & _).
  run. rewrite (bind_Ret _ _ _ _ _ Hcd).
  unfold cl_CreateContext, create_object, check_err.
  run. rewrite (ltb_nonneg _ Hctx). run. rewrite (ltb_nonneg _ Hctx). run.
  rewrite (bind_Ret _ _ _ _ _ (build_program_ok env _ _ _ _ _ _ _ _ _ Hfile Hprg Hb)).
  unfold cl_CreateCommandQueueWithProperties, create_object.
  run. rewrite (ltb_neg _ Hq). run. rewrite (ltb_neg _ Hq). run.
  eexists. split; [reflexivity|]. cbn [fst]. rewrite !trace_logs.
  by rewrite <- !app_assoc.
Qed.

Lemma setup_kernel_fails filename kernelname src h f m a n :
  reaches_build env filename src → 0 ≤ st_build env → 0 ≤ st_queue env →
  st_kernel env < 0 →
  ∃ s', setup_openCL_device_context_queue_kernel env filename kernelname
          (h, {| vars := f; device := {| mem := m; kargs := a; fresh := n |} |}) = Exit 1 s' ∧
        trace s'.1 = trace h ++ device_calls env ++
                     [Call (clCreateContext (selected_device env)) (st_context env)] ++
                     build_calls env n src (n + 1) ++
                     [Call (clCreateCommandQueueWithProperties n (selected_device env))
                           (st_queue env);
                      Call (clCreateKernel (n + 1) kernelname) (st_kernel env);
                      Stderr "Couldn't create a kernel"].
Proof.
  intros (Hdev & Hctx & Hfile & Hprg) Hb Hq Hk.
  unfold setup_openCL_device_context_queue_kernel.
  destruct (create_device_found env h f {| mem := m; kargs := a; fresh := n |} Hdev)
    as (f1 & Hcd & _ & _).
  run. rewrite (bind_Ret _ _ _ _ _ Hcd).
  unfold cl_CreateContext, create_object, check_err.
  run. rewrite (ltb_nonneg _ Hctx). run. rewrite (ltb_nonneg _ Hctx). run.
  rewrite (bind_Ret _ _ _ _ _ (build_program_ok env _ _ _ _ _ _ _ _ _ Hfile Hprg Hb)).
  unfold cl_CreateCommandQueueWithProperties, cl_CreateKernel, create_object.
  run. rewrite (ltb_nonneg _ Hq). run. rewrite (ltb_nonneg _ Hq). run.
  rewrite (ltb_neg _ Hk). run. rewrite (ltb_neg _ Hk). run.
  eexists. split; [reflexivity|]. cbn [fst]. rewrite !trace_logs.
  by rewrite <- !app_assoc.
Qed.
End Setup_failures.

(** X12.  Each creation call of the set-up that fails ends the process
    with exit status 1 and its own diagnostic on the standard error
    stream, written right after the failed call, with no further call:
    the context, the program object, the command queue and the kernel,
    in this order of precedence; so does a platform that cannot be
    identified. *)
Theorem X12_setup_diagnostics env filename kernelname src (h : host) f m a n :
  let s := {| OpenCL.vars := f;
              OpenCL.device := {| OpenCL.mem := m; OpenCL.kargs := a; OpenCL.fresh := n |} |} in
  let o := OpenCL.setup_openCL_device_context_queue_kernel env filename kernelname (h, s) in
  let ends_with t := ∃ s', o = Exit 1 s' ∧ trace s'.1 = trace h ++ t in
  let ctx_call := Call (clCreateContext (selected_device env)) (OpenCL.st_context env) in
  let queue_call := Call (clCreateCommandQueueWithProperties n (selected_device env))
                         (OpenCL.st_queue env) in
  (OpenCL.st_platform env < 0 →
     ends_with [Call clGetPlatformIDs (OpenCL.st_platform env);
                Stderr "Couldn't identify a platform"]) ∧
  (device_found env → OpenCL.st_context env < 0 →
     ends_with (device_calls env ++ [ctx_call; Stderr "Couldn't create a context"])) ∧
  (device_found env → 0 ≤ OpenCL.st_context env → reads env filename src →
   OpenCL.st_program env < 0 →
     ends_with (device_calls env ++
                [ctx_call; Call (clCreateProgramWithSource n src) (OpenCL.st_program env);
                 Stderr "Couldn't create the program"])) ∧
  (reaches_build env filename src → 0 ≤ OpenCL.st_build env → OpenCL.st_queue env < 0 →
     ends_with (device_calls env ++ [ctx_call] ++ build_calls env n src (n + 1) ++
                [queue_call; Stderr "Couldn't create a command queue"])) ∧
  (reaches_build env filename src → 0 ≤ OpenCL.st_build env → 0 ≤ OpenCL.st_queue env →
   OpenCL.st_kernel env < 0 →
     ends_with (device_calls env ++ [ctx_call] ++ build_calls env n src (n + 1) ++
                [queue_call; Call (clCreateKernel (n + 1) kernelname) (OpenCL.st_kernel env);
                 Stderr "Couldn't create a kernel"])).
Proof.
  intros s o ends_with ctx_call queue_call. unfold ends_with, o, s.
  split; [|split; [|split; [|split]]].
  - apply setup_no_platform.
  - apply setup_context_fails.
  - intros Hd Hc Hf Hp.
    destruct (setup_program_fails env filename kernelname src h f
                {| OpenCL.mem := m; OpenCL.kargs := a; OpenCL.fresh := n |} Hd Hc Hf Hp)
      as (s' & Hrun & Htr).
    by exists s'.
  - apply setup_queue_fails.
  - apply setup_kernel_fails.
Qed.

(** X13.  When the kernel source file cannot be opened, the set-up ends
    the process with exit status 1 after the diagnostic [Couldn't find
    the program file]: the device and the context exist by then, and no
    program object is created and nothing is built. *)
Theorem X13_missing_kernel_file env filename kernelname (h : host) (s : OpenCL.state) :
  device_found env → 0 ≤ OpenCL.st_context env → OpenCL.file env filename = None →
  ∃ s', OpenCL.setup_openCL_device_context_queue_kernel env filename kernelname (h, s)
          = Exit 1 s' ∧
        trace s'.1 = trace h ++ device_calls env ++
                     [Call (clCreateContext (selected_device env)) (OpenCL.st_context env);
                      Stderr "Couldn't find the program file"].
Proof. intros Hd Hc Hf. destruct s as [f r]. by apply setup_no_file. Qed.

(** ** The OpenCL program when it ends the process *)

Section Exits.
Context `{Platform}.
Import OpenCL.

Lemma setup_obs_quiet e : setup_obs e → releases e = None ∧ ¬ allocates_buffer e.
Proof.
  intros He. split.
  - destruct e as [| | |c st]; try done. by destruct c.
  - intros (ctx & bytes & st & ->). done.
Qed.

Lemma stdout_quiet e : (∃ text, e = Stdout text) → releases e = None ∧ ¬ allocates_buffer e.
Proof. intros [text ->]. split; [done|]. by intros (ctx & bytes & st & ?). Qed.

(** [main] up to the set-up: the vectors are made and the inputs are
    printed, on every platform. *)
Lemma main_to_setup env argv :
  ∃ p1 p2 p3 h f,
    three_vectors (cli_size argv) host0 h p1 p2 p3 ∧
    f SZ = cli_size argv ∧ f v1 = p1 ∧ f v2 = p2 ∧ f v_out = p3 ∧
    main env argv (host0, state0) =
      (setup_openCL_device_context_queue_kernel env kernel_file kernel_name ;;
       main_device env (size_t (cli_size argv)) ;; main_results ;; free_memory ;; ret 0)
        (logs (ocl_inputs (init_values 0 (cli_size argv))
                          (init_values (Z.to_nat (cli_size argv)) (cli_size argv))) h,
         {| vars := f; device := device state0 |}).
Proof.
  destruct (ocl_main_setup_spec argv)
    as (p1 & p2 & p3 & h & f & Hsetup & Hv & HN & H1 & H2 & H3 & Hz).
  exists p1, p2, p3, h, f. do 5 (split; [done|]).
  unfold main. rewrite (bind_Ret _ _ _ _ _ Hsetup).
  by rewrite (bind_Ret _ _ _ _ _ (main_inputs_spec _ _ _ _ _ _ _ _ Hv HN H1 H2)).
Qed.
End Exits.

(** X14.  The OpenCL program ends the process only from the set-up of
    the session and only with exit status 1, and it then releases
    nothing: no release call has been made, no device buffer has been
    created, and the three host vectors are still allocated, on every
    platform and for every command line. *)
Theorem X14_exit_releases_nothing `{Platform} env (argv : list string) c s' :
  OpenCL.main env argv (host0, OpenCL.state0) = Exit c s' →
  c = 1 ∧
  Forall (λ e, releases e = None ∧ ¬ allocates_buffer e) (trace s'.1) ∧
  OpenCL.mem (OpenCL.device s'.2) = ∅ ∧
  ∃ h, three_vectors (cli_size argv) host0 h
         (OpenCL.vars s'.2 OpenCL.v1) (OpenCL.vars s'.2 OpenCL.v2)
         (OpenCL.vars s'.2 OpenCL.v_out) ∧
       heap s'.1 = heap h ∧ blocks s'.1 = blocks h.
Proof.
  intros Hexit.
  destruct (main_to_setup env argv) as (p1 & p2 & p3 & h & f & Hv & HN & H1 & H2 & H3 & Hmain).
  rewrite Hmain in Hexit. clear Hmain.
  set (h1 := logs _ h) in Hexit. set (s1 := {| OpenCL.vars := f; OpenCL.device := _ |}) in Hexit.
  pose proof (triple_setup env h1 s1 kernel_file kernel_name (h1, s1) (setup_inv_start h1 s1))
    as Ht.
  unfold bind at 1 in Hexit.
  destruct (OpenCL.setup_openCL_device_context_queue_kernel env kernel_file kernel_name (h1, s1))
    as [[] s2|c2 s2|s2]; [| |done].
  - destruct Ht as [_ Herr].
    by destruct (proj2 (later_failures_not_fatal env (OpenCL.size_t (cli_size argv)))
                   s2 Herr c s').
  - inversion Hexit; subst c2 s2; clear Hexit.
    destruct Ht as (-> & Hheap & Hbl & _ & _ & (t & Htr & Hq) & Hmem & _ & Hvars).
    split; [done|]. split; [|split; [done|]].
    + rewrite Htr. apply Forall_app. split.
      * unfold h1. rewrite trace_logs.
        destruct Hv as (_ & -> & _). change (trace host0) with (@nil obs).
        rewrite app_nil_l.
        eapply Forall_impl; [apply ocl_inputs_stdout|]. apply stdout_quiet.
      * eapply Forall_impl; [exact Hq|]. apply setup_obs_quiet.
    + exists h. rewrite !Hvars by in_list. simpl. rewrite H1, H2, H3. done.
Qed.

(** ** Device buffers and kernel arguments, on every platform *)

Section Device_memory.
Import OpenCL.
Variable env : cl_env.

Lemma create_buffer_any buf h f m a n :
  ∃ b r, create_buffer env buf
           (h, {| vars := f; device := {| mem := m; kargs := a; fresh := n |} |}) =
         Ret tt (logs [Call (clCreateBuffer (f context) (size_t (f SZ * sizeof_int)))
                            (buffer_status env (st_buffer env buf)
                               (size_t (f SZ * sizeof_int)))] h,
                 {| vars := <[buf := b]> f; device := r |}).
Proof.
  unfold create_buffer, cl_CreateBuffer, buffer_status. run.
  match goal with |- context [if ?c <? 0 then _ else _] => destruct (c <? 0) end;
    run; by eexists _, _.
Qed.

(** The handle that [create_buffer] stores: the next object handle when
    the buffer is created, [NULL] when it is not. *)
Lemma create_buffer_handle buf h f m a n :
  let st := buffer_status env (st_buffer env buf) (size_t (f SZ * sizeof_int)) in
  ∃ m', create_buffer env buf
          (h, {| vars := f; device := {| mem := m; kargs := a; fresh := n |} |}) =
        Ret tt (logs [Call (clCreateBuffer (f context) (size_t (f SZ * sizeof_int))) st] h,
                {| vars := <[buf := if st <? 0 then NULL else n]> f;
                   device := {| mem := m'; kargs := a;
                                fresh := if st <? 0 then n else n + 1 |} |}).
Proof.
  intros st. subst st. unfold create_buffer, cl_CreateBuffer, buffer_status. run.
  match goal with |- context [if ?c <? 0 then _ else _] => destruct (c <? 0) end;
    run; by eexists.
Qed.

(** An upload is one call into the buffer whose handle the global
    [buf] holds, whether it succeeds, fails or reads host cells that are
    not allocated; it assigns no global and does not end the process. *)
Lemma write_buffer_call buf v h f r :
  let o := write_buffer env buf v (h, {| vars := f; device := r |}) in
  (∃ st, trace (final_state o).1 =
           trace h ++ [Call (clEnqueueWriteBuffer (f queue) (f buf)
                               (size_t (f SZ * sizeof_int))) st]) ∧
  vars (final_state o).2 = f ∧
  (∀ c s', o ≠ Exit c s').
Proof.
  destruct r as [m a n]. unfold write_buffer, cl_EnqueueWriteBuffer. run.
  match goal with |- context [if ?c <? 0 then _ else _] => destruct (c <? 0) end.
  - run. unfold ret. simpl. split; [by eexists|]. done.
  - unfold bind.
    destruct (read_array (heap (logs _ h)) (f v) _), (m !! f buf); simpl;
      (split; [by eexists|]); done.
Qed.
End Device_memory.

(** X15.  [setup_kernel_memory], on every platform and from every state:
    it asks for the three device buffers first, all in the current
    context and all of the same size, [SZ * sizeof(int)] bytes as a
    [size_t], and only then uploads, with that same size: first into the
    buffer whose handle it stored in [bufV1], then, unless the first
    upload was undefined, into the one stored in [bufV2], and both when
    it returns.  The output buffer is not uploaded: when it is created
    (and object handles are not [NULL]), its handle is neither of the
    two targets.  The function never ends the process, whatever the
    calls return. *)
Theorem X15_three_buffers_of_one_size env (h : host) (s : OpenCL.state) :
  let o := OpenCL.setup_kernel_memory env (h, s) in
  let ctx := OpenCL.vars s OpenCL.context in
  let bytes := OpenCL.size_t (OpenCL.vars s OpenCL.SZ * OpenCL.sizeof_int) in
  let created buf :=
    Call (clCreateBuffer ctx bytes) (buffer_status env (OpenCL.st_buffer env buf) bytes) in
  let handle buf := OpenCL.vars (final_state o).2 buf in
  let upload buf st :=
    Call (clEnqueueWriteBuffer (OpenCL.vars s OpenCL.queue) (handle buf) bytes) st in
  (∃ st1 st2 t,
     trace (final_state o).1 =
       trace h ++ [created OpenCL.bufV1; created OpenCL.bufV2; created OpenCL.bufV_out] ++ t ∧
     (t = [upload OpenCL.bufV1 st1] ∨
      t = [upload OpenCL.bufV1 st1; upload OpenCL.bufV2 st2]) ∧
     (∀ s', o = Ret tt s' → t = [upload OpenCL.bufV1 st1; upload OpenCL.bufV2 st2])) ∧
  (0 < OpenCL.fresh (OpenCL.device s) →
   0 ≤ buffer_status env (OpenCL.st_buffer env OpenCL.bufV_out) bytes →
     handle OpenCL.bufV_out ≠ NULL ∧
     handle OpenCL.bufV_out ≠ handle OpenCL.bufV1 ∧
     handle OpenCL.bufV_out ≠ handle OpenCL.bufV2) ∧
  (∀ c s', o ≠ Exit c s').
Proof.
  intros o ctx bytes created handle upload. destruct s as [f [m a n]].
  cbn [OpenCL.vars OpenCL.device OpenCL.fresh] in *.
  subst upload handle o. unfold OpenCL.setup_kernel_memory.
  destruct (create_buffer_handle env OpenCL.bufV1 h f m a n) as (m1 & E1).
  rewrite (bind_Ret _ _ _ _ _ E1). clear E1.
  fold ctx bytes. set (st1 := buffer_status env (OpenCL.st_buffer env OpenCL.bufV1) bytes).
  set (b1 := if st1 <? 0 then NULL else n). set (n1 := if st1 <? 0 then n else n + 1).
  destruct (create_buffer_handle env OpenCL.bufV2 (logs [created OpenCL.bufV1] h)
              (<[OpenCL.bufV1 := b1]> f) m1 a n1) as (m2 & E2).
  rewrite !var_insert_ne in E2 by discriminate. fold ctx bytes in E2.
  rewrite (bind_Ret _ _ _ _ _ E2). clear E2.
  set (st2 := buffer_status env (OpenCL.st_buffer env OpenCL.bufV2) bytes).
  set (b2 := if st2 <? 0 then NULL else n1). set (n2 := if st2 <? 0 then n1 else n1 + 1).
  match goal with |- context [bind _ _ (?h3, {| OpenCL.vars := ?f3; OpenCL.device := _ |})] =>
    destruct (create_buffer_handle env OpenCL.bufV_out h3 f3 m2 a n2) as (m3 & E3)
  end.
  rewrite !var_insert_ne in E3 by discriminate. fold ctx bytes in E3.
  rewrite (bind_Ret _ _ _ _ _ E3). clear E3.
  set (st3 := buffer_status env (OpenCL.st_buffer env OpenCL.bufV_out) bytes).
  set (b3 := if st3 <? 0 then NULL else n2).
  rewrite !logs_logs. simpl app.
  set (h3 := logs _ h). set (f3 := <[OpenCL.bufV_out := b3]> _).
  set (r3 := {| OpenCL.mem := m3; OpenCL.kargs := a; OpenCL.fresh := _ |}).
  assert (f3 OpenCL.SZ = f OpenCL.SZ ∧ f3 OpenCL.queue = f OpenCL.queue ∧
          f3 OpenCL.bufV1 = b1 ∧ f3 OpenCL.bufV2 = b2 ∧ f3 OpenCL.bufV_out = b3)
    as (HSZ & Hq & Hb1 & Hb2 & Hb3).
  { unfold f3. by repeat (rewrite var_insert_eq || rewrite var_insert_ne by discriminate). }
  assert (0 < n → 0 ≤ st3 → b3 ≠ NULL ∧ b3 ≠ b1 ∧ b3 ≠ b2) as Hfresh.
  { intros Hn H3. unfold b3, b2, n2, b1, n1, NULL.
    rewrite (ltb_nonneg _ H3). destruct (st1 <? 0), (st2 <? 0); lia. }
  destruct (write_buffer_call env OpenCL.bufV1 OpenCL.v1 h3 f3 r3) as ([st4 Ht4] & Hv4 & Hne4).
  rewrite HSZ, Hq, Hb1 in Ht4. fold bytes in Ht4.
  unfold bind.
  destruct (OpenCL.write_buffer env OpenCL.bufV1 OpenCL.v1 (h3, _)) as [[] [h4 s4]|c4 s4|s4] eqn:W1.
  - cbn [final_state fst snd] in Hv4, Ht4. destruct s4 as [f4 r4]. cbn [OpenCL.vars] in Hv4.
    subst f4.
    destruct (write_buffer_call env OpenCL.bufV2 OpenCL.v2 h4 f3 r4) as ([st5 Ht5] & Hv5 & Hne5).
    rewrite HSZ, Hq, Hb2 in Ht5. fold bytes in Ht5. rewrite Hv5, Hb1, Hb2, Hb3.
    split; [|split; [exact Hfresh|exact Hne5]].
    exists st4, st5. eexists. rewrite Ht5, Ht4. unfold h3.
    rewrite ?trace_logs, <- !app_assoc.
    split; [reflexivity|]. split; [by right|done].
  - by destruct (Hne4 c4 s4).
  - cbn [final_state fst snd] in Hv4, Ht4 |- *. rewrite Hv4, Hb1, Hb2, Hb3.
    split; [|split; [exact Hfresh|done]].
    exists st4, 0. eexists. rewrite Ht4. unfold h3. rewrite ?trace_logs, <- !app_assoc.
    split; [reflexivity|]. split; [by left|done].
Qed.

Section Kernel_args_more.
Import OpenCL.
Variable env : cl_env.

(** [copy_kernel_args] when [err] is negative on entry: the four calls
    are made all the same, and the stale status then ends the process. *)
Lemma copy_kernel_args_stale h f m a n :
  f err < 0 →
  copy_kernel_args env
      (h, {| vars := f; device := {| mem := m; kargs := a; fresh := n |} |}) =
    Exit 1 (logs (setarg_calls env (f kernel) ++ [Stderr "Couldn't set kernel arguments"]) h,
            {| vars := f;
               device := {| mem := m; kargs := args_after env f a; fresh := n |} |}).
Proof.
  intros Herr. unfold copy_kernel_args, check_err.
  rewrite (bind_Ret _ _ _ _ _ (set_kernel_arg_eq env _ _ _ _ _ _ _)).
  rewrite (bind_Ret _ _ _ _ _ (set_kernel_arg_eq env _ _ _ _ _ _ _)).
  rewrite (bind_Ret _ _ _ _ _ (set_kernel_arg_eq env _ _ _ _ _ _ _)).
  rewrite (bind_Ret _ _ _ _ _ (set_kernel_arg_eq env _ _ _ _ _ _ _)).
  run. rewrite (ltb_neg _ Herr). run. reflexivity.
Qed.

Lemma args_after_lookup f (a : gmap Z Z) i v :
  (i, v) ∈ [(0, f SZ); (1, f bufV1); (2, f bufV2); (3, f bufV_out)] →
  args_after env f a !! i = if st_setarg env i <? 0 then a !! i else Some v.
Proof.
  intros Hi. apply list_elem_of_In in Hi. simpl in Hi.
  unfold args_after, bind_arg.
  destruct Hi as [Hi|[Hi|[Hi|[Hi|[]]]]]; inversion Hi; subst i v; clear Hi;
    destruct (st_setarg env 0 <? 0), (st_setarg env 1 <? 0),
             (st_setarg env 2 <? 0), (st_setarg env 3 <? 0);
    by rewrite ?lookup_insert_eq, ?lookup_insert_ne, ?lookup_insert_eq by lia.
Qed.
End Kernel_args_more.

(** X16.  [copy_kernel_args], on every platform: it always makes the
    four [clSetKernelArg] calls, for the arguments 0 to 3 in this order,
    with [SZ], [bufV1], [bufV2] and [bufV_out]; each call that succeeds
    binds its argument and one that fails leaves its argument as it was,
    without touching the others.  Only then does it look at [err], which
    none of these calls has assigned: it returns when [err] is not
    negative, and otherwise writes its diagnostic and ends the process
    with exit status 1. *)
Theorem X16_kernel_arguments_in_order env (h : host) f m a n :
  let s := {| OpenCL.vars := f;
              OpenCL.device := {| OpenCL.mem := m; OpenCL.kargs := a; OpenCL.fresh := n |} |} in
  let s' := {| OpenCL.vars := f;
               OpenCL.device := {| OpenCL.mem := m; OpenCL.kargs := args_after env f a;
                                   OpenCL.fresh := n |} |} in
  let calls := [Call (clSetKernelArg (f OpenCL.kernel) 0) (OpenCL.st_setarg env 0);
                Call (clSetKernelArg (f OpenCL.kernel) 1) (OpenCL.st_setarg env 1);
                Call (clSetKernelArg (f OpenCL.kernel) 2) (OpenCL.st_setarg env 2);
                Call (clSetKernelArg (f OpenCL.kernel) 3) (OpenCL.st_setarg env 3)] in
  (0 ≤ f OpenCL.err → OpenCL.copy_kernel_args env (h, s) = Ret tt (logs calls h, s')) ∧
  (f OpenCL.err < 0 →
     OpenCL.copy_kernel_args env (h, s) =
       Exit 1 (logs (calls ++ [Stderr "Couldn't set kernel arguments"]) h, s')) ∧
  (∀ i v, (i, v) ∈ [(0, f OpenCL.SZ); (1, f OpenCL.bufV1);
                    (2, f OpenCL.bufV2); (3, f OpenCL.bufV_out)] →
          args_after env f a !! i =
            if OpenCL.st_setarg env i <? 0 then a !! i else Some v).
Proof.
  intros s s' calls. split; [|split].
  - apply copy_kernel_args_eq.
  - apply copy_kernel_args_stale.
  - apply args_after_lookup.
Qed.

(** ** The host side of the device path, on every platform *)

Section Host_kept.
Import OpenCL.
Variable env : cl_env.
Variable W : Z → Prop.
Variable allowed : obs → Prop.
Variable h0 : host.
Variable s0 : state.

Abbreviation HI := (host_kept W allowed h0 s0).
Abbreviation HE := (λ (c : Z) (s : host * state), c = 1 ∧ host_kept W allowed h0 s0 s).

Lemma host_kept_start : HI (h0, s0).
Proof.
  unfold host_kept. simpl. repeat split; try done.
  exists []. by rewrite app_nil_r.
Qed.

Lemma host_kept_log e h s : allowed e → HI (h, s) → HI (log e h, s).
Proof.
  intros He (H1 & H2 & H3 & H4 & H5 & (t & Ht & Hq) & H7).
  unfold host_kept. simpl in *. repeat split; try done; try apply H2.
  exists (t ++ [e]). rewrite Ht, app_assoc. split; [done|].
  apply Forall_app. split; [done|]. by constructor.
Qed.

Lemma host_kept_set x v h s :
  x ∈ [bufV1; bufV2; bufV_out; event] →
  HI (h, s) → HI (h, {| vars := <[x := v]> (vars s); device := device s |}).
Proof.
  intros Hx (H1 & H2 & H3 & H4 & H5 & H6 & H7).
  unfold host_kept. simpl in *. repeat split; try done; try apply H2.
  intros y Hy. rewrite var_insert_ne; [by apply H7|].
  intros ->. apply list_elem_of_In in Hx, Hy. simpl in Hx, Hy.
  intuition congruence.
Qed.

Lemma host_kept_device r h s : HI (h, s) → HI (h, {| vars := vars s; device := r |}).
Proof. intros (H1 & H2 & H3 & H4 & H5 & H6 & H7). by unfold host_kept. Qed.

Lemma host_kept_var x h s :
  x ∈ [SZ; v1; v2; v_out; device_id; context; program; queue; kernel; err] →
  HI (h, s) → vars s x = vars s0 x.
Proof. intros Hx (_ & _ & _ & _ & _ & _ & H7). by apply H7. Qed.

(** [p[i] = v] on a cell of [W]. *)
Lemma triple_set_elem p i v :
  W (p + i) → triple HI (on_host (set_elem p i v)) (λ _, HI) HE HI.
Proof.
  intros Hw [h s] Hs. unfold on_host, set_elem, store.
  destruct (heap h !! (p + i)) as [x|] eqn:Hx; [|done].
  destruct Hs as (H1 & H2 & H3 & H4 & H5 & H6 & H7).
  unfold host_kept. simpl in *.
  split; [|split; [|done]].
  - intros q Hq. rewrite lookup_insert_ne; [by apply H1|]. by intros <-.
  - intros q. rewrite <- H2. destruct (decide (q = p + i)) as [->|Hne].
    + rewrite lookup_insert_eq, Hx. split; by eexists.
    + by rewrite lookup_insert_ne.
Qed.

Lemma triple_crash {A} : triple HI (crash (A := A)) (λ _, HI) HE HI.
Proof. by intros s Hs. Qed.

Lemma triple_new_handle_kept : triple HI new_handle (λ _, HI) HE HI.
Proof.
  intros [h [f r]] Hs. unfold new_handle, bind, get_rt, set_rt, ret.
  by apply (host_kept_device _ h {| vars := f; device := r |}).
Qed.

Lemma triple_write_kept st q buf bytes ptr :
  (∀ c st', allowed (Call c st')) →
  triple HI (cl_EnqueueWriteBuffer st q buf bytes ptr) (λ _, HI) HE HI.
Proof.
  intros Hall. unfold cl_EnqueueWriteBuffer.
  apply triple_bind_inv; [apply triple_get_rt|intros r].
  apply triple_bind_inv; [apply triple_api; intros h s; by apply host_kept_log|intros _].
  match goal with |- context [if ?b then _ else _] => destruct b end;
    [by apply triple_ret|].
  intros [h s] Hs.
  destruct (read_array (heap h) ptr (bytes `div` sizeof_int)), (mem r !! buf); done.
Qed.

Lemma triple_check_err_kept msg :
  allowed (Stderr msg) → triple HI (check_err msg) (λ _, HI) HE HI.
Proof.
  intros Hall [h s] Hs. unfold check_err, bind, get.
  destruct (vars s err <? 0).
  - unfold on_host, perror, exit. split; [done|]. by apply host_kept_log.
  - done.
Qed.

Hypothesis calls_allowed : ∀ c st, allowed (Call c st).
Hypothesis stderr_allowed : ∀ msg, allowed (Stderr msg).

Ltac kept :=
  repeat first
    [ apply triple_check_err_kept; apply stderr_allowed
    | apply triple_new_handle_kept
    | apply triple_write_kept; apply calls_allowed
    | apply triple_crash
    | apply triple_get | apply triple_get_rt
    | apply triple_set; intros ? ?; apply host_kept_set; in_list
    | apply triple_set_rt; intros ? ?; apply host_kept_device
    | apply triple_api; intros ? ?; apply host_kept_log; apply calls_allowed
    | apply triple_ret; intros ? ?; assumption
    | apply triple_bind_inv
    | match goal with
      | |- ∀ _, _ => intro
      | |- triple _ (if ?b then _ else _) _ _ _ => destruct b
      | |- triple _ (match ?x with _ => _ end) _ _ _ => destruct x
      end ].

Lemma triple_setup_kernel_memory :
  triple HI (setup_kernel_memory env) (λ _, HI) HE HI.
Proof.
  unfold setup_kernel_memory, create_buffer, write_buffer, cl_CreateBuffer. kept.
Qed.

Lemma triple_copy_kernel_args :
  triple HI (copy_kernel_args env) (λ _, HI) HE HI.
Proof. unfold copy_kernel_args, set_kernel_arg, cl_SetKernelArg. kept. Qed.

Lemma triple_read_buffer q b bytes ptr :
  (∀ i, 0 ≤ i < bytes `div` sizeof_int → W (ptr + i)) →
  triple HI (cl_EnqueueReadBuffer env q b bytes ptr) (λ _, HI) HE HI.
Proof.
  intros Hw. unfold cl_EnqueueReadBuffer.
  apply triple_bind_inv; [apply triple_get_rt|intros r].
  apply triple_bind_inv; [apply triple_api; intros h s; by apply host_kept_log|intros _].
  match goal with |- context [if ?c <? 0 then _ else _] => destruct (c <? 0) end;
    [by apply triple_ret|].
  destruct (mem r !! b) as [cells|]; [|apply triple_crash].
  apply triple_bind_inv; [|intros _; by apply triple_ret].
  apply triple_for_. intros i Hi%elem_of_seqZ.
  apply triple_set_elem. apply Hw. lia.
Qed.

(** The device path writes host cells only through the read-back, at
    [v_out], and otherwise leaves the host as [host_kept] says, however
    it ends. *)
Lemma triple_main_device global :
  (∀ i, 0 ≤ i < size_t (vars s0 SZ * sizeof_int) `div` sizeof_int → W (vars s0 v_out + i)) →
  triple HI (main_device env global) (λ _, HI) HE HI.
Proof.
  intros Hw. unfold main_device.
  apply triple_bind_inv; [apply triple_setup_kernel_memory|intros _].
  apply triple_bind_inv; [apply triple_copy_kernel_args|intros _].
  apply triple_bind_inv.
  { unfold cl_EnqueueNDRangeKernel. kept. }
  intros _. apply triple_bind_inv.
  { unfold cl_WaitForEvents. kept. }
  intros _. apply triple_bind_inv; [|intros _; by apply triple_ret].
  apply triple_bind_inv; [apply triple_get|intros q].
  apply triple_bind_inv; [apply triple_get|intros b].
  apply (triple_bind_get _ _ _ SZ (vars s0 SZ)).
  { intros [h s] Hs. apply (host_kept_var SZ h s); [in_list|done]. }
  apply (triple_bind_get _ _ _ v_out (vars s0 v_out)).
  { intros [h s] Hs. apply (host_kept_var v_out h s); [in_list|done]. }
  by apply triple_read_buffer.
Qed.
End Host_kept.

(** X17.  The device path of [main] (the buffers, the kernel arguments,
    the launch, the wait and the read-back), on every platform and
    whatever the calls return: for a vector length that is a
    non-negative [int] it writes no host cell outside [v_out[0..SZ)], so
    the input vectors on the host stay as they were; it allocates and
    frees no host cell, does not call [rand], prints nothing on the
    standard output and assigns none of [SZ], [v1], [v2], [v_out], the
    session handles and [err]; if it ends the process, then with exit
    status 1. *)
Theorem X17_device_path_host_frame env global N (h : host) (s : OpenCL.state) :
  OpenCL.vars s OpenCL.SZ = N → 0 ≤ N ≤ INT_MAX →
  let o := OpenCL.main_device env global (h, s) in
  host_kept (in_array (OpenCL.vars s OpenCL.v_out) N) device_obs h s (final_state o) ∧
  (∀ c s', o = Exit c s' → c = 1).
Proof.
  intros HN Hr o.
  pose proof (triple_main_device env (in_array (OpenCL.vars s OpenCL.v_out) N) device_obs h s
                (λ _ _, Logic.I) (λ _, Logic.I) global) as Ht.
  specialize (Ht ltac:(
    intros i Hi; rewrite HN in Hi; unfold OpenCL.size_t, OpenCL.sizeof_int, INT_MAX in *;
    rewrite Z.mod_small in Hi by lia; rewrite Z.div_mul in Hi by lia;
    unfold in_array; lia)).
  specialize (Ht (h, s) (host_kept_start _ _ _ _)). fold o in Ht.
  destruct o as [[] s'|c s'|s']; simpl.
  - split; [done|]. intros ? ? [=].
  - destruct Ht as [-> Ht]. split; [done|]. by intros ? ? [= <- _].
  - split; [done|]. intros ? ? [=].
Qed.

(** ** The OpenCL program when it returns *)

Section Returns.
Context `{Platform}.
Import OpenCL.

Abbreviation any_cell := (λ _ : Z, True).
Abbreviation any_obs := (λ _ : obs, True).

(** [print] changes nothing on the host but the trace. *)
Lemma preserves_print h0 s0 s A size :
  preserves (λ h, host_kept any_cell any_obs h0 s0 (h, s)) (print A size).
Proof.
  assert (∀ text, preserves (λ h, host_kept any_cell any_obs h0 s0 (h, s)) (printf text)) as Hp.
  { intros text h Hh. by apply (host_kept_log any_cell any_obs h0 s0 (Stdout text) h s). }
  assert (∀ idxs, preserves (λ h, host_kept any_cell any_obs h0 s0 (h, s))
            (for_ idxs (λ i, x <- get_elem A i ;; printf (fmt_d x)))) as Hloop.
  { intros idxs. apply preserves_for_. intros i. apply preserves_bind; [|intros x; apply Hp].
    intros h Hh. unfold get_elem. by destruct (load (heap h) A i). }
  unfold print, PRINT, for_range.
  change (1 =? 0) with false. change (1 =? 1) with true. cbn [andb].
  apply preserves_bind; [|intros _; apply Hp].
  destruct (15 <? size); [|apply Hloop].
  apply preserves_bind; [apply Hloop|intros _].
  apply preserves_bind; [apply Hp|intros _]. apply Hloop.
Qed.

Lemma triple_on_host_kept h0 s0 {A} (m : M host A) :
  (∀ s, preserves (λ h, host_kept any_cell any_obs h0 s0 (h, s)) m) →
  no_exit any_host m →
  triple (host_kept any_cell any_obs h0 s0) (on_host m) (λ _, host_kept any_cell any_obs h0 s0)
    (λ c s, c = 1 ∧ host_kept any_cell any_obs h0 s0 s) (host_kept any_cell any_obs h0 s0).
Proof.
  intros Hp Hne [h s] Hs. unfold on_host. specialize (Hp s h Hs).
  destruct (m h) as [a h1|c h1|h1] eqn:Hm; [done| |done].
  by destruct (Hne h Logic.I c h1).
Qed.

Lemma triple_main_results h0 s0 :
  triple (host_kept any_cell any_obs h0 s0) main_results (λ _, host_kept any_cell any_obs h0 s0)
    (λ c s, c = 1 ∧ host_kept any_cell any_obs h0 s0 s) (host_kept any_cell any_obs h0 s0).
Proof.
  unfold main_results.
  apply triple_bind_inv;
    [apply triple_printf; intros h s; by apply host_kept_log|intros _].
  apply triple_bind_inv.
  { apply triple_bind_inv; [apply triple_get|intros p].
    apply triple_bind_inv; [apply triple_get|intros n].
    apply triple_on_host_kept; [intros s; apply preserves_print|apply no_exit_print]. }
  intros _. intros [h s] Hs. unfold on_host, printf_ms.
  by apply host_kept_log.
Qed.

(** The vectors of the OpenCL program, with the cells and the blocks
    that exist once they are made. *)
Lemma ocl_main_setup_cells argv :
  let N := cli_size argv in
  ∃ p1 p2 p3 h f,
    main_setup argv (host0, state0) = Ret tt (h, {| vars := f; device := device state0 |}) ∧
    three_vectors N host0 h p1 p2 p3 ∧
    f SZ = N ∧ f v1 = p1 ∧ f v2 = p2 ∧ f v_out = p3 ∧
    (∀ a, is_Some (heap h !! a) ↔ in_array p1 N a ∨ in_array p2 N a ∨ in_array p3 N a) ∧
    blocks h = (if decide (N < 0) then ∅
                else <[p3 := N]> (<[p2 := N]> (<[p1 := N]> ∅))).
Proof.
  intros N.
  destruct (ocl_main_setup_spec argv)
    as (p1 & p2 & p3 & h & f & Hsetup & Hv & HN & H1 & H2 & H3 & _).
  exists p1, p2, p3, h, f. do 6 (split; [done|]).
  destruct (init3_cells N host0 wf_host0)
    as (q1 & q2 & q3 & k1 & k2 & k3 & E1 & E2 & E3 & _ & Hdom & Hbl).
  assert (∃ g, main_setup argv (host0, state0) = Ret tt (k3, g) ∧
               vars g v1 = q1 ∧ vars g v2 = q2 ∧ vars g v_out = q3) as (g & Hk & G1 & G2 & G3).
  { unfold main_setup, state0.
    destruct (1 <? Z.of_nat (length argv)) eqn:Hargc; eexists.
    - assert (atoi (default EmptyString (argv !! 1%nat)) = N) as HN'.
      { unfold N. rewrite <- cli_size_eq. by rewrite Hargc. }
      split.
      + run. rewrite ?HN'. rewrite (bind_on_host _ _ _ _ _ _ E1).
        run. rewrite ?HN'. rewrite (bind_on_host _ _ _ _ _ _ E2).
        run. rewrite ?HN'. rewrite (bind_on_host _ _ _ _ _ _ E3).
        run. reflexivity.
      + cbn [vars]. by repeat (rewrite var_insert_eq || rewrite var_insert_ne by discriminate).
    - assert (100000000 = N) as HN'.
      { unfold N. rewrite <- cli_size_eq. by rewrite Hargc. }
      split.
      + run. change (vars0 SZ) with 100000000. rewrite ?HN'.
        rewrite (bind_on_host _ _ _ _ _ _ E1).
        run. change (vars0 SZ) with 100000000. rewrite ?HN'.
        rewrite (bind_on_host _ _ _ _ _ _ E2).
        run. change (vars0 SZ) with 100000000. rewrite ?HN'.
        rewrite (bind_on_host _ _ _ _ _ _ E3).
        run. reflexivity.
      + cbn [vars]. by repeat (rewrite var_insert_eq || rewrite var_insert_ne by discriminate). }
  rewrite Hsetup in Hk. inversion Hk; subst k3 g. cbn [vars] in G1, G2, G3.
  rewrite H1 in G1. rewrite H2 in G2. rewrite H3 in G3. subst q1 q2 q3.
  split.
  - intros c. rewrite Hdom. change (heap host0) with (∅ : gmap Z Z).
    rewrite lookup_empty. split; [intros [[? ?]|?]; done|by right].
  - exact Hbl.
Qed.
End Returns.

Section Returns_end.
Context `{Platform}.
Import OpenCL.

Lemma delete3_insert3 (p1 p2 p3 N : Z) :
  delete p3 (delete p2 (delete p1 (<[p3 := N]> (<[p2 := N]> (<[p1 := N]> (∅ : gmap Z Z)))))) = ∅.
Proof.
  apply map_eq. intros q. rewrite lookup_empty.
  destruct (decide (q = p3)) as [->|?]; [by rewrite lookup_delete_eq|].
  rewrite lookup_delete_ne by done.
  destruct (decide (q = p2)) as [->|?]; [by rewrite lookup_delete_eq|].
  rewrite lookup_delete_ne by done.
  destruct (decide (q = p1)) as [->|?]; [by rewrite lookup_delete_eq|].
  rewrite lookup_delete_ne by done.
  by rewrite !lookup_insert_ne by done.
Qed.

Lemma host_frees_cells N h0 h p1 p2 p3 h' f r :
  three_vectors N h0 h p1 p2 p3 → blocks h' = blocks h →
  f v1 = p1 → f v2 = p2 → f v_out = p3 →
  ∃ h3, host_frees (h', {| vars := f; device := r |}) =
          Ret tt (h3, {| vars := f; device := r |}) ∧
        rand_calls h3 = rand_calls h' ∧
        (∀ a, heap h3 !! a =
              if decide (in_array p1 N a ∨ in_array p2 N a ∨ in_array p3 N a)
              then None else heap h' !! a) ∧
        blocks h3 = (if decide (N < 0) then blocks h'
                     else delete p3 (delete p2 (delete p1 (blocks h')))).
Proof.
  intros Hv Hbl H1 H2 H3.
  destruct (free3_cells N h0 h p1 p2 p3 h' Hv Hbl) as (h3 & Hfree & _ & Hrc & Hc & Hb).
  exists h3. split; [|done]. unfold host_frees.
  unfold bind in Hfree.
  destruct (free p1 h') as [[] h5| |] eqn:E1; try done.
  destruct (free p2 h5) as [[] h6| |] eqn:E2; try done.
  run. rewrite H1, (bind_on_host _ _ _ _ _ _ E1).
  run. rewrite H2, (bind_on_host _ _ _ _ _ _ E2).
  run. rewrite H3. by apply on_host_Ret.
Qed.
End Returns_end.

(** X18.  Whenever the OpenCL program returns, on any platform and for
    any command line, it returns 0 and has given back all the host
    memory it allocated: no allocated cell and no live block is left,
    and [rand] has been called three times per element. *)
Theorem X18_opencl_return_frees_host `{Platform} env (argv : list string) c s' :
  OpenCL.main env argv (host0, OpenCL.state0) = Ret c s' →
  c = 0 ∧ heap s'.1 = ∅ ∧ blocks s'.1 = ∅ ∧
  rand_calls s'.1 = (3 * Z.to_nat (cli_size argv))%nat.
Proof.
  intros Hret. set (N := cli_size argv).
  destruct (ocl_main_setup_cells argv)
    as (p1 & p2 & p3 & h & f & Hsetup & Hv & HN & H1 & H2 & H3 & Hdom & Hbl).
  fold N in Hv, HN, Hdom, Hbl.
  unfold OpenCL.main in Hret. rewrite (bind_Ret _ _ _ _ _ Hsetup) in Hret.
  rewrite (bind_Ret _ _ _ _ _ (main_inputs_spec _ _ _ _ _ _ _ _ Hv HN H1 H2)) in Hret.
  set (h1 := logs _ h) in Hret.
  set (s1 := {| OpenCL.vars := f; OpenCL.device := _ |}) in Hret.
  apply bind_Ret_inv in Hret as ([] & [h2 g2] & Hset & Hret).
  pose proof (triple_setup env h1 s1 "./vector_ops_ocl.cl" "vector_add_ocl" (h1, s1)
                (setup_inv_start h1 s1)) as Ht.
  rewrite Hset in Ht. destruct Ht as [(Hheap2 & Hbl2 & _ & Hrc2 & _ & _ & _ & Hvars2) _].
  simpl in Hheap2, Hbl2, Hrc2, Hvars2.
  apply bind_Ret_inv in Hret as ([] & s3 & Hdev & Hret).
  pose proof (triple_main_device env (λ _, True) (λ _, True) h2 g2
                (λ _ _, Logic.I) (λ _, Logic.I) (OpenCL.size_t N) (λ _ _, Logic.I)
                (h2, g2) (host_kept_start _ _ _ _)) as Ht.
  rewrite Hdev in Ht.
  apply bind_Ret_inv in Hret as ([] & [h4 g4] & Hres & Hret).
  pose proof (triple_main_results h2 g2 s3 Ht) as Ht4. rewrite Hres in Ht4.
  destruct Ht4 as (_ & Hdom4 & Hbl4 & _ & Hrc4 & _ & Hvars4).
  simpl in Hdom4, Hbl4, Hrc4, Hvars4.
  apply bind_Ret_inv in Hret as ([] & s5 & Hfree & Hret).
  inversion Hret; subst c s5; clear Hret. split; [done|].
  destruct g4 as [f4 [m4 a4 n4]]. simpl in Hvars4. rewrite free_memory_eq in Hfree.
  destruct (host_frees_cells N host0 h p1 p2 p3 (logs (release_calls f4 m4) h4) f4
              {| OpenCL.mem := delete (f4 OpenCL.bufV_out)
                                 (delete (f4 OpenCL.bufV2) (delete (f4 OpenCL.bufV1) m4));
                 OpenCL.kargs := a4; OpenCL.fresh := n4 |} Hv)
    as (h5 & Hfrees & Hrc5 & Hcells & Hbl5).
  { simpl. by rewrite Hbl4, Hbl2. }
  { rewrite (Hvars4 OpenCL.v1), (Hvars2 OpenCL.v1) by in_list. exact H1. }
  { rewrite (Hvars4 OpenCL.v2), (Hvars2 OpenCL.v2) by in_list. exact H2. }
  { rewrite (Hvars4 OpenCL.v_out), (Hvars2 OpenCL.v_out) by in_list. exact H3. }
  rewrite Hfrees in Hfree. inversion Hfree; subst s'; clear Hfree. simpl.
  split; [|split].
  - apply map_eq. intros q. rewrite lookup_empty, Hcells.
    destruct (decide (in_array p1 N q ∨ in_array p2 N q ∨ in_array p3 N q)) as [Hin|Hout];
      [done|].
    simpl. destruct (heap h4 !! q) as [x|] eqn:Hx; [|done]. exfalso. apply Hout.
    apply Hdom. rewrite <- Hheap2. apply Hdom4. by exists x.
  - rewrite Hbl5. simpl. rewrite Hbl4, Hbl2. simpl. rewrite Hbl.
    destruct (decide (N < 0)); [done|]. apply delete3_insert3.
  - rewrite Hrc5. simpl. rewrite Hrc4, Hrc2. simpl.
    destruct Hv as (_ & _ & -> & _). simpl. lia.
Qed.

(** ** The two programs side by side *)

Section Side_by_side.
Import OpenCL.

Lemma session_event_call c st : session_event (Call c st).
Proof. right. by eexists _, _. Qed.

Ltac events :=
  repeat first
    [ apply Forall_app_2 | apply Forall_cons_2 | apply Forall_nil_2
    | apply session_event_call | by left ].

Lemma session_calls_events env src name n : Forall session_event (session_calls env src name n).
Proof. unfold session_calls, device_calls, build_calls. case_decide; events. Qed.

Lemma device_path_calls_events env N c q k n :
  Forall session_event (device_path_calls env N c q k n).
Proof. unfold device_path_calls, setarg_calls. events. Qed.

Lemma final_release_calls_events : Forall session_event final_release_calls.
Proof. unfold final_release_calls. events. Qed.
End Side_by_side.

(** X19.  Run with the same vector length, the OpenMP program and the
    OpenCL program on a platform where every call succeeds print the
    same three vectors: the same [v1], the same [v2] and the same
    [v_out], truncated alike; what the OpenCL program shows besides are
    its calls into the runtime and, without a GPU, the fallback line. *)
Theorem X19_same_printed_vectors `{Platform} env (argv_omp argv_ocl : list string) src :
  cli_size argv_omp = cli_size argv_ocl →
  session_ok env kernel_file src → device_ok env (cli_size argv_ocl) →
  ∃ h1 g1 s2 a b out t1 t2,
    OpenMP.main argv_omp (host0, OpenMP.globals0) = Ret 0 (h1, g1) ∧
    OpenCL.main env argv_ocl (host0, OpenCL.state0) = Ret 0 s2 ∧
    trace h1 = [threads_line; Stdout ("Vector v1:" +:+ LF)] ++ printed a ++
               [Stdout ("Vector v2:" +:+ LF)] ++ printed b ++
               [Stdout ("Vector v_out (OpenMP):" +:+ LF)] ++ printed out ++
               [StdoutMs "CPU (OpenMP) Execution Time: "] ∧
    trace s2.1 = [Stdout ("Vector v1:" +:+ LF)] ++ printed a ++
                 [Stdout ("Vector v2:" +:+ LF)] ++ printed b ++ t1 ++
                 [Stdout ("Vector v_out (OpenCL):" +:+ LF)] ++ printed out ++
                 [StdoutMs "OpenCL Kernel Execution Time: "] ++ t2 ∧
    Forall session_event t1 ∧ Forall session_event t2.
Proof.
  intros HN Hs Hd.
  destruct (omp_main_spec argv_omp) as (h1 & Homp & Htr1).
  destruct (ocl_main_ok env argv_ocl src Hs Hd) as (h2 & s2 & Hocl & Htr2 & _).
  rewrite HN in Htr1. set (N := cli_size argv_ocl) in *.
  exists h1, {| OpenMP.SZ := cli_size argv_omp |}, (h2, s2),
    (init_values 0 N), (init_values (Z.to_nat N) N),
    (zip_with int_add (init_values 0 N) (init_values (Z.to_nat N) N)),
    (session_calls env src kernel_name 1 ++ device_path_calls env N 1 3 4 5),
    final_release_calls.
  split; [exact Homp|]. split; [exact Hocl|]. split; [|split; [|split]].
  - rewrite Htr1. unfold omp_report. reflexivity.
  - cbn [fst]. rewrite Htr2. unfold ocl_trace, ocl_inputs, ocl_results.
    by rewrite <- !app_assoc.
  - apply Forall_app. split; [apply session_calls_events|apply device_path_calls_events].
  - apply final_release_calls_events.
Qed.

(** ** The set-up when it succeeds, and device selection by cases *)

(** X20.  When every call of the set-up succeeds, it makes these calls
    and no other, in this order: the platform and device queries, the
    context for the selected device, the program in that context from
    the text of the named file, its build, the command queue for the
    context and the device, and the kernel of the program by the given
    name.  The globals [context], [program], [queue] and [kernel] hold
    the four objects in the order of their creation, [device_id] the
    selected device, and [err] a status that is not negative; the other
    globals are as before. *)
Theorem X20_setup_creation_order env filename kernelname src (h : host) f m a n :
  session_ok env filename src →
  let dev := selected_device env in
  ∃ f', OpenCL.setup_openCL_device_context_queue_kernel env filename kernelname
          (h, {| OpenCL.vars := f;
                 OpenCL.device := {| OpenCL.mem := m; OpenCL.kargs := a; OpenCL.fresh := n |} |}) =
        Ret tt (logs (device_calls env ++
                      [Call (clCreateContext dev) (OpenCL.st_context env);
                       Call (clCreateProgramWithSource n src) (OpenCL.st_program env);
                       Call (clBuildProgram (n + 1)) (OpenCL.st_build env);
                       Call (clCreateCommandQueueWithProperties n dev) (OpenCL.st_queue env);
                       Call (clCreateKernel (n + 1) kernelname) (OpenCL.st_kernel env)]) h,
                {| OpenCL.vars := f';
                   OpenCL.device := {| OpenCL.mem := m; OpenCL.kargs := a;
                                       OpenCL.fresh := n + 4 |} |}) ∧
        f' OpenCL.device_id = dev ∧ f' OpenCL.context = n ∧ f' OpenCL.program = n + 1 ∧
        f' OpenCL.queue = n + 2 ∧ f' OpenCL.kernel = n + 3 ∧ 0 ≤ f' OpenCL.err ∧
        (∀ x, x ∈ [OpenCL.SZ; OpenCL.v1; OpenCL.v2; OpenCL.v_out; OpenCL.bufV1;
                   OpenCL.bufV2; OpenCL.bufV_out; OpenCL.event] → f' x = f x).
Proof.
  intros Hs dev.
  destruct (setup_ok env filename kernelname src h f m a n Hs) as (f' & Hrun & Hrest).
  exists f'. split; [|exact Hrest]. rewrite Hrun.
  unfold session_calls, build_calls. reflexivity.
Qed.

(** X21.  [create_device] returns exactly when the platform is
    identified and has a GPU, or has no GPU but a CPU, and it then
    returns the device of the query that succeeded; in every other case
    it ends the process with exit status 1 after a diagnostic.  A GPU
    query that fails for another reason than [CL_DEVICE_NOT_FOUND] is
    such a case: the CPU is not tried. *)
Theorem X21_create_device_by_cases env (h : host) (s : OpenCL.state) :
  let o := OpenCL.create_device env (h, s) in
  ((∃ d s', o = Ret d s') ↔ device_found env) ∧
  (∀ d s', o = Ret d s' → d = selected_device env ∧ 0 ≤ OpenCL.vars s'.2 OpenCL.err) ∧
  (¬ device_found env →
     ∃ s' msg, o = Exit 1 s' ∧ last (trace s'.1) = Some (Stderr msg)) ∧
  (0 ≤ OpenCL.st_platform env → OpenCL.st_gpu env < 0 →
   OpenCL.st_gpu env ≠ OpenCL.CL_DEVICE_NOT_FOUND →
     ∃ s', o = Exit 1 s' ∧
           trace s'.1 = trace h ++
             [Call clGetPlatformIDs (OpenCL.st_platform env);
              Call (clGetDeviceIDs CL_DEVICE_TYPE_GPU) (OpenCL.st_gpu env);
              Stderr "Couldn't access any devices"]).
Proof.
  intros o. destruct s as [f r].
  assert (Hfound : device_found env →
            ∃ f', o = Ret (selected_device env)
                        (logs (device_calls env) h,
                         {| OpenCL.vars := f'; OpenCL.device := r |}) ∧ 0 ≤ f' OpenCL.err).
  { intros Hd. destruct (create_device_found env h f r Hd) as (f' & Hrun & Herr & _).
    by exists f'. }
  assert (Hnot : ¬ device_found env →
            ∃ s' msg, o = Exit 1 s' ∧ last (trace s'.1) = Some (Stderr msg)).
  { intros Hn. unfold device_found in Hn.
    destruct (decide (0 ≤ OpenCL.st_platform env)) as [Hp|Hp].
    - destruct (decide (OpenCL.st_gpu env = OpenCL.CL_DEVICE_NOT_FOUND)) as [Hg|Hg].
      + assert (OpenCL.st_cpu env < 0) as Hc by (destruct (decide (0 ≤ OpenCL.st_cpu env)); [tauto|lia]).
        unfold o. rewrite (create_device_none env h f r Hp Hg Hc).
        eexists _, _. split; [reflexivity|]. cbn [fst]. rewrite trace_logs.
        by rewrite last_app.
      + assert (OpenCL.st_gpu env < 0) as Hlt by (destruct (decide (0 ≤ OpenCL.st_gpu env)); [tauto|lia]).
        unfold o. rewrite (create_device_gpu_error env h f r Hp Hlt Hg).
        eexists _, _. split; [reflexivity|]. cbn [fst]. rewrite trace_logs.
        by rewrite last_app.
    - unfold o. rewrite (create_device_no_platform env h f r ltac:(lia)).
      eexists _, _. split; [reflexivity|]. cbn [fst]. rewrite trace_logs.
      by rewrite last_app. }
  split; [split|split; [|split]].
  - intros (d & s' & Hrun). destruct (decide (device_found env)) as [Hd|Hd]; [done|].
    destruct (Hnot Hd) as (s2 & msg & Hex & _). congruence.
  - intros Hd. destruct (Hfound Hd) as (f' & Hrun & _). by eexists _, _.
  - intros d s' Hrun. destruct (decide (device_found env)) as [Hd|Hd].
    + destruct (Hfound Hd) as (f' & Hrun' & Herr). rewrite Hrun in Hrun'.
      inversion Hrun'; subst d s'. by split.
    + destruct (Hnot Hd) as (s2 & msg & Hex & _). congruence.
  - exact Hnot.
  - intros Hp Hlt Hg. unfold o. rewrite (create_device_gpu_error env h f r Hp Hlt Hg).
    eexists. split; [reflexivity|]. apply trace_logs.
Qed.

(** ** The calls of the device path, on every platform *)

Section Device_sequence.
Import OpenCL.
Variable env : cl_env.

Lemma write_buffer_Ret buf v h f r s' :
  write_buffer env buf v (h, {| vars := f; device := r |}) = Ret tt s' →
  ∃ st r', s' = (log (Call (clEnqueueWriteBuffer (f queue) (f buf)
                              (size_t (f SZ * sizeof_int))) st) h,
                 {| vars := f; device := r' |}).
Proof.
  destruct r as [m a n]. unfold write_buffer, cl_EnqueueWriteBuffer. run.
  match goal with |- context [if ?c <? 0 then _ else _] => destruct (c <? 0) end.
  - run. unfold ret. intros [= <-]. by eexists _, _.
  - unfold bind.
    match goal with |- context [read_array ?a ?b ?c] => destruct (read_array a b c) end;
      [|done].
    destruct (m !! f buf); [|done]. unfold ret. intros [= <-]. by eexists _, _.
Qed.

Lemma launch_Ret global h f r s' :
  (q <- get queue ;; k <- get kernel ;; ev <- get event ;;
   r <- cl_EnqueueNDRangeKernel env q k global ev ;;
   set event (snd r)) (h, {| vars := f; device := r |}) = Ret tt s' →
  ∃ st ev r', s' = (log (Call (clEnqueueNDRangeKernel (f queue) (f kernel) global) st) h,
                    {| vars := <[event := ev]> f; device := r' |}).
Proof.
  destruct r as [m a n]. unfold cl_EnqueueNDRangeKernel. run.
  match goal with |- context [if ?c <? 0 then _ else _] => destruct (c <? 0) end.
  - run. unfold set. intros [= <-]. by eexists _, _, _.
  - destruct (bound_args {| mem := m; kargs := a; fresh := n |})
      as [[[[[size xa] xb] ho] out]|]; [|done].
    destruct (run_work_items (seqZ 0 global) size xa xb out); [|done].
    run. unfold set. intros [= <-]. by eexists _, _, _.
Qed.

Lemma wait_eq h f r :
  ∃ st, (ev <- get event ;; cl_WaitForEvents env ev) (h, {| vars := f; device := r |}) =
        Ret st (log (Call (clWaitForEvents (f event)) st) h, {| vars := f; device := r |}).
Proof. unfold cl_WaitForEvents. run. by eexists. Qed.

(** The copies of the read-back change the host memory only. *)
Lemma read_back_Ret ptr (cells : list Z) idxs : ∀ h (s : state) s',
  for_ idxs (λ i, on_host (set_elem ptr i (default 0 (cells !! Z.to_nat i)))) (h, s) = Ret tt s' →
  trace s'.1 = trace h ∧ s'.2 = s.
Proof.
  induction idxs as [|i rest IH]; intros h s s' Hrun; simpl in Hrun.
  - by inversion Hrun.
  - apply bind_Ret_inv in Hrun as ([] & [h1 s1] & Hstep & Hrun).
    unfold on_host, set_elem in Hstep.
    destruct (store (heap h) ptr i _); [|done]. inversion Hstep; subst h1 s1.
    by apply IH in Hrun.
Qed.

Lemma read_Ret h f r st s' :
  (q <- get queue ;; b <- get bufV_out ;; n <- get SZ ;; p <- get v_out ;;
   cl_EnqueueReadBuffer env q b (size_t (n * sizeof_int)) p)
    (h, {| vars := f; device := r |}) = Ret st s' →
  trace s'.1 = trace h ++ [Call (clEnqueueReadBuffer (f queue) (f bufV_out)
                                   (size_t (f SZ * sizeof_int))) st] ∧
  s'.2 = {| vars := f; device := r |}.
Proof.
  destruct r as [m a n]. unfold cl_EnqueueReadBuffer. run.
  match goal with |- context [if ?c <? 0 then _ else _] => destruct (c <? 0) end.
  - run. unfold ret. intros [= <- <-]. done.
  - destruct (m !! f bufV_out) as [cells|]; [|done].
    intros Hrun. apply bind_Ret_inv in Hrun as ([] & s1 & Hloop & Hret).
    inversion Hret; subst st s1. by apply read_back_Ret in Hloop.
Qed.

(** The calls of the device path when it returns: their order and
    their arguments do not depend on what they return. *)
Lemma main_device_Ret global h f r s' :
  main_device env global (h, {| vars := f; device := r |}) = Ret tt s' →
  let bytes := size_t (f SZ * sizeof_int) in
  ∃ st1 st2 st3 st4 st5 st6 st7 st8,
    trace s'.1 = trace h ++
      [Call (clCreateBuffer (f context) bytes) st1;
       Call (clCreateBuffer (f context) bytes) st2;
       Call (clCreateBuffer (f context) bytes) st3;
       Call (clEnqueueWriteBuffer (f queue) (vars s'.2 bufV1) bytes) st4;
       Call (clEnqueueWriteBuffer (f queue) (vars s'.2 bufV2) bytes) st5] ++
      setarg_calls env (f kernel) ++
      [Call (clEnqueueNDRangeKernel (f queue) (f kernel) global) st6;
       Call (clWaitForEvents (vars s'.2 event)) st7;
       Call (clEnqueueReadBuffer (f queue) (vars s'.2 bufV_out) bytes) st8] ∧
    0 ≤ f err ∧
    ∀ x, x ∉ [bufV1; bufV2; bufV_out; event] → vars s'.2 x = f x.
Proof.
  intros Hrun bytes. destruct r as [m a n].
  unfold main_device, setup_kernel_memory in Hrun. rewrite !bind_assoc in Hrun.
  destruct (create_buffer_any env bufV1 h f m a n) as (b1 & [m1 a1 n1] & E1).
  rewrite (bind_Ret _ _ _ _ _ E1) in Hrun. clear E1. rewrite !bind_assoc in Hrun.
  match type of Hrun with bind _ _ (?h1, {| vars := ?f1; device := _ |}) = _ =>
    destruct (create_buffer_any env bufV2 h1 f1 m1 a1 n1) as (b2 & [m2 a2 n2] & E2)
  end.
  rewrite (bind_Ret _ _ _ _ _ E2) in Hrun. clear E2. rewrite !bind_assoc in Hrun.
  match type of Hrun with bind _ _ (?h1, {| vars := ?f1; device := _ |}) = _ =>
    destruct (create_buffer_any env bufV_out h1 f1 m2 a2 n2) as (b3 & r3 & E3)
  end.
  rewrite (bind_Ret _ _ _ _ _ E3) in Hrun. clear E3. rewrite ?bind_assoc in Hrun.
  rewrite !logs_logs in Hrun. rewrite !var_insert_ne in Hrun by discriminate.
  fold bytes in Hrun. simpl app in Hrun.
  set (f3 := <[bufV_out := b3]> (<[bufV2 := b2]> (<[bufV1 := b1]> f))) in Hrun.
  assert (Hf3 : ∀ x, x ∉ [bufV1; bufV2; bufV_out; event] → f3 x = f x).
  { intros x Hx. unfold f3. rewrite !not_elem_of_cons in Hx.
    rewrite !var_insert_ne; [done|intros <-; intuition congruence..]. }
  apply bind_Ret_inv in Hrun as ([] & s4 & W1 & Hrun).
  apply write_buffer_Ret in W1 as (st4 & r4 & ->).
  apply bind_Ret_inv in Hrun as ([] & s5 & W2 & Hrun).
  apply write_buffer_Ret in W2 as (st5 & r5 & ->).
  destruct (decide (0 ≤ f3 err)) as [Herr|Herr].
  2:{ destruct r5 as [m5 a5 n5].
      rewrite (bind_Exit _ _ _ _ _ (copy_kernel_args_stale env _ f3 m5 a5 n5 ltac:(lia))) in Hrun.
      done. }
  destruct r5 as [m5 a5 n5].
  rewrite (bind_Ret _ _ _ _ _ (copy_kernel_args_eq env _ f3 m5 a5 n5 Herr)) in Hrun.
  apply bind_Ret_inv in Hrun as ([] & s6 & L & Hrun).
  apply launch_Ret in L as (st6 & ev & r6 & ->).
  match type of Hrun with bind _ _ (?hh, {| vars := ?ff; device := ?rr |}) = _ =>
    destruct (wait_eq hh ff rr) as (st7 & Ew)
  end.
  rewrite (bind_Ret _ _ _ _ _ Ew) in Hrun. clear Ew.
  apply bind_Ret_inv in Hrun as (st8 & s8 & R & Hrun).
  inversion Hrun; subst s8; clear Hrun.
  apply read_Ret in R as (Htr & Hs). rewrite Hs. cbn [snd vars].
  eexists _, _, _, st4, st5, st6, st7, st8.
  split; [|split].
  - rewrite Htr. simpl trace.
    repeat (rewrite var_insert_eq || rewrite var_insert_ne by discriminate).
    rewrite !(Hf3 queue), !(Hf3 kernel), !(Hf3 SZ) by
      (rewrite !not_elem_of_cons; repeat split; try discriminate; apply not_elem_of_nil).
    fold bytes. rewrite <- !app_assoc. reflexivity.
  - rewrite <- (Hf3 err); [done|].
    rewrite !not_elem_of_cons; repeat split; try discriminate; apply not_elem_of_nil.
  - intros x Hx. rewrite var_insert_ne.
    + by apply Hf3.
    + intros <-. apply Hx. in_list.
Qed.
End Device_sequence.

(** X22.  Whenever the device path of [main] returns, it has made
    exactly these twelve calls, in this order and with these arguments,
    whatever each of them returned: three [clCreateBuffer] calls of one
    size, the uploads to [bufV1] and [bufV2], the four [clSetKernelArg]
    calls, the launch over [global] work items, the wait on [event], and
    the read-back from [bufV_out]; and [err] was not negative on
    entry. *)
Theorem X22_device_path_call_sequence env global (h : host) (s : OpenCL.state) s' :
  OpenCL.main_device env global (h, s) = Ret tt s' →
  let v := OpenCL.vars s in
  let v' := OpenCL.vars s'.2 in
  let bytes := OpenCL.size_t (v OpenCL.SZ * OpenCL.sizeof_int) in
  ∃ st1 st2 st3 st4 st5 st6 st7 st8,
    trace s'.1 = trace h ++
      [Call (clCreateBuffer (v OpenCL.context) bytes) st1;
       Call (clCreateBuffer (v OpenCL.context) bytes) st2;
       Call (clCreateBuffer (v OpenCL.context) bytes) st3;
       Call (clEnqueueWriteBuffer (v OpenCL.queue) (v' OpenCL.bufV1) bytes) st4;
       Call (clEnqueueWriteBuffer (v OpenCL.queue) (v' OpenCL.bufV2) bytes) st5;
       Call (clSetKernelArg (v OpenCL.kernel) 0) (OpenCL.st_setarg env 0);
       Call (clSetKernelArg (v OpenCL.kernel) 1) (OpenCL.st_setarg env 1);
       Call (clSetKernelArg (v OpenCL.kernel) 2) (OpenCL.st_setarg env 2);
       Call (clSetKernelArg (v OpenCL.kernel) 3) (OpenCL.st_setarg env 3);
       Call (clEnqueueNDRangeKernel (v OpenCL.queue) (v OpenCL.kernel) global) st6;
       Call (clWaitForEvents (v' OpenCL.event)) st7;
       Call (clEnqueueReadBuffer (v OpenCL.queue) (v' OpenCL.bufV_out) bytes) st8] ∧
    0 ≤ v OpenCL.err.
Proof.
  intros Hrun v v' bytes. destruct s as [f r].
  destruct (main_device_Ret env global h f r s' Hrun)
    as (st1 & st2 & st3 & st4 & st5 & st6 & st7 & st8 & Htr & Herr & _).
  exists st1, st2, st3, st4, st5, st6, st7, st8. split; [|exact Herr].
  rewrite Htr. reflexivity.
Qed.

(** ** What every run of the OpenCL program shows first *)

Section Inputs_first.
Context `{Platform}.
Import OpenCL.


End Inputs_first.


(** ** The further properties at concrete inputs *)

Lemma schedule_sample_rev : OpenMP.schedule 5 [4; 3; 2; 1; 0].
Proof. unfold OpenMP.schedule. apply (bool_decide_unpack _). vm_compute. exact I. Defined.

Lemma lcg_nonneg k : 0 ≤ Sample.lcg k.
Proof. unfold Sample.lcg. apply Z.mod_pos_bound. lia. Defined.

Lemma device_found_sample kernel src : device_found (sample_session kernel src).
Proof. unfold device_found. simpl. split; [lia|left; lia]. Defined.

(** In place: [a += b] on the spec's example. *)
Lemma X1_witness :
  ∃ h', OpenMP.vector_add_openmp_sched [3; 0; 4; 1; 2] 10 20 10 Sample.heap5 = Some h' ∧
        OpenMP.vector_add_openmp_sched [4; 3; 2; 1; 0] 10 20 10 Sample.heap5 = Some h' ∧
        OpenMP.vector_add_openmp 10 20 10 5 Sample.heap5 = Some h' ∧
        read_array h' 10 5 = Some [12; 3; 10; 6; 8].
Proof.
  apply (X1_schedule_independent [3; 0; 4; 1; 2] [4; 3; 2; 1; 0] 10 20 10 5 Sample.heap5
           Sample.a5 Sample.b5).
  - exact schedule_sample.
  - exact schedule_sample_rev.
  - reflexivity.
  - reflexivity.
  - eexists. reflexivity.
  - left. reflexivity.
  - right. unfold apart. lia.
Defined.

Lemma X2_witness :
  is_Some (OpenMP.vector_add_openmp_sched [3; 0; 4; 1; 2] 10 20 30 Sample.heap5) ↔
  ∀ i, 0 ≤ i < 5 → cells_allocated Sample.heap5 10 20 30 i.
Proof.
  apply (X2_defined_iff_allocated [3; 0; 4; 1; 2] 10 20 30 5 Sample.heap5).
  exact schedule_sample.
Defined.

Lemma X3_witness :
  ∃ h1, OpenMP.vector_add_openmp_sched [3; 0; 4; 1; 2] 10 20 30 Sample.heap5 = Some h1 ∧
        OpenMP.vector_add_openmp_sched [4; 3; 2; 1; 0] 10 20 30 h1 = Some h1.
Proof.
  destruct (OpenMP.vector_add_openmp_sched [3; 0; 4; 1; 2] 10 20 30 Sample.heap5)
    as [h1|] eqn:E; [|exfalso; vm_compute in E; discriminate].
  exists h1. split; [reflexivity|].
  apply (X3_second_call_changes_nothing [3; 0; 4; 1; 2] [4; 3; 2; 1; 0] 10 20 30 5
           Sample.heap5 h1).
  - exact schedule_sample.
  - exact schedule_sample_rev.
  - unfold apart. lia.
  - unfold apart. lia.
  - exact E.
Defined.


Lemma X6_witness :
  ∃ p h',
    OpenMP.init (H := Sample.platform) (-3) host0 = Ret p h' ∧
    OpenCL.init (H := Sample.platform) (-3) host0 = Ret p h' ∧
    heap h' = heap host0 ∧ rand_calls h' = rand_calls host0 ∧ trace h' = trace host0 ∧
    (-3 < 0 → p = NULL ∧ h' = host0).
Proof. apply (X6_init_nonpositive (H := Sample.platform) (-3) host0). lia. Defined.

Lemma X7_witness : ∃ h', OpenMP.print 10 5 Sample.host5 = Ret tt h'.
Proof.
  apply (proj1 (X7_print_reads 10 5 Sample.host5)).
  unfold print_indices. simpl.
  repeat (apply Forall_cons_2; [eexists; reflexivity|]). apply Forall_nil_2.
Defined.

Lemma X9_witness :
  ∃ h' g, OpenMP.main (H := Sample.platform) ["prog"; "4"] (host0, OpenMP.globals0)
            = Ret 0 (h', g) ∧
          Forall (λ z, 0 ≤ z ≤ 198)
            (zip_with Z.add (init_values (H := Sample.platform) 0 4)
                            (init_values (H := Sample.platform) 4 4)).
Proof.
  destruct (X9_openmp_sums_exact (H := Sample.platform) ["prog"; "4"] lcg_nonneg)
    as (h' & g & Hmain & _ & Hr).
  exists h', g. split; [exact Hmain|exact Hr].
Defined.

Lemma X10_witness :
  ∃ h' g, OpenMP.main (H := Sample.platform) ["prog"; "0"] (host0, OpenMP.globals0)
            = Ret 0 (h', g) ∧
          rand_calls h' = 0%nat.
Proof.
  destruct (X10_openmp_nonpositive_length (H := Sample.platform) ["prog"; "0"])
    as (h' & g & Hmain & Hrc & _).
  - vm_compute. discriminate.
  - exists h', g. split; [exact Hmain|exact Hrc].
Defined.

Lemma X11_witness :
  ∃ s', OpenCL.setup_openCL_device_context_queue_kernel
          (Sample.rejects "error: use of undeclared identifier 'gid'" 32)
          kernel_file kernel_name (host0, OpenCL.state0) = Crash s'.
Proof.
  destruct (X11_setup_outcomes (Sample.rejects "error: use of undeclared identifier 'gid'" 32)
              kernel_file kernel_name host0 OpenCL.state0) as (_ & Hcrash & _).
  apply Hcrash.
  - unfold device_found. simpl. split; [lia|left; lia].
  - simpl. lia.
  - split; [by eexists|]. right. split; [simpl; lia|]. split; [simpl; lia|].
    intros [Hm _]. vm_compute in Hm. discriminate.
Defined.

Lemma X12_witness :
  ∃ s', OpenCL.setup_openCL_device_context_queue_kernel
          (sample_session (-46) (Some "__kernel")) "k.cl" "vector_add_ocl"
          (host0, OpenCL.state0) = Exit 1 s' ∧
        last (trace s'.1) = Some (Stderr "Couldn't create a kernel").
Proof.
  destruct (X12_setup_diagnostics (sample_session (-46) (Some "__kernel")) "k.cl"
              "vector_add_ocl" "__kernel" host0 OpenCL.vars0 ∅ ∅ 1)
    as (_ & _ & _ & _ & Hk).
  destruct Hk as (s' & Hrun & Htr).
  - unfold reaches_build. split; [apply device_found_sample|]. simpl. split; [lia|].
    split; [|lia]. unfold reads, buffer_served. simpl. repeat split; reflexivity.
  - simpl. lia.
  - simpl. lia.
  - simpl. lia.
  - exists s'. split; [exact Hrun|]. rewrite Htr. reflexivity.
Defined.

Lemma X13_witness :
  ∃ s', OpenCL.setup_openCL_device_context_queue_kernel
          (sample_session 0 None) "./vector_ops_ocl.cl" "vector_add_ocl"
          (host0, OpenCL.state0) = Exit 1 s' ∧
        trace s'.1 = [Call clGetPlatformIDs 0; Call (clGetDeviceIDs CL_DEVICE_TYPE_GPU) 0;
                      Call (clCreateContext 1001) 0;
                      Stderr "Couldn't find the program file"].
Proof.
  apply (X13_missing_kernel_file (sample_session 0 None) "./vector_ops_ocl.cl"
           "vector_add_ocl" host0 OpenCL.state0).
  - apply device_found_sample.
  - simpl. lia.
  - reflexivity.
Defined.

Lemma X14_witness :
  ∃ s', OpenCL.main (H := Sample.platform) Sample.build_fails ["prog"; "4"]
          (host0, OpenCL.state0) = Exit 1 s' ∧
        Forall (λ e, releases e = None ∧ ¬ allocates_buffer e) (trace s'.1) ∧
        OpenCL.mem (OpenCL.device s'.2) = ∅.
Proof.
  destruct (OpenCL.main (H := Sample.platform) Sample.build_fails ["prog"; "4"]
              (host0, OpenCL.state0)) as [c s'|c s'|s'] eqn:E.
  - exfalso. vm_compute in E. discriminate.
  - destruct (X14_exit_releases_nothing (H := Sample.platform) Sample.build_fails
                ["prog"; "4"] c s' E) as (-> & Hq & Hm & _).
    exists s'. split; [reflexivity|]. split; [exact Hq|exact Hm].
  - exfalso. vm_compute in E. discriminate.
Defined.

Lemma X15_witness :
  let s' := (final_state (OpenCL.setup_kernel_memory Sample.all_ok
                            (Sample.host5, Sample.state5))).2 in
  OpenCL.vars s' OpenCL.bufV_out ≠ NULL ∧
  OpenCL.vars s' OpenCL.bufV_out ≠ OpenCL.vars s' OpenCL.bufV1 ∧
  OpenCL.vars s' OpenCL.bufV_out ≠ OpenCL.vars s' OpenCL.bufV2.
Proof.
  destruct (X15_three_buffers_of_one_size Sample.all_ok Sample.host5 Sample.state5)
    as (_ & Hout & _).
  apply Hout.
  - simpl. lia.
  - vm_compute. discriminate.
Defined.

Lemma X16_witness :
  ∃ s', OpenCL.copy_kernel_args Sample.all_ok (Sample.host5, Sample.state5) = Ret tt s' ∧
        OpenCL.kargs (OpenCL.device s'.2) !! 0 = Some 5 ∧
        OpenCL.kargs (OpenCL.device s'.2) !! 3 = Some 0.
Proof.
  destruct (X16_kernel_arguments_in_order Sample.all_ok Sample.host5 Sample.vars5 ∅ ∅ 5)
    as (Hret & _ & Hargs).
  eexists. split; [apply Hret; simpl; lia|]. cbn [snd OpenCL.device OpenCL.kargs]. split.
  - rewrite (Hargs 0 5); [reflexivity|]. apply list_elem_of_In. simpl. tauto.
  - rewrite (Hargs 3 0); [reflexivity|]. apply list_elem_of_In. simpl. tauto.
Defined.

Lemma X17_witness :
  host_kept (in_array 30 5) device_obs Sample.host5 Sample.state5
    (final_state (OpenCL.main_device Sample.all_ok 5 (Sample.host5, Sample.state5))).
Proof.
  apply (X17_device_path_host_frame Sample.all_ok 5 5 Sample.host5 Sample.state5).
  - reflexivity.
  - unfold INT_MAX. lia.
Defined.

Lemma X18_witness :
  ∃ s', OpenCL.main (H := Sample.platform) Sample.all_ok ["prog"; "4"]
          (host0, OpenCL.state0) = Ret 0 s' ∧
        heap s'.1 = ∅ ∧ blocks s'.1 = ∅.
Proof.
  destruct (OpenCL.main (H := Sample.platform) Sample.all_ok ["prog"; "4"]
              (host0, OpenCL.state0)) as [c s'|c s'|s'] eqn:E.
  - destruct (X18_opencl_return_frees_host (H := Sample.platform) Sample.all_ok
                ["prog"; "4"] c s' E) as (-> & Hh & Hb & _).
    exists s'. split; [reflexivity|]. split; [exact Hh|exact Hb].
  - exfalso. vm_compute in E. discriminate.
  - exfalso. vm_compute in E. discriminate.
Defined.

Lemma X19_witness :
  ∃ h1 g1 s2,
    OpenMP.main (H := Sample.platform) ["omp"; "4"] (host0, OpenMP.globals0) = Ret 0 (h1, g1) ∧
    OpenCL.main (H := Sample.platform) Sample.all_ok ["prog"; "4"] (host0, OpenCL.state0)
      = Ret 0 s2.
Proof.
  destruct (X19_same_printed_vectors (H := Sample.platform) Sample.all_ok ["omp"; "4"]
              ["prog"; "4"] "__kernel void vector_add_ocl(...)")
    as (h1 & g1 & s2 & _ & _ & _ & _ & _ & Homp & Hocl & _).
  - reflexivity.
  - exact session_ok_sample.
  - exact device_ok_sample4.
  - exists h1, g1, s2. split; [exact Homp|exact Hocl].
Defined.

Lemma X20_witness :
  ∃ f', OpenCL.setup_openCL_device_context_queue_kernel Sample.all_ok kernel_file kernel_name
          (host0, OpenCL.state0) =
        Ret tt (logs [Call clGetPlatformIDs 0; Call (clGetDeviceIDs CL_DEVICE_TYPE_GPU) 0;
                      Call (clCreateContext 1001) 0;
                      Call (clCreateProgramWithSource 1 "__kernel void vector_add_ocl(...)") 0;
                      Call (clBuildProgram 2) 0;
                      Call (clCreateCommandQueueWithProperties 1 1001) 0;
                      Call (clCreateKernel 2 kernel_name) 0] host0,
                {| OpenCL.vars := f';
                   OpenCL.device := {| OpenCL.mem := ∅; OpenCL.kargs := ∅; OpenCL.fresh := 5 |} |}) ∧
        f' OpenCL.context = 1 ∧ f' OpenCL.program = 2 ∧ f' OpenCL.queue = 3 ∧
        f' OpenCL.kernel = 4.
Proof.
  destruct (X20_setup_creation_order Sample.all_ok kernel_file kernel_name
              "__kernel void vector_add_ocl(...)" host0 OpenCL.vars0 ∅ ∅ 1 session_ok_sample)
    as (f' & Hrun & _ & Hc & Hp & Hq & Hk & _).
  exists f'. split; [exact Hrun|]. by repeat split.
Defined.

Lemma X21_witness :
  ∃ d s', OpenCL.create_device Sample.all_ok (host0, OpenCL.state0) = Ret d s'.
Proof.
  apply (proj1 (X21_create_device_by_cases Sample.all_ok host0 OpenCL.state0)).
  unfold device_found. simpl. split; [lia|left; lia].
Defined.

Lemma X22_witness :
  ∃ s' t, OpenCL.main_device Sample.all_ok 5 (Sample.host5, Sample.state5) = Ret tt s' ∧
          trace s'.1 = t ∧ length t = 12%nat.
Proof.
  destruct (OpenCL.main_device Sample.all_ok 5 (Sample.host5, Sample.state5))
    as [[] s'|c s'|s'] eqn:E.
  - destruct (X22_device_path_call_sequence Sample.all_ok 5 Sample.host5 Sample.state5 s' E)
      as (st1 & st2 & st3 & st4 & st5 & st6 & st7 & st8 & Htr & _).
    exists s'. eexists. split; [reflexivity|]. split; [exact Htr|reflexivity].
  - exfalso. vm_compute in E. discriminate.
  - exfalso. vm_compute in E. discriminate.
Defined.
